(** * AgroCarbonNet backend: a shallow embedding and its specification

    The development follows the layout of the Python backend.

    - [PyStr], [Py], [PyNum], [Json]: the Python values the code works with
      (strings, exceptions and statements, numbers, decoded JSON);
    - [Knowledge]: [crop_knowledge.py], the static tables and their lookups;
    - [Chat]: [emergentintegrations/llm/chat.py], [LlmChat.send_message];
    - [Weather]: [weather_service.py], [get_coordinates], [get_weather],
      [get_weather_advisory];
    - [Lang], [Server] and [Routes]: [server.py], [detect_language],
      [get_state_from_location], [predict_yield_ml], the statements of the
      routes that call the database, the two knowledge routes with a 404
      answer and the chart routes [get_yield_comparison_chart] and
      [get_factors_chart].  The prompt text, the speech and vision routes,
      [chat] and [build_context_message] (which print Python dictionaries),
      and the chart routes [get_recommendations_chart] (whose texts truncate
      binary floats) and [get_seasonal_chart] are not embedded.

    The modules whose name ends in [Spec] hold the vocabulary of the
    statements and the sample data; those whose name ends in [Facts] hold the
    lemmas.

    Modelling conventions.

    - A Python [str] is the list of its Unicode code points.
    - A Python [float] is the rational it denotes and arithmetic is exact:
      binary64 rounding, infinities and NaN are outside the model.
      Comparisons of a finite float with an integer threshold are exact in
      Python too.
    - A function that mutates an object, logs or talks to the outside world is
      a state-passing function that may raise ([Py.M]).  What comes from
      outside (an HTTP answer, the acceptance of a write by MongoDB, the
      pickled regressor and encoders, the CSV of crop statistics, [uuid4()],
      [utcnow()]) is an argument of the embedded function, and what goes out
      (requests, log records) is recorded in the state. *)

From Stdlib Require Import ZArith NArith QArith Qround Bool List String Ascii.
From Stdlib Require Import DecimalString Lia Lqa.
Import ListNotations.

Set Implicit Arguments.
Set Warnings "-register-all".

(* ================================================================== *)
(** * Python strings *)
(* ================================================================== *)

Module PyStr.

(** A string is a sequence of code points. *)
Definition str := list N.

(** ** Literals: UTF-8 decoding of a Rocq byte string *)

Definition byte_of (a : ascii) : N := N_of_ascii a.

Fixpoint utf8 (s : string) : str :=
  match s with
  | EmptyString => []
  | String a r0 =>
      let b0 := byte_of a in
      if (b0 <? 128)%N then b0 :: utf8 r0
      else if (b0 <? 224)%N then
        match r0 with
        | String a1 r1 =>
            ((b0 mod 32) * 64 + byte_of a1 mod 64)%N :: utf8 r1
        | EmptyString => []
        end
      else if (b0 <? 240)%N then
        match r0 with
        | String a1 (String a2 r2) =>
            ((b0 mod 16) * 4096 + (byte_of a1 mod 64) * 64
             + byte_of a2 mod 64)%N :: utf8 r2
        | _ => []
        end
      else
        match r0 with
        | String a1 (String a2 (String a3 r3)) =>
            ((b0 mod 8) * 262144 + (byte_of a1 mod 64) * 4096
             + (byte_of a2 mod 64) * 64 + byte_of a3 mod 64)%N :: utf8 r3
        | _ => []
        end
  end.

(** ** Equality, [startswith], [in] *)

Fixpoint eqb (s t : str) : bool :=
  match s, t with
  | [], [] => true
  | c :: s', d :: t' => (c =? d)%N && eqb s' t'
  | _, _ => false
  end.

(** [s.startswith(p)] *)
Fixpoint startswith (p s : str) : bool :=
  match p, s with
  | [], _ => true
  | c :: p', d :: s' => (c =? d)%N && startswith p' s'
  | _ :: _, [] => false
  end.

(** [p in s] for two strings: [p] occurs in [s] as a contiguous block. *)
Fixpoint contains (p s : str) : bool :=
  startswith p s ||
  match s with
  | [] => false
  | _ :: s' => contains p s'
  end.

(** [x in xs] for a list (or array) of strings. *)
Definition mem (x : str) (xs : list str) : bool := existsb (eqb x) xs.

(** ** Case mapping

    [str.lower] and [str.title] are exact on ASCII.  Outside ASCII only the
    two code points whose lower case contains an ASCII letter are mapped
    (KELVIN SIGN to [k], LATIN CAPITAL LETTER I WITH DOT ABOVE to [i] followed
    by COMBINING DOT ABOVE); every other code point is left as it is, which
    cannot create or destroy an occurrence of an ASCII word. *)

Definition is_upper (c : N) : bool := (65 <=? c)%N && (c <=? 90)%N.
Definition is_lower (c : N) : bool := (97 <=? c)%N && (c <=? 122)%N.
Definition is_cased (c : N) : bool := is_upper c || is_lower c.

Definition lower_cp (c : N) : str :=
  if is_upper c then [(c + 32)%N]
  else if (c =? 8490)%N then [107%N]
  else if (c =? 304)%N then [105%N; 775%N]
  else [c].

Definition upper_cp (c : N) : str :=
  if is_lower c then [(c - 32)%N] else [c].

(** [s.lower()] *)
Definition lower (s : str) : str := flat_map lower_cp s.

(** [s.title()]: a letter that follows a cased letter is lowered, any other
    letter is capitalised. *)
Fixpoint title_from (prev_cased : bool) (s : str) : str :=
  match s with
  | [] => []
  | c :: s' =>
      (if prev_cased then lower_cp c else upper_cp c)
        ++ title_from (is_cased c) s'
  end.

Definition title (s : str) : str := title_from false s.

(** ** [str.strip()] *)

(** The code points for which [str.isspace] holds. *)
Definition is_space (c : N) : bool :=
  ((9 <=? c) && (c <=? 13) || (28 <=? c) && (c <=? 32)
   || (c =? 133) || (c =? 160) || (c =? 5760)
   || (8192 <=? c) && (c <=? 8202)
   || (c =? 8232) || (c =? 8233) || (c =? 8239) || (c =? 8287)
   || (c =? 12288))%N.

Fixpoint lstrip (s : str) : str :=
  match s with
  | [] => []
  | c :: s' => if is_space c then lstrip s' else s
  end.

Definition rstrip (s : str) : str := rev (lstrip (rev s)).

Definition strip (s : str) : str := rstrip (lstrip s).

(** [s[:n]] *)
Definition take (n : nat) (s : str) : str := firstn n s.

End PyStr.

Notation "'u' s" := (PyStr.utf8 s%string) (at level 1, s at level 0, only parsing).

(* ================================================================== *)
(** * Exceptions *)
(* ================================================================== *)

Module Py.
Import PyStr.

(** An exception: the name of its class and the text [str(e)]. *)
Record exn := Exn { exn_class : str; exn_text : str }.

(** The outcome of evaluating an expression that may raise. *)
Inductive res (A : Type) : Type :=
| Ok (a : A)
| Raise (e : exn).
Arguments Ok {A} a.
Arguments Raise {A} e.

Definition bind_res {A B} (m : res A) (k : A -> res B) : res B :=
  match m with
  | Ok a => k a
  | Raise e => Raise e
  end.

Definition returns {A} (m : res A) : Prop := exists a, m = Ok a.

(** ** Statements: state passing with exceptions

    A statement block run in a state [S] ends normally with a value or
    raises; in both cases the mutations made so far are kept. *)
Section StateExn.
Variable S : Type.

Definition M (A : Type) : Type := S -> res A * S.

Definition ret {A} (a : A) : M A := fun s => (Ok a, s).

Definition raise {A} (e : exn) : M A := fun s => (Raise e, s).

Definition lift {A} (r : res A) : M A := fun s => (r, s).

Definition bind {A B} (m : M A) (k : A -> M B) : M B :=
  fun s =>
    match m s with
    | (Ok a, s') => k a s'
    | (Raise e, s') => (Raise e, s')
    end.

Definition get : M S := fun s => (Ok s, s).

Definition modify (f : S -> S) : M unit := fun s => (Ok tt, f s).

(** [try: body  except Exception as e: handler(e)] *)
Definition try_except {A} (body : M A) (handler : exn -> M A) : M A :=
  fun s =>
    match body s with
    | (Ok a, s') => (Ok a, s')
    | (Raise e, s') => handler e s'
    end.
End StateExn.

Arguments ret {S A} a.
Arguments raise {S A} e.
Arguments lift {S A} r.
Arguments get {S}.
Arguments modify {S} f.

(** Decimal text of an integer, as [str(n)] and [f"{n}"] print it. *)
Definition str_of_Z (z : Z) : str :=
  utf8 (DecimalString.NilZero.string_of_int (Z.to_int z)).

End Py.

Notation "x <- m ;; k" := (Py.bind m (fun x => k))
(at level 61, m at next level, right associativity).
Notation "m ;;; k" := (Py.bind m (fun _ => k))
(at level 61, right associativity).
Notation "'let?' x := m 'in' k" := (Py.bind_res m (fun x => k))
(at level 61, x name, m at next level, right associativity).

(* ================================================================== *)
(** * Numbers *)
(* ================================================================== *)

Module PyNum.

Open Scope Q_scope.

(** A number is an [int] or a [float]; the tag only matters when the
    number is printed. *)
Inductive num := I (z : Z) | F (q : Q).

Definition val (n : num) : Q :=
  match n with
  | I z => inject_Z z
  | F q => q
  end.

Definition Qlt_bool (a b : Q) : bool := negb (Qle_bool b a).

(** [x or d] for an [Optional[float]]: [None] and zero are falsy. *)
Definition or_default (x : option Q) (d : num) : num :=
  match x with
  | Some q => if Qeq_bool q 0 then d else F q
  | None => d
  end.

(** The builtins [min(a, b)] and [max(a, b)]: the first argument is kept
    unless the second is strictly smaller (larger). *)
Definition pymin (a b : Q) : Q := if Qlt_bool b a then b else a.
Definition pymax (a b : Q) : Q := if Qlt_bool a b then b else a.

(** Rounding to the nearest integer, ties to even. *)
Definition round_half_even (q : Q) : Z :=
  let f := Qfloor q in
  let r := q - inject_Z f in
  if Qlt_bool r (1 # 2) then f
  else if Qlt_bool (1 # 2) r then (f + 1)%Z
  else if Z.even f then f else (f + 1)%Z.

(** [round(x, 2)] *)
Definition round2 (q : Q) : Q := inject_Z (round_half_even (q * 100)) / 100.

(** [a + b] *)
Definition add (a b : num) : num :=
  match a, b with
  | I x, I y => I (x + y)
  | _, _ => F (val a + val b)
  end.

(** [f"{x:.0f}"]: the nearest integer, ties to even, keeping the sign of a
    negative number that rounds to zero. *)
Definition fmt_0f (q : Q) : PyStr.str :=
  let z := round_half_even q in
  if (z =? 0)%Z && Qlt_bool q 0 then u"-0" else Py.str_of_Z z.

End PyNum.

(* ================================================================== *)
(** * JSON values *)
(* ================================================================== *)

Module Json.
Import PyStr Py.

Inductive json :=
| JNull
| JBool (b : bool)
| JInt (z : Z)
| JFloat (q : Q)
| JStr (s : str)
| JArr (xs : list json)
| JObj (fields : list (str * json)).

(** [dict.get(key)] on an insertion-ordered dictionary. *)
Fixpoint lookup {A} (key : str) (d : list (str * A)) : option A :=
  match d with
  | [] => None
  | (k, v) :: d' => if eqb k key then Some v else lookup key d'
  end.

(** [for key, value in d.items(): if key in text: return value], the value
    of the first entry whose key occurs in [text]. *)
Fixpoint first_match {A} (d : list (str * A)) (text : str) : option A :=
  match d with
  | [] => None
  | (key, value) :: d' =>
      if contains key text then Some value else first_match d' text
  end.

Definition type_name (j : json) : str :=
  match j with
  | JNull => u"NoneType"
  | JBool _ => u"bool"
  | JInt _ => u"int"
  | JFloat _ => u"float"
  | JStr _ => u"str"
  | JArr _ => u"list"
  | JObj _ => u"dict"
  end.

Definition not_subscriptable (j : json) : exn :=
  Exn (u"TypeError") (u"'" ++ type_name j ++ u"' object is not subscriptable").

(** [j[key]] with a string key. *)
Definition getitem_str (j : json) (key : str) : res json :=
  match j with
  | JObj d =>
      match lookup key d with
      | Some v => Ok v
      | None => Raise (Exn (u"KeyError") (u"'" ++ key ++ u"'"))
      end
  | JArr _ =>
      Raise (Exn (u"TypeError")
               (u"list indices must be integers or slices, not str"))
  | JStr _ =>
      Raise (Exn (u"TypeError") (u"string indices must be integers, not 'str'"))
  | _ => Raise (not_subscriptable j)
  end.

(** [bool(j)] *)
Definition truthy (j : json) : bool :=
  match j with
  | JNull => false
  | JBool b => b
  | JInt z => negb (z =? 0)%Z
  | JFloat q => negb (Qeq_bool q 0)
  | JStr s => negb (eqb s [])
  | JArr xs => match xs with [] => false | _ => true end
  | JObj d => match d with [] => false | _ => true end
  end.

(** The number a value denotes in arithmetic and comparisons, if any. *)
Definition to_num (j : json) : option PyNum.num :=
  match j with
  | JInt z => Some (PyNum.I z)
  | JFloat q => Some (PyNum.F q)
  | JBool b => Some (PyNum.I (if b then 1 else 0))
  | _ => None
  end.

(** [j.get(key, default)] *)
Definition dict_get (j : json) (key : str) (default : json) : res json :=
  match j with
  | JObj d =>
      match lookup key d with
      | Some v => Ok v
      | None => Ok default
      end
  | _ =>
      Raise (Exn (u"AttributeError")
               (u"'" ++ type_name j ++ u"' object has no attribute 'get'"))
  end.

(** [len(j)] *)
Definition len (j : json) : res nat :=
  match j with
  | JStr s => Ok (List.length s)
  | JArr xs => Ok (List.length xs)
  | JObj d => Ok (List.length d)
  | _ =>
      Raise (Exn (u"TypeError")
               (u"object of type '" ++ type_name j ++ u"' has no len()"))
  end.

(** [j[i]] with a natural number [i]. *)
Definition getitem_idx (j : json) (i : nat) : res json :=
  match j with
  | JArr xs =>
      match nth_error xs i with
      | Some x => Ok x
      | None => Raise (Exn (u"IndexError") (u"list index out of range"))
      end
  | JStr s =>
      match nth_error s i with
      | Some c => Ok (JStr [c])
      | None => Raise (Exn (u"IndexError") (u"string index out of range"))
      end
  | JObj _ => Raise (Exn (u"KeyError") (str_of_Z (Z.of_nat i)))
  | _ => Raise (not_subscriptable j)
  end.

Definition not_comparable (op : str) (j : json) : exn :=
  Exn (u"TypeError")
      (u"'" ++ op ++ u"' not supported between instances of '"
         ++ type_name j ++ u"' and 'int'").

(** [j > n] and [j < n] for an integer literal [n]. *)
Definition gt (j : json) (n : Z) : res bool :=
  match to_num j with
  | Some x => Ok (PyNum.Qlt_bool (inject_Z n) (PyNum.val x))
  | None => Raise (not_comparable (u">") j)
  end.

Definition lt (j : json) (n : Z) : res bool :=
  match to_num j with
  | Some x => Ok (PyNum.Qlt_bool (PyNum.val x) (inject_Z n))
  | None => Raise (not_comparable (u"<") j)
  end.

(** [j[0]] *)
Definition getitem_0 (j : json) : res json :=
  match j with
  | JArr (x :: _) => Ok x
  | JArr [] => Raise (Exn (u"IndexError") (u"list index out of range"))
  | JStr (c :: _) => Ok (JStr [c])
  | JStr [] => Raise (Exn (u"IndexError") (u"string index out of range"))
  | JObj _ => Raise (Exn (u"KeyError") (u"0"))
  | _ => Raise (not_subscriptable j)
  end.

End Json.

(* ================================================================== *)
(** * crop_knowledge.py *)
(* ================================================================== *)

Module Knowledge.
Import PyStr Py Json.

(** A [{"min": _, "max": _, "avg": _}] dictionary. *)
Record range := { rmin : Z; rmax : Z; ravg : Z }.

(** An entry of [CROP_KNOWLEDGE], with the keys the server reads:
    ["yield_range_kg_ha"], ["optimal_soil"], ["fertilizer_recommendation"]
    and ["tips"].  The other keys are descriptive texts that no function
    modelled here inspects. *)
Record CropInfo := {
  yield_range_kg_ha : range;
  optimal_soil : list str;
  fertilizer_recommendation : list (str * str);
  tips : list str
}.

(** An entry of [STATE_AGRI_INFO], with its key ["rainfall_mm"]. *)
Record StateInfo := { state_rainfall_mm : range }.

Definition CROP_KNOWLEDGE : list (str * CropInfo) :=
  [
   (u"chickpea",
    {| yield_range_kg_ha := {| rmin := 800; rmax := 2000; ravg := 1200 |};
       optimal_soil := [u"Black"; u"Loamy"; u"Sandy loam"];
       fertilizer_recommendation :=
         [(u"N", u"20 kg/ha"); (u"P", u"40 kg/ha"); (u"K", u"20 kg/ha")];
       tips :=
         [u"Seed treatment with Rhizobium culture increases yield by 15-20%";
       u"Avoid waterlogging - chickpea is highly sensitive";
       u"One irrigation at flowering critical for pod filling";
       u"Use wilt-resistant varieties in endemic areas"] |});
   (u"pigeon_pea",
    {| yield_range_kg_ha := {| rmin := 600; rmax := 1500; ravg := 900 |};
       optimal_soil := [u"Loamy"; u"Sandy loam"; u"Red"];
       fertilizer_recommendation :=
         [(u"N", u"20 kg/ha"); (u"P", u"50 kg/ha"); (u"K", u"20 kg/ha")];
       tips :=
         [u"Use ICPL 87119 (Asha) for wilt resistance";
       u"Nipping at 30 days promotes branching";
       u"IPM with pheromone traps reduces pod borer by 40%";
       u"Intercrop with sorghum or cotton for better returns"] |});
   (u"lentil",
    {| yield_range_kg_ha := {| rmin := 600; rmax := 1500; ravg := 900 |};
       optimal_soil := [u"Loamy"; u"Clay loam"; u"Alluvial"];
       fertilizer_recommendation :=
         [(u"N", u"20 kg/ha"); (u"P", u"40 kg/ha"); (u"K", u"20 kg/ha")];
       tips :=
         [u"Conserve soil moisture with mulching";
       u"Avoid late sowing - reduces yield significantly";
       u"Spray 2% urea at flowering for better grain filling";
       u"Harvest when 80% pods turn brown"] |});
   (u"moong",
    {| yield_range_kg_ha := {| rmin := 500; rmax := 1200; ravg := 800 |};
       optimal_soil := [u"Loamy"; u"Sandy loam"; u"Alluvial"];
       fertilizer_recommendation :=
         [(u"N", u"20 kg/ha"); (u"P", u"40 kg/ha"); (u"K", u"20 kg/ha")];
       tips :=
         [u"Use virus-resistant varieties (IPM 02-3, SML 668)";
       u"Short duration crop - ideal for crop intensification";
       u"Yellow sticky traps reduce whitefly by 60%";
       u"Pick mature pods every 3-4 days for multiple harvests"] |});
   (u"urad",
    {| yield_range_kg_ha := {| rmin := 500; rmax := 1200; ravg := 750 |};
       optimal_soil := [u"Loamy"; u"Clay loam"; u"Black"];
       fertilizer_recommendation :=
         [(u"N", u"20 kg/ha"); (u"P", u"40 kg/ha"); (u"K", u"20 kg/ha")];
       tips :=
         [u"Select YMV resistant varieties";
       u"Avoid waterlogging at all costs";
       u"Seed treatment with Trichoderma prevents root rot";
       u"Harvest when 80% pods mature to avoid shattering"] |});
   (u"mustard",
    {| yield_range_kg_ha := {| rmin := 1000; rmax := 2500; ravg := 1500 |};
       optimal_soil := [u"Loamy"; u"Sandy loam"; u"Alluvial"];
       fertilizer_recommendation :=
         [(u"N", u"80 kg/ha"); (u"P", u"40 kg/ha"); (u"K", u"40 kg/ha"); (u"Sulphur", u"40 kg/ha")];
       tips :=
         [u"Apply sulphur for higher oil content (increases by 2-3%)";
       u"Control aphids before flowering stage";
       u"Thiram seed treatment prevents seedling diseases";
       u"Harvest when 75% siliquae turn yellow"] |});
   (u"sunflower",
    {| yield_range_kg_ha := {| rmin := 1000; rmax := 2000; ravg := 1400 |};
       optimal_soil := [u"Loamy"; u"Clay loam"; u"Black"];
       fertilizer_recommendation :=
         [(u"N", u"60 kg/ha"); (u"P", u"60 kg/ha"); (u"K", u"30 kg/ha")];
       tips :=
         [u"Use hybrids for 30-40% higher yield";
       u"Boron application improves seed setting";
       u"Bird scaring needed during maturity";
       u"Harvest when back of head turns yellow"] |});
   (u"castor",
    {| yield_range_kg_ha := {| rmin := 1000; rmax := 2500; ravg := 1500 |};
       optimal_soil := [u"Sandy loam"; u"Loamy"; u"Red"];
       fertilizer_recommendation :=
         [(u"N", u"60 kg/ha"); (u"P", u"40 kg/ha"); (u"K", u"20 kg/ha")];
       tips :=
         [u"India is world's largest castor producer";
       u"Use GCH-7 hybrid for high yield";
       u"IPM reduces pest management cost by 50%";
       u"Harvest spikes when capsules turn brown"] |});
   (u"sesame",
    {| yield_range_kg_ha := {| rmin := 300; rmax := 800; ravg := 450 |};
       optimal_soil := [u"Sandy loam"; u"Loamy"; u"Alluvial"];
       fertilizer_recommendation :=
         [(u"N", u"40 kg/ha"); (u"P", u"20 kg/ha"); (u"K", u"20 kg/ha")];
       tips :=
         [u"Drought tolerant - ideal for rainfed areas";
       u"White seeded varieties fetch premium";
       u"Harvest when lower capsules start browning";
       u"Stack harvested plants upside down to dry"] |});
   (u"tomato",
    {| yield_range_kg_ha := {| rmin := 20000; rmax := 50000; ravg := 30000 |};
       optimal_soil := [u"Loamy"; u"Sandy loam"; u"Red"];
       fertilizer_recommendation :=
         [(u"N", u"120 kg/ha"); (u"P", u"60 kg/ha"); (u"K", u"60 kg/ha")];
       tips :=
         [u"Stake plants for better quality fruits";
       u"Drip irrigation increases yield by 30%";
       u"Use TLCV resistant hybrids in endemic areas";
       u"Harvest at breaker stage for distant markets"] |});
   (u"potato",
    {| yield_range_kg_ha := {| rmin := 15000; rmax := 35000; ravg := 22000 |};
       optimal_soil := [u"Sandy loam"; u"Loamy"; u"Alluvial"];
       fertilizer_recommendation :=
         [(u"N", u"150 kg/ha"); (u"P", u"100 kg/ha"); (u"K", u"120 kg/ha")];
       tips :=
         [u"Use certified seed tubers only";
       u"Earthing up twice is essential";
       u"Stop irrigation 10 days before harvest";
       u"Cure tubers before storage"] |});
   (u"onion",
    {| yield_range_kg_ha := {| rmin := 15000; rmax := 30000; ravg := 20000 |};
       optimal_soil := [u"Loamy"; u"Clay loam"; u"Alluvial"];
       fertilizer_recommendation :=
         [(u"N", u"100 kg/ha"); (u"P", u"50 kg/ha"); (u"K", u"50 kg/ha"); (u"Sulphur", u"30 kg/ha")];
       tips :=
         [u"Stop irrigation 15 days before harvest";
       u"Cure bulbs for 7-10 days before storage";
       u"Proper ventilation in storage reduces losses";
       u"Grade before selling for better prices"] |});
   (u"chilli",
    {| yield_range_kg_ha := {| rmin := 8000; rmax := 20000; ravg := 12000 |};
       optimal_soil := [u"Loamy"; u"Sandy loam"; u"Black"];
       fertilizer_recommendation :=
         [(u"N", u"100 kg/ha"); (u"P", u"50 kg/ha"); (u"K", u"50 kg/ha")];
       tips :=
         [u"Use virus-free seedlings from protected nursery";
       u"Mulching reduces thrips and conserves moisture";
       u"Pick red chillies at 75% color development";
       u"Solar drying gives better color and quality"] |});
   (u"brinjal",
    {| yield_range_kg_ha := {| rmin := 25000; rmax := 50000; ravg := 35000 |};
       optimal_soil := [u"Loamy"; u"Clay loam"; u"Alluvial"];
       fertilizer_recommendation :=
         [(u"N", u"100 kg/ha"); (u"P", u"50 kg/ha"); (u"K", u"50 kg/ha")];
       tips :=
         [u"Use pheromone traps @ 5/acre for borer monitoring";
       u"Clip and destroy affected shoots weekly";
       u"Harvest at right maturity - shiny fruits";
       u"Avoid waterlogging to prevent bacterial wilt"] |});
   (u"okra",
    {| yield_range_kg_ha := {| rmin := 8000; rmax := 15000; ravg := 10000 |};
       optimal_soil := [u"Loamy"; u"Sandy loam"; u"Alluvial"];
       fertilizer_recommendation :=
         [(u"N", u"100 kg/ha"); (u"P", u"60 kg/ha"); (u"K", u"50 kg/ha")];
       tips :=
         [u"Use YVMV resistant varieties";
       u"Pick tender fruits every 2-3 days";
       u"Seed treatment with Imidacloprid prevents early pest attack";
       u"Summer crop fetches premium prices"] |});
   (u"rice",
    {| yield_range_kg_ha := {| rmin := 2500; rmax := 6500; ravg := 4000 |};
       optimal_soil := [u"Alluvial"; u"Clay"; u"Loamy"];
       fertilizer_recommendation :=
         [(u"N", u"120 kg/ha"); (u"P", u"60 kg/ha"); (u"K", u"40 kg/ha")];
       tips :=
         [u"Maintain 5cm water level during vegetative stage";
       u"Apply nitrogen in 3 splits: basal, tillering, panicle initiation";
       u"Use zinc sulfate @ 25 kg/ha in zinc deficient soils";
       u"Drain field 15 days before harvest"] |});
   (u"wheat",
    {| yield_range_kg_ha := {| rmin := 2500; rmax := 5500; ravg := 3500 |};
       optimal_soil := [u"Alluvial"; u"Loamy"; u"Clay loam"];
       fertilizer_recommendation :=
         [(u"N", u"120 kg/ha"); (u"P", u"60 kg/ha"); (u"K", u"40 kg/ha")];
       tips :=
         [u"Timely sowing before November 25 for optimal yield";
       u"First irrigation at 21 days is critical for crown root development";
       u"Apply nitrogen in 2-3 splits";
       u"Watch for yellow rust in North India during February"] |});
   (u"cotton",
    {| yield_range_kg_ha := {| rmin := 1200; rmax := 2200; ravg := 1500 |};
       optimal_soil := [u"Black"; u"Alluvial"];
       fertilizer_recommendation :=
         [(u"N", u"60-80 kg/ha"); (u"P", u"30 kg/ha"); (u"K", u"30 kg/ha")];
       tips :=
         [u"Use Bt cotton varieties for bollworm resistance";
       u"Maintain proper plant population (11,000-13,000 plants/ha)";
       u"Install pheromone traps for pink bollworm monitoring";
       u"Apply potash for better fiber quality"] |});
   (u"sugarcane",
    {| yield_range_kg_ha := {| rmin := 50000; rmax := 100000; ravg := 75000 |};
       optimal_soil := [u"Alluvial"; u"Loamy"; u"Black"];
       fertilizer_recommendation :=
         [(u"N", u"250-300 kg/ha"); (u"P", u"60-80 kg/ha"); (u"K", u"60 kg/ha")];
       tips :=
         [u"Use disease-free seed material from registered nurseries";
       u"Earthing up twice at 90 and 120 days after planting";
       u"Stop irrigation 3 weeks before harvest for better sugar recovery";
       u"Ratoon management can give 80% of plant crop yield"] |});
   (u"groundnut",
    {| yield_range_kg_ha := {| rmin := 1000; rmax := 2500; ravg := 1500 |};
       optimal_soil := [u"Sandy loam"; u"Red"; u"Loamy"];
       fertilizer_recommendation :=
         [(u"N", u"10-20 kg/ha"); (u"P", u"40 kg/ha"); (u"K", u"40 kg/ha"); (u"Gypsum", u"500 kg/ha at flowering")];
       tips :=
         [u"Apply gypsum at flowering for better pod filling";
       u"Maintain soil moisture during pegging stage";
       u"Harvest at 75-80% mature pods";
       u"Dry pods to 8-10% moisture before storage"] |});
   (u"soybean",
    {| yield_range_kg_ha := {| rmin := 1500; rmax := 2500; ravg := 2000 |};
       optimal_soil := [u"Black"; u"Alluvial"; u"Loamy"];
       fertilizer_recommendation :=
         [(u"N", u"20-30 kg/ha (starter)"); (u"P", u"60-80 kg/ha"); (u"K", u"40 kg/ha")];
       tips :=
         [u"Treat seeds with Rhizobium culture before sowing";
       u"Ensure good drainage - waterlogging is fatal";
       u"Use certified virus-free seeds";
       u"Harvest when 95% pods turn brown"] |});
   (u"maize",
    {| yield_range_kg_ha := {| rmin := 2500; rmax := 6000; ravg := 4000 |};
       optimal_soil := [u"Loamy"; u"Alluvial"; u"Black"];
       fertilizer_recommendation :=
         [(u"N", u"120 kg/ha"); (u"P", u"60 kg/ha"); (u"K", u"40 kg/ha")];
       tips :=
         [u"Critical water requirement during tasseling and silking";
       u"Use single cross hybrids for higher yield";
       u"Watch for fall armyworm - spray at first sign";
       u"Harvest at 20-25% grain moisture"] |});
   (u"bajra",
    {| yield_range_kg_ha := {| rmin := 800; rmax := 2000; ravg := 1200 |};
       optimal_soil := [u"Sandy"; u"Sandy loam"; u"Light soils"];
       fertilizer_recommendation :=
         [(u"N", u"40-60 kg/ha"); (u"P", u"20 kg/ha"); (u"K", u"20 kg/ha")];
       tips :=
         [u"Best suited for arid and semi-arid regions";
       u"Sow with onset of monsoon";
       u"Use hybrid varieties for better yield";
       u"Good for intercropping with pulses"] |});
   (u"jowar",
    {| yield_range_kg_ha := {| rmin := 1000; rmax := 3000; ravg := 1500 |};
       optimal_soil := [u"Black"; u"Clay loam"; u"Medium black"];
       fertilizer_recommendation :=
         [(u"N", u"80 kg/ha"); (u"P", u"40 kg/ha"); (u"K", u"40 kg/ha")];
       tips :=
         [u"Rabi jowar gives better grain quality";
       u"Deep black soils retain moisture for rabi season";
       u"Use shoot fly resistant varieties for kharif";
       u"Harvest at physiological maturity for fodder+grain"] |})
  ].

Definition STATE_AGRI_INFO : list (str * StateInfo) :=
  [
   (u"andhra pradesh", {| state_rainfall_mm := {| rmin := 500; rmax := 1200; ravg := 900 |} |});
   (u"telangana", {| state_rainfall_mm := {| rmin := 700; rmax := 1100; ravg := 900 |} |});
   (u"punjab", {| state_rainfall_mm := {| rmin := 350; rmax := 700; ravg := 500 |} |});
   (u"uttar pradesh", {| state_rainfall_mm := {| rmin := 600; rmax := 1200; ravg := 900 |} |});
   (u"maharashtra", {| state_rainfall_mm := {| rmin := 500; rmax := 2500; ravg := 1000 |} |});
   (u"madhya pradesh", {| state_rainfall_mm := {| rmin := 750; rmax := 1500; ravg := 1100 |} |});
   (u"gujarat", {| state_rainfall_mm := {| rmin := 300; rmax := 1000; ravg := 600 |} |});
   (u"rajasthan", {| state_rainfall_mm := {| rmin := 150; rmax := 600; ravg := 350 |} |});
   (u"karnataka", {| state_rainfall_mm := {| rmin := 500; rmax := 4000; ravg := 1200 |} |});
   (u"tamil nadu", {| state_rainfall_mm := {| rmin := 600; rmax := 1500; ravg := 950 |} |})
  ].

(** [get_crop_info] *)
Definition get_crop_info (crop_name : str) : option CropInfo :=
  let crop_key := strip (lower crop_name) in
  lookup crop_key CROP_KNOWLEDGE.

(** [get_state_info] *)
Definition get_state_info (state_name : str) : option StateInfo :=
  let state_key := strip (lower state_name) in
  lookup state_key STATE_AGRI_INFO.

End Knowledge.

(* ================================================================== *)
(** * emergentintegrations/llm/chat.py *)
(* ================================================================== *)

Module Chat.
Import PyStr Py Json.

Record UserMessage := { text : str }.

(** An element of [history]: [{"role": r, "content": c}]. *)
Record entry := { role : str; content : json }.

Record LlmChat := {
  api_key : str;
  session_id : str;
  system_message : str;
  model : str;
  history : list entry
}.

(** [LlmChat.__init__] *)
Definition init (api_key session_id system_message : str) : LlmChat :=
  {| api_key := api_key;
     session_id := session_id;
     system_message := system_message;
     model := u"gpt-4o";
     history := [ {| role := u"system"; content := JStr system_message |} ] |}.

(** [LlmChat.with_model] *)
Definition with_model (self : LlmChat) (provider model : str) : LlmChat :=
  {| api_key := api_key self;
     session_id := session_id self;
     system_message := system_message self;
     model := model;
     history := history self |}.

(** ** The HTTP exchange *)

Record payload := {
  p_model : str;
  p_messages : list entry;
  p_temperature : Q;
  p_max_tokens : Z
}.

Record request := {
  url : str;
  headers : list (str * str);
  body : payload
}.

(** What the code reads from an [httpx] response; [resp_json] is the
    outcome of [response.json()]. *)
Record response := {
  status_code : Z;
  resp_text : str;
  resp_json : res json
}.

(** The remote service: [client.post] returns a response or raises. *)
Definition network := request -> res response.

Inductive event :=
| Post (r : request)
| LogError (msg : str).

(** The state a call runs in: the chat object and what has been emitted. *)
Record state := {
  self : LlmChat;
  trace : list event
}.

(** [self.history.append(e)] *)
Definition push (c : LlmChat) (e : entry) : LlmChat :=
  {| api_key := api_key c;
     session_id := session_id c;
     system_message := system_message c;
     model := model c;
     history := history c ++ [e] |}.

Definition history_append (e : entry) : M state unit :=
  modify (fun s => {| self := push (self s) e; trace := trace s |}).

Definition emit (ev : event) : M state unit :=
  modify (fun s => {| self := self s; trace := trace s ++ [ev] |}).

(** [await client.post(...)]: the request leaves, then the outcome. *)
Definition post (net : network) (r : request) : M state response :=
  emit (Post r) ;;; lift (net r).

Definition mock_response : str :=
  u"I am a mock AI assistant. Please provide a valid API Key in .env to get real responses.".

(** [not self.api_key or self.api_key == "your_key_here"] *)
Definition no_key (c : LlmChat) : bool :=
  eqb (api_key c) [] || eqb (api_key c) (u"your_key_here").

Definition openrouter_url : str := u"https://openrouter.ai/api/v1/chat/completions".
Definition openai_url : str := u"https://api.openai.com/v1/chat/completions".

(** The [headers], [payload] and [base_url] that [send_message] assembles
    from the chat object, read when the request is sent. *)
Definition build_request (c : LlmChat) : request :=
  let headers :=
    [ (u"Authorization", u"Bearer " ++ api_key c);
      (u"Content-Type", u"application/json") ] in
  let payload :=
    {| p_model := model c;
       p_messages := history c;
       p_temperature := 0.7;
       p_max_tokens := 1000 |} in
  if startswith (u"sk-or-v1") (api_key c) then
    {| url := openrouter_url;
       headers :=
         headers ++ [ (u"HTTP-Referer", u"https://github.com/AgroBot/AgroBot");
                      (u"X-Title", u"AgroBot") ];
       body :=
         if eqb (model c) (u"gpt-4o")
         then {| p_model := u"openai/gpt-4o";
                 p_messages := p_messages payload;
                 p_temperature := p_temperature payload;
                 p_max_tokens := p_max_tokens payload |}
         else payload |}
  else
    {| url := openai_url; headers := headers; body := payload |}.

(** [data['choices'][0]['message']['content']] *)
Definition extract_content (data : json) : res json :=
  let? choices := getitem_str data (u"choices") in
  let? first := getitem_0 choices in
  let? message := getitem_str first (u"message") in
  getitem_str message (u"content").

Definition api_error_msg (response : response) : str :=
  u"API Error (" ++ str_of_Z (status_code response) ++ u"): "
    ++ resp_text response.

Definition service_error_reply (error_msg : str) : str :=
  u"I encountered an error connecting to the AI service. Details: " ++ error_msg.

Definition trouble_reply (e : exn) : str :=
  u"Sorry, I am having trouble connecting to the server. Error: " ++ exn_text e.

(** [LlmChat.send_message] *)
Definition send_message (net : network) (message : UserMessage) : M state json :=
  history_append {| role := u"user"; content := JStr (text message) |} ;;;
  s <- get ;;
  if no_key (self s) then
    history_append {| role := u"assistant"; content := JStr mock_response |} ;;;
    ret (JStr mock_response)
  else
    try_except
      (response <- post net (build_request (self s)) ;;
       if negb (status_code response =? 200)%Z then
         let error_msg := api_error_msg response in
         emit (LogError error_msg) ;;;
         ret (JStr (service_error_reply error_msg))
       else
         data <- lift (resp_json response) ;;
         content <- lift (extract_content data) ;;
         history_append {| role := u"assistant"; content := content |} ;;;
         ret content)
      (fun e =>
         emit (LogError (u"Error sending message: " ++ exn_text e)) ;;;
         ret (JStr (trouble_reply e))).

(** The requests a trace contains. *)
Definition posts (tr : list event) : list request :=
  flat_map (fun ev => match ev with Post r => [r] | LogError _ => [] end) tr.

End Chat.

(* ================================================================== *)
(** * weather_service.py *)
(* ================================================================== *)

Module Weather.
Import PyStr Py PyNum Json.

Record Coords := { lat : Q; lon : Q }.

Record StateLocation := { loc_lat : Q; loc_lon : Q; loc_city : str }.

Definition INDIA_LOCATIONS : list (str * StateLocation) :=
  [
   (u"andhra pradesh", {| loc_lat := 16.5062; loc_lon := 80.6480; loc_city := u"Vijayawada" |});
   (u"telangana", {| loc_lat := 17.3850; loc_lon := 78.4867; loc_city := u"Hyderabad" |});
   (u"punjab", {| loc_lat := 30.7333; loc_lon := 76.7794; loc_city := u"Chandigarh" |});
   (u"haryana", {| loc_lat := 30.7333; loc_lon := 76.7794; loc_city := u"Chandigarh" |});
   (u"uttar pradesh", {| loc_lat := 26.8467; loc_lon := 80.9462; loc_city := u"Lucknow" |});
   (u"maharashtra", {| loc_lat := 19.0760; loc_lon := 72.8777; loc_city := u"Mumbai" |});
   (u"madhya pradesh", {| loc_lat := 23.2599; loc_lon := 77.4126; loc_city := u"Bhopal" |});
   (u"gujarat", {| loc_lat := 23.0225; loc_lon := 72.5714; loc_city := u"Ahmedabad" |});
   (u"rajasthan", {| loc_lat := 26.9124; loc_lon := 75.7873; loc_city := u"Jaipur" |});
   (u"karnataka", {| loc_lat := 12.9716; loc_lon := 77.5946; loc_city := u"Bengaluru" |});
   (u"tamil nadu", {| loc_lat := 13.0827; loc_lon := 80.2707; loc_city := u"Chennai" |});
   (u"west bengal", {| loc_lat := 22.5726; loc_lon := 88.3639; loc_city := u"Kolkata" |});
   (u"bihar", {| loc_lat := 25.5941; loc_lon := 85.1376; loc_city := u"Patna" |});
   (u"odisha", {| loc_lat := 20.2961; loc_lon := 85.8245; loc_city := u"Bhubaneswar" |});
   (u"kerala", {| loc_lat := 8.5241; loc_lon := 76.9366; loc_city := u"Thiruvananthapuram" |});
   (u"assam", {| loc_lat := 26.1445; loc_lon := 91.7362; loc_city := u"Guwahati" |});
   (u"jharkhand", {| loc_lat := 23.3441; loc_lon := 85.3096; loc_city := u"Ranchi" |});
   (u"chhattisgarh", {| loc_lat := 21.2514; loc_lon := 81.6296; loc_city := u"Raipur" |});
   (u"uttarakhand", {| loc_lat := 30.3165; loc_lon := 78.0322; loc_city := u"Dehradun" |});
   (u"himachal pradesh", {| loc_lat := 31.1048; loc_lon := 77.1734; loc_city := u"Shimla" |})
  ].

Definition DISTRICT_COORDS : list (str * Coords) :=
  [
   (u"guntur", {| lat := 16.3067; lon := 80.4365 |});
   (u"krishna", {| lat := 16.6100; lon := 80.7214 |});
   (u"east godavari", {| lat := 17.0; lon := 82.0 |});
   (u"west godavari", {| lat := 16.9174; lon := 81.3399 |});
   (u"kurnool", {| lat := 15.8281; lon := 78.0373 |});
   (u"anantapur", {| lat := 14.6819; lon := 77.6006 |});
   (u"karimnagar", {| lat := 18.4386; lon := 79.1288 |});
   (u"warangal", {| lat := 17.9784; lon := 79.5941 |});
   (u"nizamabad", {| lat := 18.6725; lon := 78.0941 |});
   (u"khammam", {| lat := 17.2473; lon := 80.1514 |});
   (u"ludhiana", {| lat := 30.9010; lon := 75.8573 |});
   (u"amritsar", {| lat := 31.6340; lon := 74.8723 |});
   (u"jalandhar", {| lat := 31.3260; lon := 75.5762 |});
   (u"patiala", {| lat := 30.3398; lon := 76.3869 |});
   (u"meerut", {| lat := 28.9845; lon := 77.7064 |});
   (u"lucknow", {| lat := 26.8467; lon := 80.9462 |});
   (u"agra", {| lat := 27.1767; lon := 78.0081 |});
   (u"varanasi", {| lat := 25.3176; lon := 82.9739 |});
   (u"gorakhpur", {| lat := 26.7606; lon := 83.3732 |});
   (u"nagpur", {| lat := 21.1458; lon := 79.0882 |});
   (u"pune", {| lat := 18.5204; lon := 73.8567 |});
   (u"nashik", {| lat := 19.9975; lon := 73.7898 |});
   (u"kolhapur", {| lat := 16.7050; lon := 74.2433 |});
   (u"ahmedabad", {| lat := 23.0225; lon := 72.5714 |});
   (u"rajkot", {| lat := 22.3039; lon := 70.8022 |});
   (u"surat", {| lat := 21.1702; lon := 72.8311 |});
   (u"jaipur", {| lat := 26.9124; lon := 75.7873 |});
   (u"jodhpur", {| lat := 26.2389; lon := 73.0243 |});
   (u"bikaner", {| lat := 28.0229; lon := 73.3119 |});
   (u"belgaum", {| lat := 15.8497; lon := 74.4977 |});
   (u"mysore", {| lat := 12.2958; lon := 76.6394 |});
   (u"dharwad", {| lat := 15.4589; lon := 75.0078 |});
   (u"chennai", {| lat := 13.0827; lon := 80.2707 |});
   (u"coimbatore", {| lat := 11.0168; lon := 76.9558 |});
   (u"madurai", {| lat := 9.9252; lon := 78.1198 |});
   (u"thanjavur", {| lat := 10.7870; lon := 79.1378 |})
  ].

(** [WeatherService.get_coordinates] *)
Definition get_coordinates (location : str) : option Coords :=
  let location_lower := strip (lower location) in
  match first_match DISTRICT_COORDS location_lower with
  | Some coords => Some coords
  | None =>
      match first_match INDIA_LOCATIONS location_lower with
      | Some data => Some {| lat := loc_lat data; lon := loc_lon data |}
      | None => None
      end
  end.

(** ** The weather report *)

Record current_weather := {
  temperature_c : json;
  humidity_percent : json;
  precipitation_mm : json;
  wind_speed_kmh : json;
  condition : str
}.

Record forecast_day := {
  date : json;
  max_temp_c : json;
  min_temp_c : json;
  day_precipitation_mm : json;
  rain_probability : json;
  day_condition : str
}.

Record advisory := {
  a_type : str;
  severity : str;
  message_en : str;
  message_hi : str;
  message_te : str
}.

(** The dictionary [weather_info], with its keys ["location"],
    ["coordinates"], ["current"], ["forecast"], ["agricultural_advisory"]. *)
Record weather_info := {
  w_location : str;
  w_coordinates : Coords;
  w_current : current_weather;
  w_forecast : list forecast_day;
  w_agricultural_advisory : list advisory
}.

Definition conditions : list (Z * str) :=
  [
     (0, u"Clear sky"); (1, u"Mainly clear"); (2, u"Partly cloudy");
     (3, u"Overcast"); (45, u"Foggy"); (48, u"Depositing rime fog");
     (51, u"Light drizzle"); (53, u"Moderate drizzle"); (55, u"Dense drizzle");
     (61, u"Slight rain"); (63, u"Moderate rain"); (65, u"Heavy rain");
     (71, u"Slight snow"); (73, u"Moderate snow"); (75, u"Heavy snow");
     (80, u"Slight rain showers"); (81, u"Moderate rain showers"); (82, u"Violent rain showers");
     (95, u"Thunderstorm"); (96, u"Thunderstorm with slight hail"); (99, u"Thunderstorm with heavy hail")
  ]%Z.

Fixpoint assoc_Z (k : Z) (d : list (Z * str)) : option str :=
  match d with
  | [] => None
  | (k', v) :: d' => if (k =? k')%Z then Some v else assoc_Z k d'
  end.

(** [WeatherService._get_weather_condition]: [conditions.get(code,
    "Unknown")]; a number is found when it equals a key, a list or an object
    cannot be hashed. *)
Definition _get_weather_condition (code : json) : res str :=
  match code with
  | JArr _ | JObj _ =>
      Raise (Exn (u"TypeError") (u"unhashable type: '" ++ type_name code ++ u"'"))
  | _ =>
      match to_num code with
      | Some x =>
          let z := Qfloor (val x) in
          if Qeq_bool (val x) (inject_Z z) then
            match assoc_Z z conditions with
            | Some c => Ok c
            | None => Ok (u"Unknown")
            end
          else Ok (u"Unknown")
      | None => Ok (u"Unknown")
      end
  end.

Definition adv_heat_stress : advisory :=
  {| a_type := u"heat_stress";
     severity := u"high";
     message_en :=
       u"Extreme heat alert! Avoid field work 11 AM - 4 PM. Irrigate in evening only.";
     message_hi :=
       u"अत्यधिक गर्मी की चेतावनी! सुबह 11 से शाम 4 बजे तक खेत में काम न करें। शाम को ही सिंचाई करें।";
     message_te :=
       u"తీవ్ర వేడి హెచ్చరిక! 11 AM - 4 PM మధ్య పొలం పనులు చేయకండి. సాయంత్రం మాత్రమే నీరు పెట్టండి." |}.

Definition adv_heat_advisory : advisory :=
  {| a_type := u"heat_advisory";
     severity := u"medium";
     message_en :=
       u"High temperature. Provide shade for nurseries. Mulch to conserve moisture.";
     message_hi :=
       u"उच्च तापमान। नर्सरी को छाया दें। पानी बचाने के लिए मल्चिंग करें।";
     message_te :=
       u"అధిక ఉష్ణోగ్రత. నర్సరీలకు నీడ ఇవ్వండి. తేమ కాపాడటానికి మల్చింగ్ చేయండి." |}.

Definition adv_cold_advisory : advisory :=
  {| a_type := u"cold_advisory";
     severity := u"medium";
     message_en :=
       u"Low temperature. Protect crops from frost. Irrigate in morning to reduce frost damage.";
     message_hi :=
       u"कम तापमान। फसलों को पाले से बचाएं। पाले के नुकसान को कम करने के लिए सुबह सिंचाई करें।";
     message_te :=
       u"తక్కువ ఉష్ణోగ్రత. పంటలను మంచు నుండి రక్షించండి. మంచు నష్టాన్ని తగ్గించడానికి ఉదయం నీరు పెట్టండి." |}.

Definition adv_heavy_rain_warning (total_rain_7days : num) : advisory :=
  {| a_type := u"heavy_rain_warning";
     severity := u"high";
     message_en :=
       u"Heavy rainfall expected (" ++ fmt_0f (val total_rain_7days) ++ u"mm in 7 days). Ensure field drainage. Postpone fertilizer application.";
     message_hi :=
       u"भारी बारिश की संभावना (" ++ fmt_0f (val total_rain_7days) ++ u"mm 7 दिनों में)। खेत में जल निकासी सुनिश्चित करें। उर्वरक डालने में देरी करें।";
     message_te :=
       u"భారీ వర్షం అంచనా (" ++ fmt_0f (val total_rain_7days) ++ u"mm 7 రోజుల్లో). పొలంలో డ్రైనేజీ నిర్ధారించుకోండి. ఎరువులు వేయడం వాయిదా వేయండి." |}.

Definition adv_rain_expected (total_rain_7days : num) : advisory :=
  {| a_type := u"rain_expected";
     severity := u"low";
     message_en :=
       u"Good rainfall expected (" ++ fmt_0f (val total_rain_7days) ++ u"mm). Favorable for sowing. Complete land preparation.";
     message_hi :=
       u"अच्छी बारिश की संभावना (" ++ fmt_0f (val total_rain_7days) ++ u"mm)। बुवाई के लिए अनुकूल। भूमि की तैयारी पूरी करें।";
     message_te :=
       u"మంచి వర్షం అంచనా (" ++ fmt_0f (val total_rain_7days) ++ u"mm). విత్తనానికి అనుకూలం. భూమి సిద్ధం పూర్తి చేయండి." |}.

Definition adv_dry_spell : advisory :=
  {| a_type := u"dry_spell";
     severity := u"medium";
     message_en :=
       u"Dry spell expected. Plan irrigation. Watch for pest buildup in dry conditions.";
     message_hi :=
       u"सूखे की संभावना। सिंचाई की योजना बनाएं। सूखी परिस्थितियों में कीटों पर नजर रखें।";
     message_te :=
       u"పొడి వాతావరణం అంచనా. నీటిపారుదల ప్రణాళిక చేయండి. పొడి పరిస్థితుల్లో పురుగుల పెరుగుదలను గమనించండి." |}.

Definition adv_disease_risk : advisory :=
  {| a_type := u"disease_risk";
     severity := u"medium";
     message_en :=
       u"High humidity increases disease risk. Apply preventive fungicide. Avoid overhead irrigation.";
     message_hi :=
       u"उच्च आर्द्रता से रोग का खतरा बढ़ता है। निवारक फफूंदनाशक लगाएं। ऊपरी सिंचाई से बचें।";
     message_te :=
       u"అధిక తేమ వల్ల వ్యాధుల ప్రమాదం పెరుగుతుంది. నివారణ శిలీంద్ర నాశిని చల్లండి. పై నుండి నీరు పెట్టడం మానండి." |}.

Definition adv_spray_favorable : advisory :=
  {| a_type := u"spray_favorable";
     severity := u"info";
     message_en :=
       u"Low wind - favorable for pesticide/fertilizer spraying. Best time: early morning or late evening.";
     message_hi :=
       u"कम हवा - कीटनाशक/उर्वरक छिड़काव के लिए अनुकूल। सबसे अच्छा समय: सुबह जल्दी या शाम देर से।";
     message_te :=
       u"తక్కువ గాలి - పురుగుమందు/ఎరువుల పిచికారికి అనుకూలం. ఉత్తమ సమయం: పొద్దున్నే లేదా సాయంత్రం." |}.

Definition adv_spray_unfavorable : advisory :=
  {| a_type := u"spray_unfavorable";
     severity := u"info";
     message_en :=
       u"High wind - avoid spraying pesticides/fertilizers. Risk of drift and wastage.";
     message_hi :=
       u"तेज हवा - कीटनाशक/उर्वरक छिड़काव न करें। बहाव और बर्बादी का खतरा।";
     message_te :=
       u"అధిక గాలి - పురుగుమందులు/ఎరువులు పిచికారీ చేయకండి. కొట్టుకుపోయే ప్రమాదం." |}.

(** [sum(f.get("precipitation_mm", 0) or 0 for f in forecast[:7])] *)
Fixpoint sum_rain (acc : num) (days : list forecast_day) : res num :=
  match days with
  | [] => Ok acc
  | f :: days' =>
      let x := day_precipitation_mm f in
      if truthy x then
        match to_num x with
        | Some n => sum_rain (add acc n) days'
        | None =>
            Raise (Exn (u"TypeError")
                     (u"unsupported operand type(s) for +: '"
                        ++ (match acc with I _ => u"int" | F _ => u"float" end)
                        ++ u"' and '" ++ type_name x ++ u"'"))
        end
      else sum_rain (add acc (I 0)) days'
  end.

(** [WeatherService._generate_agri_advisory] *)
Definition _generate_agri_advisory (weather : weather_info) : res (list advisory) :=
  let current := w_current weather in
  let forecast := w_forecast weather in
  let temp := temperature_c current in
  let humidity := humidity_percent current in
  let? heat :=
    (let? extreme := gt temp 40 in
     if extreme then Ok [adv_heat_stress]
     else
       let? high := gt temp 35 in
       if high then Ok [adv_heat_advisory]
       else
         let? low := lt temp 10 in
         if low then Ok [adv_cold_advisory] else Ok []) in
  let? total_rain_7days := sum_rain (I 0) (firstn 7 forecast) in
  let rain :=
    if Qlt_bool 100 (val total_rain_7days)
    then [adv_heavy_rain_warning total_rain_7days]
    else if Qlt_bool 50 (val total_rain_7days)
    then [adv_rain_expected total_rain_7days]
    else if Qlt_bool (val total_rain_7days) 5
    then [adv_dry_spell]
    else [] in
  let? disease :=
    (let? humid := gt humidity 85 in
     if humid then Ok [adv_disease_risk] else Ok []) in
  let? spray :=
    (let? calm := lt (wind_speed_kmh current) 10 in
     if calm then Ok [adv_spray_favorable]
     else
       let? windy := gt (wind_speed_kmh current) 20 in
       if windy then Ok [adv_spray_unfavorable] else Ok []) in
  Ok (heat ++ rain ++ disease ++ spray).

(** ** The HTTP exchange *)

Record request := {
  url : str;
  params : list (str * json)
}.

(** What the code uses of an [httpx] response: the outcomes of
    [raise_for_status()] and of [json()]. *)
Record response := {
  raise_for_status : res unit;
  resp_json : res json
}.

(** The remote service: [client.get] returns a response or raises. *)
Definition network := request -> res response.

Inductive event :=
| Get (r : request)
| LogError (msg : str).

Definition emit (ev : event) : M (list event) unit :=
  modify (fun tr => tr ++ [ev]).

Definition BASE_URL : str := u"https://api.open-meteo.com/v1/forecast".

Definition forecast_request (coords : Coords) : request :=
  {| url := BASE_URL;
     params :=
       [ (u"latitude", JFloat (lat coords));
         (u"longitude", JFloat (lon coords));
         (u"current",
          JStr (u"temperature_2m,relative_humidity_2m,precipitation,weather_code,wind_speed_10m"));
         (u"daily",
          JStr (u"temperature_2m_max,temperature_2m_min,precipitation_sum,precipitation_probability_max,weather_code"));
         (u"timezone", JStr (u"Asia/Kolkata"));
         (u"forecast_days", JInt 7) ] |}.

(** One turn of the forecast loop. *)
Definition forecast_day_at (daily : json) (i : nat) : res forecast_day :=
  let? time := getitem_str daily (u"time") in
  let? date := getitem_idx time i in
  let? tmax := getitem_str daily (u"temperature_2m_max") in
  let? max_temp := getitem_idx tmax i in
  let? tmin := getitem_str daily (u"temperature_2m_min") in
  let? min_temp := getitem_idx tmin i in
  let? psum := getitem_str daily (u"precipitation_sum") in
  let? precipitation := getitem_idx psum i in
  let? pprob := getitem_str daily (u"precipitation_probability_max") in
  let? probability := getitem_idx pprob i in
  let? codes := getitem_str daily (u"weather_code") in
  let? code := getitem_idx codes i in
  let? cond := _get_weather_condition code in
  Ok {| date := date;
        max_temp_c := max_temp;
        min_temp_c := min_temp;
        day_precipitation_mm := precipitation;
        rain_probability := probability;
        day_condition := cond |}.

Fixpoint for_each {A} (body : nat -> res A) (indices : list nat) : res (list A) :=
  match indices with
  | [] => Ok []
  | i :: rest =>
      let? x := body i in
      let? xs := for_each body rest in
      Ok (x :: xs)
  end.

(** What the [try] block of [get_weather] does with the decoded answer. *)
Definition assemble (location : str) (coords : Coords) (data : json)
  : res weather_info :=
  let? current := dict_get data (u"current") (JObj []) in
  let? daily := dict_get data (u"daily") (JObj []) in
  let? temperature := dict_get current (u"temperature_2m") JNull in
  let? humidity := dict_get current (u"relative_humidity_2m") JNull in
  let? precipitation := dict_get current (u"precipitation") JNull in
  let? wind := dict_get current (u"wind_speed_10m") JNull in
  let? code := dict_get current (u"weather_code") (JInt 0) in
  let? cond := _get_weather_condition code in
  let? days :=
    (if truthy daily then
       let? time := dict_get daily (u"time") (JArr []) in
       let? n := len time in
       for_each (forecast_day_at daily) (seq 0 (Nat.min 7 n))
     else Ok []) in
  let weather_info :=
    {| w_location := location;
       w_coordinates := coords;
       w_current := {| temperature_c := temperature;
                       humidity_percent := humidity;
                       precipitation_mm := precipitation;
                       wind_speed_kmh := wind;
                       condition := cond |};
       w_forecast := days;
       w_agricultural_advisory := [] |} in
  let? advisories := _generate_agri_advisory weather_info in
  Ok {| w_location := w_location weather_info;
        w_coordinates := w_coordinates weather_info;
        w_current := w_current weather_info;
        w_forecast := w_forecast weather_info;
        w_agricultural_advisory := advisories |}.

(** The body of the [try] block of [get_weather]. *)
Definition fetch (net : network) (location : str) (coords : Coords)
  : M (list event) weather_info :=
  emit (Get (forecast_request coords)) ;;;
  response <- lift (net (forecast_request coords)) ;;
  lift (raise_for_status response) ;;;
  data <- lift (resp_json response) ;;
  lift (assemble location coords data).

(** [WeatherService.get_weather] *)
Definition get_weather (net : network) (location : str)
  : M (list event) (option weather_info) :=
  match get_coordinates location with
  | None => ret None
  | Some coords =>
      try_except
        (weather <- fetch net location coords ;; ret (Some weather))
        (fun e =>
           emit (LogError (u"Weather API error: " ++ exn_text e)) ;;;
           ret None)
  end.

(** ** The advisory returned to the caller *)

Record formatted_advisory := {
  f_type : str;
  f_severity : str;
  f_message : str
}.

(** The two dictionaries [get_weather_advisory] can return. *)
Inductive advisory_reply :=
| Unavailable (error : bool) (message : str)
| Report (error : bool) (location : str) (current : current_weather)
         (forecast_7day : list forecast_day)
         (advisories : list formatted_advisory) (data_source : str).

(** The value under the key ["error"]. *)
Definition error (r : advisory_reply) : bool :=
  match r with
  | Unavailable e _ => e
  | Report e _ _ _ _ _ => e
  end.

(** [advisory.get(lang_key, advisory.get("message_en"))] *)
Definition message_for (a : advisory) (lang_key : str) : str :=
  if eqb lang_key (u"message_en") then message_en a
  else if eqb lang_key (u"message_hi") then message_hi a
  else if eqb lang_key (u"message_te") then message_te a
  else message_en a.

(** [get_weather_advisory] *)
Definition get_weather_advisory (net : network) (location language : str)
  : M (list event) advisory_reply :=
  weather <- get_weather net location ;;
  match weather with
  | None =>
      ret (Unavailable true (u"Could not fetch weather data for this location"))
  | Some weather =>
      let lang_key := u"message_" ++ language in
      let formatted_advisories :=
        map (fun advisory =>
               {| f_type := a_type advisory;
                  f_severity := severity advisory;
                  f_message := message_for advisory lang_key |})
            (w_agricultural_advisory weather) in
      ret (Report false (w_location weather) (w_current weather)
             (w_forecast weather) formatted_advisories
             (u"Open-Meteo Weather API"))
  end.

End Weather.

(* ================================================================== *)
(** * server.py, part 1: language detection *)
(* ================================================================== *)

Module Lang.
Import PyStr.

Definition is_telugu (c : N) : bool := (3072 <=? c)%N && (c <=? 3199)%N.
Definition is_hindi (c : N) : bool := (2304 <=? c)%N && (c <=? 2431)%N.

(** [sum(1 for c in text if p(c))] *)
Definition count_chars (p : N -> bool) (text : str) : nat :=
  List.length (filter p text).

(** [k / total > 0.15], with true division.  In Python both sides are
    binary64 values; on a text of fewer than 10^15 characters the comparison
    has the same result as this exact one. *)
Definition ratio_gt_015 (k total : nat) : bool :=
  negb (Qle_bool (inject_Z (Z.of_nat k) / inject_Z (Z.of_nat total)) 0.15).

Definition hindi_words : list str :=
  [u"kya"; u"hai"; u"mera"; u"meri"; u"kaise"; u"karo"; u"karna";
   u"fasal"; u"kheti"; u"pani"; u"baarish"].

Definition detect_language (text : str) : str :=
  let telugu_chars := count_chars is_telugu text in
  let hindi_chars := count_chars is_hindi text in
  let total := List.length text in
  if (total =? 0)%nat then u"en"
  else if ratio_gt_015 telugu_chars total then u"te"
  else if ratio_gt_015 hindi_chars total then u"hi"
  else
    let text_lower := lower text in
    if existsb (fun word => contains word text_lower) hindi_words
    then u"hi"
    else u"en".

End Lang.

(* ================================================================== *)
(** * server.py, part 2: yield prediction *)
(* ================================================================== *)

Module Server.
Import PyStr Py PyNum Json Knowledge.

Open Scope Q_scope.

(** ** Models *)

Record FarmInput := {
  crop_type : str;
  soil_type : str;
  season : str;
  location : str;
  rainfall_mm : option Q;
  irrigation_percent : option Q;
  fertilizer_kg_ha : option Q;
  temperature_c : option Q;
  area_hectares : option Q
}.

(** An element of [influential_factors], with its keys ["factor"],
    ["impact"] and ["detail"]. *)
Record factor := { factor_name : str; impact : str; detail : str }.

Record MLPrediction := {
  predicted_yield_kg_ha : Q;
  predicted_yield_quintal_acre : Q;
  confidence_score : Q;
  risk_level : str;
  state_avg_yield : option Q;
  national_avg_yield : option Q;
  influential_factors : list factor;
  recommendations : list str;
  crop_info : option CropInfo;
  comparison : str;
  data_source : str
}.

(** The keys are ["id"], ["language"], ["farm_context"], ["created_at"] and
    ["updated_at"]; a [datetime] is a number of microseconds. *)
Record Session := {
  sess_id : str;
  sess_language : str;
  farm_context : option json;
  created_at : Z;
  updated_at : Z
}.

(** The keys are ["id"], ["session_id"], ["role"], ["content"], ["language"]
    and ["timestamp"]. *)
Record ChatMessage := {
  msg_id : str;
  msg_session_id : str;
  msg_role : str;
  msg_content : json;
  msg_language : str;
  timestamp : Z
}.

(** ** What the process holds *)

Record log_record := { levelname : str; message : str }.

(** The two MongoDB collections, the registry [chat_sessions] and the log. *)
Record world := {
  db_sessions : list Session;
  db_messages : list ChatMessage;
  chat_sessions : list (str * Chat.LlmChat);
  log : list log_record
}.

Definition with_log (w : world) (l : list log_record) : world :=
  {| db_sessions := db_sessions w;
     db_messages := db_messages w;
     chat_sessions := chat_sessions w;
     log := l |}.

Definition with_sessions (w : world) (s : list Session) : world :=
  {| db_sessions := s;
     db_messages := db_messages w;
     chat_sessions := chat_sessions w;
     log := log w |}.

Definition with_messages (w : world) (m : list ChatMessage) : world :=
  {| db_sessions := db_sessions w;
     db_messages := m;
     chat_sessions := chat_sessions w;
     log := log w |}.

(** [logger.warning(text)] *)
Definition logger_warning (text : str) : M world unit :=
  modify (fun w =>
    with_log w (log w ++ [ {| levelname := u"WARNING"; message := text |} ])).

(** ** The artifacts loaded at start-up *)

(** The row of features given to the regressor. *)
Record features := {
  state_encoded : nat;
  district_encoded : nat;
  crop_encoded : nat;
  season_encoded : nat;
  soil_encoded : nat;
  x_rainfall : Q;
  x_irrigation : Q;
  x_fertilizer : Q;
  x_temperature : Q
}.

(** A fitted [LabelEncoder]. *)
Record LabelEncoder := { classes_ : list str }.

Fixpoint index_of (label : str) (classes : list str) : option nat :=
  match classes with
  | [] => None
  | c :: classes' =>
      if eqb c label then Some O
      else option_map S (index_of label classes')
  end.

(** [enc.transform([label])[0]]: the position of the label among the
    classes; an unseen label raises. *)
Definition transform (enc : LabelEncoder) (label : str) : res nat :=
  match index_of label (classes_ enc) with
  | Some i => Ok i
  | None =>
      Raise (Exn (u"ValueError")
               (u"y contains previously unseen labels: ['" ++ label ++ u"']"))
  end.

(** A row of [india_crop_data.csv], with the columns the server reads. *)
Record crop_row := { State : str; Crop : str; Yield_Kg_Ha : Q }.

(** What the start-up [try] block loads: the regressor ([predict] on one
    row returns a number or raises), the encoders, the statistics and the
    CSV.  [None] for the whole stands for [ML_MODEL_LOADED = False]. *)
Record artifacts := {
  yield_model : features -> res Q;
  encoders : list (str * LabelEncoder);
  model_stats : list (str * Q);
  crop_data : list crop_row
}.

(** [d[key]] on a dictionary. *)
Definition getitem {A} (d : list (str * A)) (key : str) : res A :=
  match lookup key d with
  | Some v => Ok v
  | None => Raise (Exn (u"KeyError") (u"'" ++ key ++ u"'"))
  end.

(** What the code takes from the Python runtime and from pandas without the
    model fixing it: the text of a float, and the search of a regular
    expression in a string ([Raise] when the pattern does not compile). *)
Class Runtime := {
  repr_float : Q -> str;
  re_contains : str -> str -> res bool
}.

(** [f"{x}"] for a number. *)
Definition fmt `{Runtime} (x : num) : str :=
  match x with
  | I z => str_of_Z z
  | F q => repr_float q
  end.

(** ** Helper functions *)

Definition district_state_map : list (str * str) :=
  [
   (u"guntur", u"andhra pradesh"); (u"krishna", u"andhra pradesh");
   (u"nellore", u"andhra pradesh"); (u"karimnagar", u"telangana");
   (u"warangal", u"telangana"); (u"nizamabad", u"telangana");
   (u"ludhiana", u"punjab"); (u"amritsar", u"punjab");
   (u"jalandhar", u"punjab"); (u"meerut", u"uttar pradesh");
   (u"lucknow", u"uttar pradesh"); (u"agra", u"uttar pradesh");
   (u"nagpur", u"maharashtra"); (u"pune", u"maharashtra");
   (u"nashik", u"maharashtra"); (u"indore", u"madhya pradesh");
   (u"bhopal", u"madhya pradesh"); (u"ujjain", u"madhya pradesh");
   (u"ahmedabad", u"gujarat"); (u"rajkot", u"gujarat");
   (u"surat", u"gujarat"); (u"jaipur", u"rajasthan");
   (u"jodhpur", u"rajasthan"); (u"bikaner", u"rajasthan");
   (u"bengaluru", u"karnataka"); (u"mysore", u"karnataka");
   (u"belgaum", u"karnataka"); (u"chennai", u"tamil nadu");
   (u"coimbatore", u"tamil nadu"); (u"madurai", u"tamil nadu");
   (u"kolkata", u"west bengal"); (u"patna", u"bihar");
   (u"ranchi", u"jharkhand")
  ].

(** [get_state_from_location] *)
Definition get_state_from_location (location : str) : str :=
  let location_lower := lower location in
  match first_match district_state_map location_lower with
  | Some state => state
  | None =>
      let states := map fst STATE_AGRI_INFO in
      match find (fun state => contains state location_lower) states with
      | Some state => state
      | None => location_lower
      end
  end.

(** ** [predict_yield_ml], block by block *)

(** The local variables the [try] block assigns. *)
Record locals := { predicted_yield : Q; confidence : Q }.

Definition frame : Type := locals * world.

Definition set_predicted_yield (y : Q) : M frame unit :=
  modify (fun f : frame =>
    ({| predicted_yield := y; confidence := confidence (fst f) |}, snd f)).

Definition set_confidence (c : Q) : M frame unit :=
  modify (fun f : frame =>
    ({| predicted_yield := predicted_yield (fst f); confidence := c |}, snd f)).

(** A statement on the world, run inside the function body. *)
Definition in_world {A} (m : M world A) : M frame A :=
  fun f => let (r, w) := m (snd f) in (r, (fst f, w)).

(** [key in [s.lower() for s in classes]] *)
Definition in_lowered (key : str) (classes : list str) : bool :=
  mem key (map lower classes).

(** The body of the [try] block: encode the categories, ask the model. *)
Definition model_estimate (art : artifacts) (farm_input : FarmInput)
    (rainfall irrigation fertilizer temperature : num) : M frame unit :=
  let crop_key := strip (lower (crop_type farm_input)) in
  enc_crop <- lift (getitem (encoders art) (u"Crop")) ;;
  crop_encoded <-
    (if mem crop_key (classes_ enc_crop)
     then lift (transform enc_crop (title crop_key))
     else ret O) ;;
  let soil_key := strip (lower (soil_type farm_input)) in
  enc_soil <- lift (getitem (encoders art) (u"Soil_Type")) ;;
  soil_encoded <-
    (if in_lowered soil_key (classes_ enc_soil)
     then lift (transform enc_soil (title soil_key))
     else ret O) ;;
  let season_key := strip (lower (season farm_input)) in
  enc_season <- lift (getitem (encoders art) (u"Season")) ;;
  season_encoded <-
    (if in_lowered season_key (classes_ enc_season)
     then lift (transform enc_season (title season_key))
     else ret O) ;;
  let state_encoded := O in
  let district_encoded := O in
  let features :=
    {| state_encoded := state_encoded;
       district_encoded := district_encoded;
       crop_encoded := crop_encoded;
       season_encoded := season_encoded;
       soil_encoded := soil_encoded;
       x_rainfall := val rainfall;
       x_irrigation := val irrigation;
       x_fertilizer := val fertilizer;
       x_temperature := val temperature |} in
  y <- lift (yield_model art features) ;;
  set_predicted_yield y ;;;
  test_score <- lift (getitem (model_stats art) (u"test_score")) ;;
  set_confidence (pymin 0.92 test_score).

(** The knowledge-based calculation of the [except] block. *)
Definition knowledge_estimate (crop_info : CropInfo)
    (rainfall irrigation fertilizer : num) : Q :=
  let yield_range := yield_range_kg_ha crop_info in
  let base_yield := inject_Z (ravg yield_range) in
  let irrigation_factor := 1.0 + (val irrigation - 50) / 100 * 0.3 in
  let rainfall_factor :=
    if Qlt_bool 600 (val rainfall) && Qlt_bool (val rainfall) 1200
    then 1.0 else 0.85 in
  let fertilizer_factor := 1.0 + (val fertilizer - 100) / 200 * 0.2 in
  let predicted_yield :=
    base_yield * irrigation_factor * rainfall_factor * fertilizer_factor in
  pymax (inject_Z (rmin yield_range))
        (pymin (inject_Z (rmax yield_range)) predicted_yield).

(** The [except] block. *)
Definition on_model_error (crop_info : option CropInfo)
    (rainfall irrigation fertilizer : num) (e : exn) : M frame unit :=
  in_world (logger_warning
              (u"ML prediction error: " ++ exn_text e
                 ++ u". Using knowledge-based estimate.")) ;;;
  match crop_info with
  | Some crop_info =>
      set_predicted_yield (knowledge_estimate crop_info rainfall irrigation fertilizer)
  | None => ret tt
  end.

(** "Calculate risk level": the score. *)
Definition risk_score_of (irrigation rainfall fertilizer : num) : Z :=
  let risk_score := 0%Z in
  let risk_score :=
    if Qlt_bool (val irrigation) 40 then (risk_score + 2)%Z else risk_score in
  let risk_score :=
    if Qlt_bool (val rainfall) 500 then (risk_score + 2)%Z
    else if Qlt_bool 1500 (val rainfall) then (risk_score + 1)%Z
    else risk_score in
  let risk_score :=
    if Qlt_bool (val fertilizer) 80 then (risk_score + 1)%Z else risk_score in
  risk_score.

(** "Calculate risk level": the level. *)
Definition risk_level_of (risk_score : Z) : str :=
  if (3 <=? risk_score)%Z then u"High"
  else if (1 <=? risk_score)%Z then u"Medium"
  else u"Low".

(** [series.mean()] of a non-empty column. *)
Definition mean (xs : list Q) : Q :=
  fold_left Qplus xs 0 / inject_Z (Z.of_nat (List.length xs)).

(** Boolean indexing with a mask that may fail to evaluate. *)
Fixpoint select {A} (mask : A -> res bool) (rows : list A) : res (list A) :=
  match rows with
  | [] => Ok []
  | r :: rows' =>
      let? keep := mask r in
      let? rest := select mask rows' in
      Ok (if keep then r :: rest else rest)
  end.

(** "Get state and national averages from data": the pair
    [(state_avg, national_avg)]. *)
Definition averages `{Runtime} (ml : option artifacts) (farm_input : FarmInput)
    (state_name : str) : res (option Q * option Q) :=
  match ml with
  | None => Ok (None, None)
  | Some art =>
      let crop_match :=
        filter (fun row => eqb (lower (Crop row)) (lower (crop_type farm_input)))
               (crop_data art) in
      match crop_match with
      | [] => Ok (None, None)
      | _ :: _ =>
          let national_avg := mean (map Yield_Kg_Ha crop_match) in
          let? state_match :=
            select (fun row => re_contains (take 5 state_name) (lower (State row)))
                   crop_match in
          match state_match with
          | [] => Ok (None, Some national_avg)
          | _ :: _ => Ok (Some (mean (map Yield_Kg_Ha state_match)), Some national_avg)
          end
      end
  end.

(** "Generate influential factors".  The tests are the ones of the code:
    [irrigation >= 70], then [irrigation >= 40], with ["Negative"] in the
    final [else]; [600 < rainfall < 1200]; [fertilizer >= 120]. *)
Definition factors_of `{Runtime} (farm_input : FarmInput)
    (crop_info : option CropInfo) (irrigation rainfall fertilizer : num)
  : list factor :=
  [ if Qle_bool 70 (val irrigation) then
      {| factor_name := u"Irrigation"; impact := u"Positive";
         detail := fmt irrigation ++ u"% coverage - excellent water availability" |}
    else if Qle_bool 40 (val irrigation) then
      {| factor_name := u"Irrigation"; impact := u"Moderate";
         detail := fmt irrigation ++ u"% coverage - adequate but can improve" |}
    else
      {| factor_name := u"Irrigation"; impact := u"Negative";
         detail := fmt irrigation ++ u"% coverage - insufficient, consider bore wells" |} ]
  ++
  [ if Qlt_bool 600 (val rainfall) && Qlt_bool (val rainfall) 1200 then
      {| factor_name := u"Rainfall"; impact := u"Positive";
         detail := fmt rainfall ++ u"mm - optimal range" |}
    else
      {| factor_name := u"Rainfall"; impact := u"Risk";
         detail := fmt rainfall ++ u"mm - "
                     ++ (if Qlt_bool (val rainfall) 600 then u"below" else u"above")
                     ++ u" optimal" |} ]
  ++
  match crop_info with
  | Some crop_info =>
      let optimal_soils := optimal_soil crop_info in
      [ if mem (title (soil_type farm_input)) optimal_soils then
          {| factor_name := u"Soil Type"; impact := u"Positive";
             detail := soil_type farm_input ++ u" is ideal for "
                         ++ crop_type farm_input |}
        else
          {| factor_name := u"Soil Type"; impact := u"Moderate";
             detail := soil_type farm_input ++ u" - consider soil amendments" |} ]
  | None => []
  end
  ++
  [ {| factor_name := u"Fertilizer";
       impact := if Qle_bool 120 (val fertilizer)
                 then u"Positive" else u"Moderate";
       detail := fmt fertilizer ++ u" kg/ha applied" |} ].

(** [d.get(key, default)] on a dictionary of strings. *)
Definition get_or (d : list (str * str)) (key default : str) : str :=
  match lookup key d with
  | Some v => v
  | None => default
  end.

(** "Generate recommendations" *)
Definition recommendations_of (crop_info : option CropInfo)
    (irrigation : num) (risk_level : str) : list str :=
  match crop_info with
  | Some crop_info =>
      let fert_rec := fertilizer_recommendation crop_info in
      [ u"Recommended fertilizer: N-" ++ get_or fert_rec (u"N") (u"120 kg/ha")
          ++ u", P-" ++ get_or fert_rec (u"P") (u"60 kg/ha")
          ++ u", K-" ++ get_or fert_rec (u"K") (u"40 kg/ha") ]
      ++ firstn 2 (tips crop_info)
  | None => []
  end
  ++ (if Qlt_bool (val irrigation) 50
      then [u"Consider installing drip irrigation or micro-sprinklers to improve water efficiency"]
      else [])
  ++ (if eqb risk_level (u"High")
      then [u"⚠️ High risk detected - Consider crop insurance under PMFBY scheme"]
      else [])
  ++ [u"Get soil tested under Soil Health Card scheme for precise fertilizer recommendations"].

(** [x if x else None], used before rounding the averages. *)
Definition truthy_avg (x : option Q) : option Q :=
  match x with
  | Some q => if Qeq_bool q 0 then None else Some q
  | None => None
  end.

(** "Comparison text".  A predicted yield of zero divides a numpy float and
    prints as [inf]. *)
Definition comparison_of (national_avg : option Q) (predicted_yield : Q) : str :=
  match truthy_avg national_avg with
  | Some national_avg =>
      if Qlt_bool (national_avg * 1.1) predicted_yield then
        u"Your predicted yield is "
          ++ fmt_0f ((predicted_yield / national_avg - 1) * 100)
          ++ u"% above national average (" ++ fmt_0f national_avg ++ u" kg/ha)"
      else if Qlt_bool predicted_yield (national_avg * 0.9) then
        u"Your predicted yield is "
          ++ (if Qeq_bool predicted_yield 0 then u"inf"
              else fmt_0f ((national_avg / predicted_yield - 1) * 100))
          ++ u"% below national average (" ++ fmt_0f national_avg ++ u" kg/ha)"
      else
        u"Your predicted yield is near national average ("
          ++ fmt_0f national_avg ++ u" kg/ha)"
  | None => []
  end.

(** ** [predict_yield_ml] *)

Definition predict_yield_ml `{Runtime} (ml : option artifacts)
    (farm_input : FarmInput) : M world MLPrediction :=
  let crop_info := get_crop_info (crop_type farm_input) in
  let state_name := get_state_from_location (location farm_input) in
  let state_info := get_state_info state_name in
  let default_rainfall :=
    match state_info with
    | Some state_info => I (ravg (state_rainfall_mm state_info))
    | None => I 900
    end in
  let default_irrigation := I 60 in
  let default_fertilizer := I 150 in
  let default_temp := I 27 in
  let default_yield :=
    match crop_info with
    | Some crop_info => ravg (yield_range_kg_ha crop_info)
    | None => 3000%Z
    end in
  let rainfall := or_default (rainfall_mm farm_input) default_rainfall in
  let irrigation := or_default (irrigation_percent farm_input) default_irrigation in
  let fertilizer := or_default (fertilizer_kg_ha farm_input) default_fertilizer in
  let temperature := or_default (temperature_c farm_input) default_temp in
  let body : M frame MLPrediction :=
    match ml with
    | Some art =>
        try_except
          (model_estimate art farm_input rainfall irrigation fertilizer temperature)
          (on_model_error crop_info rainfall irrigation fertilizer)
    | None => ret tt
    end ;;;
    f <- get ;;
    let predicted_yield := predicted_yield (fst f) in
    let confidence := confidence (fst f) in
    let predicted_yield_quintal_acre := predicted_yield * 0.0404686 / 10 in
    let risk_score := risk_score_of irrigation rainfall fertilizer in
    let risk_level := risk_level_of risk_score in
    avgs <- lift (averages ml farm_input state_name) ;;
    let state_avg := fst avgs in
    let national_avg := snd avgs in
    let factors := factors_of farm_input crop_info irrigation rainfall fertilizer in
    let recommendations := recommendations_of crop_info irrigation risk_level in
    let comparison := comparison_of national_avg predicted_yield in
    ret {| predicted_yield_kg_ha := round2 predicted_yield;
           predicted_yield_quintal_acre := round2 predicted_yield_quintal_acre;
           confidence_score := round2 confidence;
           risk_level := risk_level;
           state_avg_yield := option_map round2 (truthy_avg state_avg);
           national_avg_yield := option_map round2 (truthy_avg national_avg);
           influential_factors := firstn 5 factors;
           recommendations := firstn 5 recommendations;
           crop_info := crop_info;
           comparison := comparison;
           data_source :=
             u"Government of India Agricultural Statistics (Ministry of Agriculture & Farmers Welfare, 2023)" |} in
  fun w =>
    let (r, f) :=
      body ({| predicted_yield := inject_Z default_yield; confidence := 0.75 |}, w) in
    (r, snd f).

(** [prediction.dict()] and the same for a [FarmInput]. *)
Definition json_of_optional (x : option Q) : json :=
  match x with
  | Some q => JFloat q
  | None => JNull
  end.

Definition json_of_range (r : range) : json :=
  JObj [(u"min", JInt (rmin r)); (u"max", JInt (rmax r)); (u"avg", JInt (ravg r))].

Definition json_of_crop_info (c : CropInfo) : json :=
  JObj [ (u"optimal_soil", JArr (map JStr (optimal_soil c)));
         (u"fertilizer_recommendation",
          JObj (map (fun kv => (fst kv, JStr (snd kv))) (fertilizer_recommendation c)));
         (u"yield_range_kg_ha", json_of_range (yield_range_kg_ha c));
         (u"tips", JArr (map JStr (tips c))) ].

Definition json_of_factor (f : factor) : json :=
  JObj [ (u"factor", JStr (factor_name f));
         (u"impact", JStr (impact f));
         (u"detail", JStr (detail f)) ].

Definition FarmInput_dict (fi : FarmInput) : list (str * json) :=
  [ (u"crop_type", JStr (crop_type fi));
    (u"soil_type", JStr (soil_type fi));
    (u"season", JStr (season fi));
    (u"location", JStr (location fi));
    (u"rainfall_mm", json_of_optional (rainfall_mm fi));
    (u"irrigation_percent", json_of_optional (irrigation_percent fi));
    (u"fertilizer_kg_ha", json_of_optional (fertilizer_kg_ha fi));
    (u"temperature_c", json_of_optional (temperature_c fi));
    (u"area_hectares", json_of_optional (area_hectares fi)) ].

Definition MLPrediction_dict (p : MLPrediction) : list (str * json) :=
  [ (u"predicted_yield_kg_ha", JFloat (predicted_yield_kg_ha p));
    (u"predicted_yield_quintal_acre", JFloat (predicted_yield_quintal_acre p));
    (u"confidence_score", JFloat (confidence_score p));
    (u"risk_level", JStr (risk_level p));
    (u"state_avg_yield", json_of_optional (state_avg_yield p));
    (u"national_avg_yield", json_of_optional (national_avg_yield p));
    (u"influential_factors", JArr (map json_of_factor (influential_factors p)));
    (u"recommendations", JArr (map JStr (recommendations p)));
    (u"crop_info",
     match crop_info p with
     | Some c => json_of_crop_info c
     | None => JNull
     end);
    (u"comparison", JStr (comparison p));
    (u"data_source", JStr (data_source p)) ].

(** ** server.py, part 3: sessions and messages

    A MongoDB call returns or raises; which of the two is an argument
    ([outcome]), as are the values of [uuid4()] and [utcnow()]. *)

(** [await db.sessions.insert_one(doc)] *)
Definition sessions_insert_one (outcome : res unit) (doc : Session)
  : M world unit :=
  match outcome with
  | Ok _ => modify (fun w => with_sessions w (db_sessions w ++ [doc]))
  | Raise e => raise e
  end.

(** A [datetime] after its passage through MongoDB: BSON keeps the
    milliseconds since the epoch, and the driver cuts the microseconds off
    ([microsecond // 1000]). *)
Definition bson_datetime (t : Z) : Z := (1000 * (t / 1000))%Z.

(** A session document as it is read back. *)
Definition stored_session (s : Session) : Session :=
  {| sess_id := sess_id s;
     sess_language := sess_language s;
     farm_context := farm_context s;
     created_at := bson_datetime (created_at s);
     updated_at := bson_datetime (updated_at s) |}.

(** [await db.sessions.find_one({"id": session_id})]: the collection is kept
    as the list of the documents sent, and a document is read back as stored. *)
Definition sessions_find_one (outcome : res unit) (session_id : str)
  : M world (option Session) :=
  match outcome with
  | Ok _ =>
      w <- get ;;
      ret (option_map stored_session
             (find (fun s => eqb (sess_id s) session_id) (db_sessions w)))
  | Raise e => raise e
  end.

(** [await db.messages.insert_many(docs)].  The write is ordered: a call that
    raises has stored the documents before the one that failed, and all of
    them when only the acknowledgement was lost; [written] is their number. *)
Definition messages_insert_many (outcome : res unit) (written : nat)
    (docs : list ChatMessage) : M world unit :=
  match outcome with
  | Ok _ => modify (fun w => with_messages w (db_messages w ++ docs))
  | Raise e =>
      modify (fun w => with_messages w (db_messages w ++ firstn written docs)) ;;;
      raise e
  end.

Fixpoint insert_by_timestamp (m : ChatMessage) (sorted : list ChatMessage)
  : list ChatMessage :=
  match sorted with
  | [] => [m]
  | x :: rest =>
      if (timestamp m <? timestamp x)%Z then m :: sorted
      else x :: insert_by_timestamp m rest
  end.

(** [await db.messages.find({"session_id": id}).sort("timestamp", 1).to_list(100)] *)
Definition messages_find_sorted (outcome : res unit) (session_id : str)
  : M world (list ChatMessage) :=
  match outcome with
  | Ok _ =>
      w <- get ;;
      let found := filter (fun m => eqb (msg_session_id m) session_id)
                          (db_messages w) in
      ret (firstn 100 (fold_right insert_by_timestamp [] found))
  | Raise e => raise e
  end.

(** [HTTPException(status_code=..., detail=...)] *)
Definition HTTPException (status_code : Z) (detail : str) : exn :=
  Exn (u"HTTPException") (str_of_Z status_code ++ u": " ++ detail).

(** [create_session]: [uuid4], [utcnow1], [utcnow2] are the values drawn for
    [id], [created_at] and [updated_at]. *)
Definition create_session (uuid4 : str) (utcnow1 utcnow2 : Z)
    (outcome : res unit) (language : str) : M world Session :=
  let session :=
    {| sess_id := uuid4;
       sess_language := language;
       farm_context := None;
       created_at := utcnow1;
       updated_at := utcnow2 |} in
  try_except
    (sessions_insert_one outcome session)
    (fun e => logger_warning (u"Failed to save session to DB: " ++ exn_text e)) ;;;
  ret session.

(** [get_session] *)
Definition get_session (outcome : res unit) (session_id : str) : M world Session :=
  session <- sessions_find_one outcome session_id ;;
  match session with
  | None => raise (HTTPException 404 (u"Session not found"))
  | Some session => ret session
  end.

(** The "Store messages" block of [chat]. *)
Definition store_messages (outcome : res unit) (written : nat)
    (user_msg assistant_msg : ChatMessage) : M world unit :=
  try_except
    (messages_insert_many outcome written [user_msg; assistant_msg])
    (fun e =>
       logger_warning
         (u"Failed to save messages to DB (likely MongoDB connection error): "
            ++ exn_text e)).

(** [get_messages] *)
Definition get_messages (outcome : res unit) (session_id : str)
  : M world (list ChatMessage) :=
  messages_find_sorted outcome session_id.

(** [get_or_create_chat] *)
Definition get_or_create_chat (EMERGENT_LLM_KEY SYSTEM_PROMPT session_id : str)
  : M world Chat.LlmChat :=
  w <- get ;;
  match lookup session_id (chat_sessions w) with
  | Some chat => ret chat
  | None =>
      let chat :=
        Chat.with_model (Chat.init EMERGENT_LLM_KEY session_id SYSTEM_PROMPT)
                        (u"openai") (u"gpt-4o") in
      modify (fun w =>
        {| db_sessions := db_sessions w;
           db_messages := db_messages w;
           chat_sessions := chat_sessions w ++ [(session_id, chat)];
           log := log w |}) ;;;
      ret chat
  end.

(** [predict], the route [/predict]. *)
Definition predict `{Runtime} (ml : option artifacts) (farm_input : FarmInput)
  : M world MLPrediction :=
  predict_yield_ml ml farm_input.

(** Every place where the code base calls the database, with the two
    in-memory effects next to them. *)
Inductive operation :=
| CreateSession (uuid4 : str) (utcnow1 utcnow2 : Z) (outcome : res unit)
                (language : str)
| GetSession (outcome : res unit) (session_id : str)
| StoreMessages (outcome : res unit) (written : nat)
                (user_msg assistant_msg : ChatMessage)
| GetMessages (outcome : res unit) (session_id : str)
| GetOrCreateChat (key prompt session_id : str)
| Predict (rt : Runtime) (ml : option artifacts) (farm_input : FarmInput).

(** The world after an operation. *)
Definition run (op : operation) (w : world) : world :=
  match op with
  | CreateSession uuid4 t1 t2 outcome language =>
      snd (create_session uuid4 t1 t2 outcome language w)
  | GetSession outcome session_id => snd (get_session outcome session_id w)
  | StoreMessages outcome written user_msg assistant_msg =>
      snd (store_messages outcome written user_msg assistant_msg w)
  | GetMessages outcome session_id => snd (get_messages outcome session_id w)
  | GetOrCreateChat key prompt session_id =>
      snd (get_or_create_chat key prompt session_id w)
  | Predict rt ml farm_input => snd (@predict rt ml farm_input w)
  end.

Definition run_all (ops : list operation) (w : world) : world :=
  fold_left (fun w op => run op w) ops w.

End Server.

(* ================================================================== *)
(** * Vocabulary of the statements, and sample data *)
(* ================================================================== *)

Module PyStrSpec.
Import PyStr.

(** [w] occurs in [s]: the meaning of Python's [w in s]. *)
Definition occurs (w s : str) : Prop := exists a b, s = a ++ w ++ b.

(** The first character of [w] exists and is not white space. *)
Definition solid_head (w : str) : bool :=
  match w with
  | [] => false
  | c :: _ => negb (is_space c)
  end.

(** [w] is not empty and neither starts nor ends with white space. *)
Definition trimmed (w : str) : bool := solid_head w && solid_head (rev w).

End PyStrSpec.

Module LangSpec.
Import PyStr Lang PyStrSpec.

(** The Telugu block U+0C00..U+0C7F and the Devanagari block
    U+0900..U+097F. *)
Definition telugu (c : N) : Prop := (0xC00 <= c /\ c <= 0xC7F)%N.
Definition devanagari (c : N) : Prop := (0x900 <= c /\ c <= 0x97F)%N.

(** [k] of the characters of [text] are in the block [P]. *)
Inductive counted (P : N -> Prop) : str -> nat -> Prop :=
| counted_nil : counted P [] 0
| counted_in (c : N) (s : str) (k : nat) :
    P c -> counted P s k -> counted P (c :: s) (S k)
| counted_out (c : N) (s : str) (k : nat) :
    ~ P c -> counted P s k -> counted P (c :: s) k.

(** More than 15 percent of the characters of [text] are in the block
    [P]. *)
Definition more_than_15_percent (P : N -> Prop) (text : str) : Prop :=
  exists k, counted P text k /\ (15 * List.length text < 100 * k)%nat.

(** The Hindi words in Roman script that the detection knows. *)
Definition romanized_words : list str :=
  [u"kya"; u"hai"; u"mera"; u"meri"; u"kaise"; u"karo"; u"karna";
   u"fasal"; u"kheti"; u"pani"; u"baarish"].

(** A listed Romanized Hindi word occurs in the lowercased text. *)
Definition romanized_hindi (text : str) : Prop :=
  exists w, In w romanized_words /\ occurs w (lower text).

End LangSpec.

Module ChatSpec.
Import PyStr Py Json Chat PyStrSpec.

Definition user_entry (m : UserMessage) : entry :=
  {| role := u"user"; content := JStr (text m) |}.

Definition assistant_entry (c : json) : entry :=
  {| role := u"assistant"; content := c |}.

(** The POST "fails": [client.post] raises, or the status is not 200. *)
Definition post_fails (o : res response) : Prop :=
  match o with
  | Raise _ => True
  | Ok r => status_code r <> 200%Z
  end.

(** The texts returned on a failed exchange. *)
Definition error_reply (v : json) : Prop :=
  exists txt, v = JStr txt /\
    (startswith (u"I encountered an error connecting to the AI service.") txt = true \/
     startswith (u"Sorry, I am having trouble connecting to the server.") txt = true).

Definition live_chat : state :=
  {| self := with_model (init (u"sk-live-123") (u"s-1") (u"You are AgroBot."))
                        (u"openai") (u"gpt-4o");
     trace := [] |}.

Definition keyless_chat : state :=
  {| self := init [] (u"s-2") (u"You are AgroBot."); trace := [] |}.

Definition net_503 : network :=
  fun _ => Ok {| status_code := 503;
                 resp_text := u"Service Unavailable";
                 resp_json := Raise (Exn (u"JSONDecodeError") (u"Expecting value")) |}.

Definition net_answer : network :=
  fun _ =>
    Ok {| status_code := 200;
          resp_text := [];
          resp_json :=
            Ok (JObj [(u"choices",
                       JArr [JObj [(u"message",
                                    JObj [(u"role", JStr (u"assistant"));
                                          (u"content", JStr (u"Sow in June."))])]])]) |}.

End ChatSpec.

Module WeatherSpec.
Import PyStr Py PyNum Json Weather PyStrSpec.

(** [v] is the value of the first entry of [d] whose key occurs in [s]. *)
Definition first_named {A} (d : list (str * A)) (s : str) (v : A) : Prop :=
  exists pre k post,
    d = pre ++ (k, v) :: post
    /\ occurs k s
    /\ Forall (fun kv => ~ occurs (fst kv) s) pre.

(** No key of [d] occurs in [s]. *)
Definition none_named {A} (d : list (str * A)) (s : str) : Prop :=
  Forall (fun kv => ~ occurs (fst kv) s) d.

Definition keys_trimmed {A} (d : list (str * A)) : bool :=
  forallb (fun kv => trimmed (fst kv)) d.

(** The outcome of the [try] block of [get_weather], apart from the trace. *)
Definition fetch_outcome (net : network) (location : str) (coords : Coords)
  : res weather_info :=
  let? response := net (forecast_request coords) in
  let? _ := raise_for_status response in
  let? data := resp_json response in
  assemble location coords data.

Definition unavailable : advisory_reply :=
  Unavailable true (u"Could not fetch weather data for this location").

Definition sample_data : json :=
  JObj [ (u"current",
          JObj [ (u"temperature_2m", JFloat 41.5);
                 (u"relative_humidity_2m", JInt 90);
                 (u"precipitation", JFloat 0.0);
                 (u"weather_code", JInt 95);
                 (u"wind_speed_10m", JFloat 5.2) ]);
         (u"daily",
          JObj [ (u"time", JArr [JStr (u"2025-06-01"); JStr (u"2025-06-02")]);
                 (u"temperature_2m_max", JArr [JFloat 42.0; JFloat 40.1]);
                 (u"temperature_2m_min", JArr [JFloat 29.3; JFloat 28.0]);
                 (u"precipitation_sum", JArr [JFloat 60.5; JNull]);
                 (u"precipitation_probability_max", JArr [JInt 90; JInt 10]);
                 (u"weather_code", JArr [JInt 65; JInt 1]) ]) ].

Definition net_ok : network :=
  fun _ => Ok {| raise_for_status := Ok tt; resp_json := Ok sample_data |}.

Definition net_down : network :=
  fun _ => Raise (Exn (u"ConnectError") (u"All connection attempts failed")).

(** A current temperature that is missing makes [temp > 40] raise. *)
Definition net_no_temperature : network :=
  fun _ => Ok {| raise_for_status := Ok tt;
                 resp_json := Ok (JObj [(u"current", JObj [])]) |}.

(** The weather fetch fails: the GET raises, or it is answered with a status
    that [raise_for_status] rejects, or with a body that does not decode. *)
Definition request_fails (net : network) (coords : Coords) : Prop :=
  (exists e, net (forecast_request coords) = Raise e)
  \/ (exists r, net (forecast_request coords) = Ok r
                /\ ((exists e, raise_for_status r = Raise e)
                    \/ (exists e, resp_json r = Raise e))).

(** The GET is answered with an accepted status and a body that decodes to
    [data]. *)
Definition request_answered (net : network) (coords : Coords) (data : json)
  : Prop :=
  exists r, net (forecast_request coords) = Ok r
            /\ raise_for_status r = Ok tt
            /\ resp_json r = Ok data.

(** An answer of Open-Meteo in which the current humidity is [null]. *)
Definition null_humidity_data : json :=
  JObj [ (u"current",
          JObj [ (u"temperature_2m", JFloat 31.5);
                 (u"relative_humidity_2m", JNull);
                 (u"precipitation", JFloat 0.0);
                 (u"weather_code", JInt 1);
                 (u"wind_speed_10m", JFloat 4.0) ]);
         (u"daily",
          JObj [ (u"time", JArr [JStr (u"2025-06-01")]);
                 (u"temperature_2m_max", JArr [JFloat 33.0]);
                 (u"temperature_2m_min", JArr [JFloat 24.5]);
                 (u"precipitation_sum", JArr [JFloat 0.0]);
                 (u"precipitation_probability_max", JArr [JInt 5]);
                 (u"weather_code", JArr [JInt 1]) ]) ].

Definition net_null_humidity : network :=
  fun _ => Ok {| raise_for_status := Ok tt; resp_json := Ok null_humidity_data |}.

End WeatherSpec.

Module ServerSpec.
Import PyStr Py PyNum Json Knowledge Server PyStrSpec.
Open Scope Q_scope.

Definition crop_info_of (fi : FarmInput) : option CropInfo :=
  get_crop_info (crop_type fi).

Definition state_name_of (fi : FarmInput) : str :=
  get_state_from_location (location fi).

Definition default_rainfall_of (fi : FarmInput) : num :=
  match get_state_info (state_name_of fi) with
  | Some state_info => I (ravg (state_rainfall_mm state_info))
  | None => I 900
  end.

Definition default_yield_of (fi : FarmInput) : Z :=
  match crop_info_of fi with
  | Some crop_info => ravg (yield_range_kg_ha crop_info)
  | None => 3000%Z
  end.

(** The effective inputs: the value given, or the default when the field is
    absent or zero. *)
Definition effective_rainfall (fi : FarmInput) : num :=
  or_default (rainfall_mm fi) (default_rainfall_of fi).
Definition effective_irrigation (fi : FarmInput) : num :=
  or_default (irrigation_percent fi) (I 60).
Definition effective_fertilizer (fi : FarmInput) : num :=
  or_default (fertilizer_kg_ha fi) (I 150).
Definition effective_temperature (fi : FarmInput) : num :=
  or_default (temperature_c fi) (I 27).

(** The row given to the regressor, or the exception raised on the way. *)
Definition encoded_row (art : artifacts) (fi : FarmInput) : res features :=
  let crop_key := strip (lower (crop_type fi)) in
  let? enc_crop := getitem (encoders art) (u"Crop") in
  let? crop_encoded :=
    (if mem crop_key (classes_ enc_crop)
     then transform enc_crop (title crop_key) else Ok O) in
  let soil_key := strip (lower (soil_type fi)) in
  let? enc_soil := getitem (encoders art) (u"Soil_Type") in
  let? soil_encoded :=
    (if in_lowered soil_key (classes_ enc_soil)
     then transform enc_soil (title soil_key) else Ok O) in
  let season_key := strip (lower (season fi)) in
  let? enc_season := getitem (encoders art) (u"Season") in
  let? season_encoded :=
    (if in_lowered season_key (classes_ enc_season)
     then transform enc_season (title season_key) else Ok O) in
  Ok {| state_encoded := O;
        district_encoded := O;
        crop_encoded := crop_encoded;
        season_encoded := season_encoded;
        soil_encoded := soil_encoded;
        x_rainfall := val (effective_rainfall fi);
        x_irrigation := val (effective_irrigation fi);
        x_fertilizer := val (effective_fertilizer fi);
        x_temperature := val (effective_temperature fi) |}.

(** The output of the model, or the exception. *)
Definition model_output (art : artifacts) (fi : FarmInput) : res Q :=
  let? row := encoded_row art fi in
  yield_model art row.

(** The outcome of the whole [try] block: the yield and the confidence it
    assigns, or the exception that sends control to the [except] block. *)
Definition try_outcome (art : artifacts) (fi : FarmInput) : res (Q * Q) :=
  let? y := model_output art fi in
  let? test_score := getitem (model_stats art) (u"test_score") in
  Ok (y, pymin 0.92 test_score).

Definition warning (e : exn) : log_record :=
  {| levelname := u"WARNING";
     message := u"ML prediction error: " ++ exn_text e
                  ++ u". Using knowledge-based estimate." |}.

(** The effect of the [except] block on the local variables. *)
Definition after_error (fi : FarmInput) (l : locals) : locals :=
  match crop_info_of fi with
  | Some crop_info =>
      {| predicted_yield :=
           knowledge_estimate crop_info (effective_rainfall fi)
                              (effective_irrigation fi) (effective_fertilizer fi);
         confidence := confidence l |}
  | None => l
  end.

Definition initial_locals (fi : FarmInput) : locals :=
  {| predicted_yield := inject_Z (default_yield_of fi); confidence := 0.75 |}.

(** The local variables after the guarded block, and the warnings logged. *)
Definition estimate (ml : option artifacts) (fi : FarmInput)
  : locals * list log_record :=
  match ml with
  | None => (initial_locals fi, [])
  | Some art =>
      match model_output art fi with
      | Ok y =>
          match getitem (model_stats art) (u"test_score") with
          | Ok ts => ({| predicted_yield := y; confidence := pymin 0.92 ts |}, [])
          | Raise e =>
              (after_error fi {| predicted_yield := y; confidence := 0.75 |},
               [warning e])
          end
      | Raise e => (after_error fi (initial_locals fi), [warning e])
      end
  end.

(** The prediction built from the local variables. *)
Definition conclude `{Runtime} (ml : option artifacts) (fi : FarmInput)
    (l : locals) : res MLPrediction :=
  let irrigation := effective_irrigation fi in
  let rainfall := effective_rainfall fi in
  let fertilizer := effective_fertilizer fi in
  let risk_level := risk_level_of (risk_score_of irrigation rainfall fertilizer) in
  let? avgs := averages ml fi (state_name_of fi) in
  Ok {| predicted_yield_kg_ha := round2 (predicted_yield l);
        predicted_yield_quintal_acre :=
          round2 (predicted_yield l * 0.0404686 / 10);
        confidence_score := round2 (confidence l);
        risk_level := risk_level;
        state_avg_yield := option_map round2 (truthy_avg (fst avgs));
        national_avg_yield := option_map round2 (truthy_avg (snd avgs));
        influential_factors :=
          firstn 5 (factors_of fi (crop_info_of fi) irrigation rainfall fertilizer);
        recommendations :=
          firstn 5 (recommendations_of (crop_info_of fi) irrigation risk_level);
        crop_info := crop_info_of fi;
        comparison := comparison_of (snd avgs) (predicted_yield l);
        data_source :=
          u"Government of India Agricultural Statistics (Ministry of Agriculture & Farmers Welfare, 2023)" |}.

(** The world after some records have been logged. *)
Definition logged (w : world) (records : list log_record) : world :=
  match records with
  | [] => w
  | _ => with_log w (log w ++ records)
  end.

(** A runtime for the examples: floats print as their integer part followed
    by [.0], patterns are literal and a pattern with an opening parenthesis
    does not compile. *)
Definition sample_runtime : Runtime :=
  {| repr_float := fun q => str_of_Z (Qfloor q) ++ u".0";
     re_contains := fun pattern s =>
       if contains (u"(") pattern
       then Raise (Exn (u"error")
                     (u"missing ), unterminated subpattern at position 0"))
       else Ok (contains pattern s) |}.

Definition sample_artifacts : artifacts :=
  {| yield_model := fun x => Ok (9000 + x_irrigation x);
     encoders :=
       [ (u"State", {| classes_ := [u"Punjab"; u"West Bengal"] |});
         (u"District", {| classes_ := [u"Ludhiana"; u"Nadia"] |});
         (u"Crop", {| classes_ := [u"Cotton"; u"Rice"; u"Wheat"] |});
         (u"Season", {| classes_ := [u"Kharif"; u"Rabi"; u"Zaid"] |});
         (u"Soil_Type", {| classes_ := [u"Alluvial"; u"Black"; u"Red"] |}) ];
     model_stats := [ (u"train_score", 0.95); (u"test_score", 0.88) ];
     crop_data :=
       [ {| State := u"Punjab"; Crop := u"Rice"; Yield_Kg_Ha := 4200 |};
         {| State := u"West Bengal"; Crop := u"Rice"; Yield_Kg_Ha := 2900 |};
         {| State := u"Punjab"; Crop := u"Wheat"; Yield_Kg_Ha := 4800 |} ] |}.

(** The same artifacts with a regressor that rejects its input. *)
Definition failing_artifacts : artifacts :=
  {| yield_model := fun _ =>
       Raise (Exn (u"ValueError") (u"Input X contains NaN."));
     encoders := encoders sample_artifacts;
     model_stats := model_stats sample_artifacts;
     crop_data := crop_data sample_artifacts |}.

(** The same artifacts with soil classes in capitals: ["alluvial"] passes the
    lowercased membership test and [transform] then rejects ["Alluvial"]. *)
Definition shouting_artifacts : artifacts :=
  {| yield_model := yield_model sample_artifacts;
     encoders :=
       [ (u"Crop", {| classes_ := [u"Cotton"; u"Rice"; u"Wheat"] |});
         (u"Season", {| classes_ := [u"Kharif"; u"Rabi"; u"Zaid"] |});
         (u"Soil_Type", {| classes_ := [u"ALLUVIAL"; u"BLACK"; u"RED"] |}) ];
     model_stats := model_stats sample_artifacts;
     crop_data := crop_data sample_artifacts |}.

Definition empty_world : world :=
  {| db_sessions := []; db_messages := []; chat_sessions := []; log := [] |}.

Definition rice_in_punjab : FarmInput :=
  {| crop_type := u"rice";
     soil_type := u"alluvial";
     season := u"kharif";
     location := u"Punjab";
     rainfall_mm := Some 800;
     irrigation_percent := None;
     fertilizer_kg_ha := None;
     temperature_c := None;
     area_hectares := None |}.

(** Rice on a soil the encoder has never seen, with little water. *)
Definition rice_on_regolith : FarmInput :=
  {| crop_type := u"rice";
     soil_type := u"lunar regolith";
     season := u"kharif";
     location := u"Punjab";
     rainfall_mm := Some 450;
     irrigation_percent := Some 35;
     fertilizer_kg_ha := None;
     temperature_c := None;
     area_hectares := Some 2 |}.

Definition range_ordered (c : CropInfo) : bool :=
  (rmin (yield_range_kg_ha c) <=? rmax (yield_range_kg_ha c))%Z.

(** The score as four independent gains. *)
Definition claimed_risk_score (fi : FarmInput) : Z :=
  ((if Qlt_le_dec (val (effective_irrigation fi)) 40 then 2 else 0)
   + (if Qlt_le_dec (val (effective_rainfall fi)) 500 then 2 else 0)
   + (if Qlt_le_dec 1500 (val (effective_rainfall fi)) then 1 else 0)
   + (if Qlt_le_dec (val (effective_fertilizer fi)) 80 then 1 else 0))%Z.

Definition rice : CropInfo :=
  match get_crop_info (u"rice") with
  | Some c => c
  | None => {| yield_range_kg_ha := {| rmin := 0; rmax := 0; ravg := 0 |};
               optimal_soil := []; fertilizer_recommendation := []; tips := [] |}
  end.

(** One of the three membership tests of the guarded block fails: the crop
    key is not among the classes of the crop encoder, or the soil key (the
    season key) is not among the lowercased classes of its encoder. *)
Definition unresolved_category (art : artifacts) (fi : FarmInput) : Prop :=
  (exists enc, getitem (encoders art) (u"Crop") = Ok enc
               /\ mem (strip (lower (crop_type fi))) (classes_ enc) = false)
  \/ (exists enc, getitem (encoders art) (u"Soil_Type") = Ok enc
                  /\ in_lowered (strip (lower (soil_type fi))) (classes_ enc) = false)
  \/ (exists enc, getitem (encoders art) (u"Season") = Ok enc
                  /\ in_lowered (strip (lower (season fi))) (classes_ enc) = false).

(** The claim as the specification states it: an unresolved category makes
    the function return the knowledge-based interpolation. *)
Definition falls_back_when_unresolved : Prop :=
  forall (rt : Runtime) (art : artifacts) (fi : FarmInput) (w : world)
         (crop : CropInfo) (p : MLPrediction),
    unresolved_category art fi ->
    crop_info_of fi = Some crop ->
    fst (@predict_yield_ml rt (Some art) fi w) = Ok p ->
    predicted_yield_kg_ha p ==
      round2 (knowledge_estimate crop (effective_rainfall fi)
                                 (effective_irrigation fi)
                                 (effective_fertilizer fi)).

(** The eight fields [predict_yield_ml] reads agree. *)
Definition same_inputs (a b : FarmInput) : Prop :=
  crop_type a = crop_type b
  /\ soil_type a = soil_type b
  /\ season a = season b
  /\ location a = location b
  /\ rainfall_mm a = rainfall_mm b
  /\ irrigation_percent a = irrigation_percent b
  /\ fertilizer_kg_ha a = fertilizer_kg_ha b
  /\ temperature_c a = temperature_c b.

Definition without_area (fi : FarmInput) : FarmInput :=
  {| crop_type := crop_type fi;
     soil_type := soil_type fi;
     season := season fi;
     location := location fi;
     rainfall_mm := rainfall_mm fi;
     irrigation_percent := irrigation_percent fi;
     fertilizer_kg_ha := fertilizer_kg_ha fi;
     temperature_c := temperature_c fi;
     area_hectares := None |}.

(** The claim as the specification states it, as far as the sizes of the
    two models go. *)
Definition eight_inputs_nine_outputs : Prop :=
  (forall fi, List.length (FarmInput_dict fi) = 8%nat)
  /\ (forall p, List.length (MLPrediction_dict p) = 9%nat).

(** What an operation adds to the collection of sessions. *)
Definition inserted (op : operation) : list Session :=
  match op with
  | CreateSession uuid4 t1 t2 (Ok _) language =>
      [ {| sess_id := uuid4; sess_language := language; farm_context := None;
           created_at := t1; updated_at := t2 |} ]
  | _ => []
  end.

Definition first_session : Session :=
  {| sess_id := u"9f1c"; sess_language := u"hi"; farm_context := None;
     created_at := 1000; updated_at := 1001 |}.

Definition later_operations : list operation :=
  [ GetSession (Ok tt) (u"9f1c");
    CreateSession (u"a2d7") 2000 2000 (Ok tt) (u"te");
    StoreMessages (Ok tt) 2
      {| msg_id := u"m1"; msg_session_id := u"9f1c"; msg_role := u"user";
         msg_content := JStr (u"kya hai"); msg_language := u"hi";
         timestamp := 2100 |}
      {| msg_id := u"m2"; msg_session_id := u"9f1c"; msg_role := u"assistant";
         msg_content := JStr Chat.mock_response; msg_language := u"hi";
         timestamp := 2101 |};
    CreateSession (u"b3e8") 3000 3001
      (Raise (Exn (u"ServerSelectionTimeoutError") (u"connection refused")))
      (u"en");
    GetMessages (Ok tt) (u"9f1c");
    GetOrCreateChat [] (u"You are AgroBot.") (u"9f1c");
    Predict sample_runtime (Some failing_artifacts) rice_on_regolith ].

End ServerSpec.

(* ================================================================== *)
(** * Vocabulary for conversations *)
(* ================================================================== *)

Module ChatSpec2.
Import PyStr Py Json Chat ChatSpec.

(** A conversation: one [send_message] call after the other on the same chat
    object, each with the network it meets. *)
Fixpoint send_all (calls : list (network * UserMessage)) (s : state) : state :=
  match calls with
  | [] => s
  | (net, m) :: rest => send_all rest (snd (send_message net m s))
  end.

Definition is_user (e : entry) : bool := eqb (role e) (u"user").

(** The number of entries of a history whose role is ["user"]. *)
Definition user_entries (h : list entry) : nat := List.length (filter is_user h).

(** The decoded body is an object whose ["choices"] is a list that starts with
    an object whose ["message"] is an object with a ["content"] [c]. *)
Definition carries_content (data : json) (c : json) : Prop :=
  exists d f rest g,
    data = JObj d
    /\ lookup (u"choices") d = Some (JArr (JObj f :: rest))
    /\ lookup (u"message") f = Some (JObj g)
    /\ lookup (u"content") g = Some c.

(** The entry [__init__] puts first in the history. *)
Definition system_entry (system_message : str) : entry :=
  {| role := u"system"; content := JStr system_message |}.

Definition answer_with (body : json) : network :=
  fun _ => Ok {| status_code := 200; resp_text := []; resp_json := Ok body |}.

(** What a request sent for a chat with key [key] and system message [sys]
    looks like: the conversation starts with the system entry, the key is in
    the [Authorization] header, the sampling parameters are the fixed ones, and
    the address is OpenRouter's exactly for a key that starts with
    ["sk-or-v1"]. *)
Definition well_addressed (key sys : str) (req : request) : Prop :=
  hd_error (p_messages (body req)) = Some (system_entry sys)
  /\ lookup (u"Authorization") (headers req) = Some (u"Bearer " ++ key)
  /\ lookup (u"Content-Type") (headers req) = Some (u"application/json")
  /\ p_temperature (body req) = 0.7
  /\ p_max_tokens (body req) = 1000%Z
  /\ url req = (if startswith (u"sk-or-v1") key then openrouter_url else openai_url).

End ChatSpec2.

(* ================================================================== *)
(** * Vocabulary for weather reports *)
(* ================================================================== *)

Module WeatherSpec2.
Import PyStr Py PyNum Json Weather PyStrSpec WeatherSpec.

(** [l] is empty or holds one of [choices]. *)
Definition at_most_one_of (choices : list str) (l : list str) : Prop :=
  l = [] \/ exists c, In c choices /\ l = [c].

(** The types of a list of advisories: at most one about temperature, then at
    most one about rain, then at most one about humidity, then at most one
    about spraying. *)
Definition consistent_advice (types : list str) : Prop :=
  exists heat rain disease spray,
    types = heat ++ rain ++ disease ++ spray
    /\ at_most_one_of [u"heat_stress"; u"heat_advisory"; u"cold_advisory"] heat
    /\ at_most_one_of [u"heavy_rain_warning"; u"rain_expected"; u"dry_spell"] rain
    /\ at_most_one_of [u"disease_risk"] disease
    /\ at_most_one_of [u"spray_favorable"; u"spray_unfavorable"] spray.

(** The number the decoded answer gives for a reading of [current], if it
    gives one. *)
Definition reading (data : json) (key : str) : option num :=
  match dict_get data (u"current") (JObj []) with
  | Ok current =>
      match dict_get current key JNull with
      | Ok v => to_num v
      | Raise _ => None
      end
  | Raise _ => None
  end.

(** The advisory dictionary as [get_weather_advisory] formats it. *)
Definition formatted (language : str) (a : advisory) : formatted_advisory :=
  {| f_type := a_type a;
     f_severity := severity a;
     f_message := message_for a (u"message_" ++ language) |}.

Definition net_json (data : json) : network :=
  fun _ => Ok {| raise_for_status := Ok tt; resp_json := Ok data |}.

End WeatherSpec2.

(* ================================================================== *)
(** * server.py, part 4: the knowledge routes and two chart routes *)
(* ================================================================== *)

Module Routes.
Import PyStr Py PyNum Json Knowledge Server.
Open Scope Q_scope.

(** [get_crop_details]: every entry of the table is a non-empty dictionary,
    so [not crop_info] holds for [None] only. *)
Definition get_crop_details (crop_name : str) : res CropInfo :=
  match get_crop_info crop_name with
  | None =>
      Raise (HTTPException 404
               (u"Crop '" ++ crop_name ++ u"' not found in knowledge base"))
  | Some crop_info => Ok crop_info
  end.

(** [get_state_details] *)
Definition get_state_details (state_name : str) : res StateInfo :=
  match get_state_info state_name with
  | None =>
      Raise (HTTPException 404
               (u"State '" ++ state_name ++ u"' not found in knowledge base"))
  | Some state_info => Ok state_info
  end.

(** [x or y] for an [Optional[float]] [x]. *)
Definition or_else (x : option Q) (y : Q) : Q :=
  match x with
  | Some q => if Qeq_bool q 0 then y else q
  | None => y
  end.

(** The dictionary [get_yield_comparison_chart] returns; ["labels"],
    ["values"] and ["colors"] are the keys of its ["data"]. *)
Record bar_chart := {
  bar_chart_type : str;
  bar_title : str;
  bar_labels : list str;
  bar_values : list Q;
  bar_colors : list str;
  bar_unit : str;
  bar_analysis : str
}.

(** [get_yield_comparison_chart].  Every entry of the knowledge base has a
    ["yield_range_kg_ha"] with a ["max"], so the defaults of the two [get]
    calls on [crop_info] are never taken. *)
Definition get_yield_comparison_chart `{Runtime} (ml : option artifacts)
    (farm_input : FarmInput) : M world bar_chart :=
  prediction <- predict_yield_ml ml farm_input ;;
  ret {| bar_chart_type := u"bar";
         bar_title := title (crop_type farm_input) ++ u" Yield Comparison";
         bar_labels :=
           [u"Your Prediction"; u"State Average"; u"National Average"; u"Best Case"];
         bar_values :=
           [ predicted_yield_kg_ha prediction;
             or_else (state_avg_yield prediction)
                     (predicted_yield_kg_ha prediction * 0.9);
             or_else (national_avg_yield prediction)
                     (predicted_yield_kg_ha prediction * 0.85);
             match crop_info prediction with
             | Some crop_info => inject_Z (rmax (yield_range_kg_ha crop_info))
             | None => predicted_yield_kg_ha prediction * 1.2
             end ];
         bar_colors := [u"#4CAF50"; u"#2196F3"; u"#FF9800"; u"#9C27B0"];
         bar_unit := u"kg/ha";
         bar_analysis := comparison prediction |}.

(** The dictionary [get_factors_chart] returns. *)
Record pie_chart := {
  pie_chart_type : str;
  pie_title : str;
  pie_labels : list str;
  pie_values : list Z;
  pie_colors : list str;
  pie_insights : list factor
}.

(** [d[key] = value] on an insertion-ordered dictionary: the value of an
    existing key is replaced in place, a new key goes to the end. *)
Fixpoint setitem {A} (d : list (str * A)) (key : str) (value : A)
  : list (str * A) :=
  match d with
  | [] => [(key, value)]
  | (k, v) :: d' =>
      if eqb k key then (k, value) :: d' else (k, v) :: setitem d' key value
  end.

(** [d.get(key, default)] *)
Definition get_default {A} (d : list (str * A)) (key : str) (default : A) : A :=
  match lookup key d with
  | Some v => v
  | None => default
  end.

(** The body of the loop "Adjust based on actual factors". *)
Definition adjust (factor_values : list (str * Z)) (factor : factor)
  : list (str * Z) :=
  let impact := impact factor in
  if eqb impact (u"Positive") then
    setitem factor_values (factor_name factor)
            (get_default factor_values (factor_name factor) 20 + 5)%Z
  else if eqb impact (u"Negative") then
    setitem factor_values (factor_name factor)
            (get_default factor_values (factor_name factor) 20 - 5)%Z
  else factor_values.

(** [get_factors_chart] *)
Definition get_factors_chart `{Runtime} (ml : option artifacts)
    (farm_input : FarmInput) : M world pie_chart :=
  prediction <- predict_yield_ml ml farm_input ;;
  let factor_values :=
    [ (u"Irrigation",
       match influential_factors prediction with
       | [] => 25%Z
       | _ :: _ => 30%Z
       end);
      (u"Rainfall", 25%Z);
      (u"Soil Type", 20%Z);
      (u"Fertilizer", 15%Z);
      (u"Season", 10%Z) ] in
  let factor_values :=
    fold_left adjust (influential_factors prediction) factor_values in
  ret {| pie_chart_type := u"pie";
         pie_title := u"Factors Affecting Your Yield";
         pie_labels := map fst factor_values;
         pie_values := map snd factor_values;
         pie_colors := [u"#4CAF50"; u"#2196F3"; u"#FF9800"; u"#9C27B0"; u"#E91E63"];
         pie_insights := influential_factors prediction |}.

End Routes.

(* ================================================================== *)
(** * Vocabulary for predictions, lookups, sessions and charts *)
(* ================================================================== *)

Module ServerSpec2.
Import PyStr Py PyNum Json Knowledge Server Routes PyStrSpec ServerSpec.
Open Scope Q_scope.

(** The three advices [predict_yield_ml] words itself. *)
Definition drip_advice : str :=
  u"Consider installing drip irrigation or micro-sprinklers to improve water efficiency".
Definition insurance_advice : str :=
  u"⚠️ High risk detected - Consider crop insurance under PMFBY scheme".
Definition soil_test_advice : str :=
  u"Get soil tested under Soil Health Card scheme for precise fertilizer recommendations".

Definition own_advices : list str :=
  [drip_advice; insurance_advice; soil_test_advice].

(** A crop has two tips at least, and its first two tips are none of the
    advices above. *)
Definition tips_usable (c : CropInfo) : bool :=
  match tips c with
  | t1 :: t2 :: _ => negb (mem t1 own_advices) && negb (mem t2 own_advices)
  | _ => false
  end.

Definition average_in_range (c : CropInfo) : bool :=
  ((rmin (yield_range_kg_ha c) <=? ravg (yield_range_kg_ha c))
   && (ravg (yield_range_kg_ha c) <=? rmax (yield_range_kg_ha c)))%Z.

(** No string occurs twice. *)
Fixpoint distinct (l : list str) : bool :=
  match l with
  | [] => true
  | x :: l' => negb (mem x l') && distinct l'
  end.

(** White space only. *)
Definition blank (s : str) : bool := forallb is_space s.

(** [k] is the first of [names] that occurs in [s]. *)
Definition first_listed (names : list str) (s k : str) : Prop :=
  exists pre post,
    names = pre ++ k :: post
    /\ occurs k s
    /\ Forall (fun n => ~ occurs n s) pre.

(** [v] is the value of the first entry of [d] whose key occurs in [s]. *)
Definition first_entry {A} (d : list (str * A)) (s : str) (v : A) : Prop :=
  exists pre k post,
    d = pre ++ (k, v) :: post
    /\ occurs k s
    /\ Forall (fun kv => ~ occurs (fst kv) s) pre.



(** The share of each factor in the pie chart, read off the inputs: 35 for
    an irrigation of at least 70, 30 for one of at least 40, 25 for any
    other. *)
Definition irrigation_share (fi : FarmInput) : Z :=
  if Qle_bool 70 (val (effective_irrigation fi)) then 35
  else if Qle_bool 40 (val (effective_irrigation fi)) then 30
  else 25.

Definition rainfall_share (fi : FarmInput) : Z :=
  if Qlt_le_dec 600 (val (effective_rainfall fi)) then
    if Qlt_le_dec (val (effective_rainfall fi)) 1200 then 30 else 25
  else 25.

Definition soil_share (fi : FarmInput) : Z :=
  match crop_info_of fi with
  | Some c => if mem (title (soil_type fi)) (optimal_soil c) then 25 else 20
  | None => 20
  end.

Definition fertilizer_share (fi : FarmInput) : Z :=
  if Qle_bool 120 (val (effective_fertilizer fi)) then 20 else 15.

Definition count_impact (i : str) (fs : list factor) : Z :=
  Z.of_nat (List.length (filter (fun f => eqb (impact f) i) fs)).

Definition sum_Z (l : list Z) : Z := fold_right Z.add 0%Z l.

(** The same farm with another irrigation coverage. *)
Definition with_irrigation (fi : FarmInput) (i : Q) : FarmInput :=
  {| crop_type := crop_type fi;
     soil_type := soil_type fi;
     season := season fi;
     location := location fi;
     rainfall_mm := rainfall_mm fi;
     irrigation_percent := Some i;
     fertilizer_kg_ha := fertilizer_kg_ha fi;
     temperature_c := temperature_c fi;
     area_hectares := area_hectares fi |}.

(** Sample data. *)
Definition wheat_unknown_place : FarmInput :=
  {| crop_type := u" Wheat ";
     soil_type := u"loamy";
     season := u"rabi";
     location := u"Shimla";
     rainfall_mm := None;
     irrigation_percent := Some 80;
     fertilizer_kg_ha := Some 130;
     temperature_c := None;
     area_hectares := None |}.

Definition stored (m_id session_id : str) (t : Z) : ChatMessage :=
  {| msg_id := m_id; msg_session_id := session_id; msg_role := u"user";
     msg_content := JStr (u"kya hai"); msg_language := u"hi"; timestamp := t |}.

Definition busy_world : world :=
  {| db_sessions := [first_session];
     db_messages := [stored (u"m3") (u"9f1c") 30; stored (u"m1") (u"9f1c") 10;
                     stored (u"x1") (u"a2d7") 15; stored (u"m2") (u"9f1c") 20];
     chat_sessions := [];
     log := [] |}.

End ServerSpec2.

(* ================================================================== *)
(** * Theorems *)
(* ================================================================== *)

Module PyStrFacts.
Import PyStr PyStrSpec.

Example lower_ascii : lower (u"  Coastal KERALA ") = u"  coastal kerala ".
Proof. reflexivity. Qed.

Example lower_kelvin_sign : lower [8490; 89; 65]%N = u"kya".
Proof. reflexivity. Qed.

Example strip_both_ends : strip (u"  coastal kerala ") = u"coastal kerala".
Proof. reflexivity. Qed.

Example title_words :
  title (u"sandy-loam 2nd they're") = u"Sandy-Loam 2Nd They'Re".
Proof. reflexivity. Qed.

Example contains_inside : contains (u"pani") (u"meri fasal ko pani do") = true.
Proof. reflexivity. Qed.

Example utf8_devanagari : utf8 "मे" = [2350; 2375]%N.
Proof. reflexivity. Qed.

Lemma eqb_eq (a b : str) : eqb a b = true <-> a = b.
Proof.
  revert b; induction a as [|c a IH]; intros [|d b]; simpl; split;
    try discriminate; try reflexivity; intros H.
  - apply andb_true_iff in H as [H1 H2].
    apply N.eqb_eq in H1. apply IH in H2. now subst.
  - injection H as -> ->. rewrite N.eqb_refl. now apply IH.
Qed.

Lemma eqb_refl (a : str) : eqb a a = true.
Proof. now apply eqb_eq. Qed.

Lemma startswith_app (p s : str) : startswith p (p ++ s) = true.
Proof.
  induction p as [|c p IH]; simpl; [reflexivity|].
  now rewrite N.eqb_refl.
Qed.

(** ** Occurrence of a word *)

Lemma startswith_iff (p s : str) :
  startswith p s = true <-> exists b, s = p ++ b.
Proof.
  revert s; induction p as [|c p IH]; intros s; simpl.
  - split; [intros _; now exists s | reflexivity].
  - destruct s as [|d s].
    + split; [discriminate | intros [b H]; discriminate].
    + rewrite andb_true_iff, N.eqb_eq, IH. split.
      * intros [-> [b ->]]. now exists b.
      * intros [b H]. injection H as -> ->. split; [reflexivity | now exists b].
Qed.

Lemma contains_iff (p s : str) : contains p s = true <-> occurs p s.
Proof.
  unfold occurs. induction s as [|d s IH]; simpl.
  - rewrite orb_false_r, startswith_iff. split.
    + intros [b H]. now exists [], b.
    + intros (a & b & H). symmetry in H.
      apply app_eq_nil in H as [-> H]. apply app_eq_nil in H as [-> ->].
      now exists [].
  - rewrite orb_true_iff, startswith_iff, IH. split.
    + intros [[b H] | (a & b & H)].
      * now exists [], b.
      * exists (d :: a), b. now rewrite H.
    + intros (a & b & H). destruct a as [|x a].
      * left. now exists b.
      * right. injection H as -> ->. now exists a, b.
Qed.

Lemma occurs_rev (w s : str) : occurs w s -> occurs (rev w) (rev s).
Proof.
  intros (a & b & ->). exists (rev b), (rev a).
  now rewrite !rev_app_distr, app_assoc.
Qed.

Lemma occurs_rev_iff (w s : str) : occurs (rev w) (rev s) <-> occurs w s.
Proof.
  split; [|apply occurs_rev].
  intros H. apply occurs_rev in H. now rewrite !rev_involutive in H.
Qed.

(** ** Stripping does not change where a trimmed word occurs *)

Lemma occurs_lstrip (w s : str) :
  solid_head w = true -> (occurs w (lstrip s) <-> occurs w s).
Proof.
  intros Hw. induction s as [|c s IH]; simpl; [reflexivity|].
  destruct (is_space c) eqn:Sp; [|reflexivity].
  rewrite IH. split.
  - intros (a & b & ->). now exists (c :: a), b.
  - intros (a & b & H). destruct a as [|x a].
    + destruct w as [|d w]; [discriminate|].
      simpl in H. injection H as -> _. simpl in Hw.
      rewrite Sp in Hw. discriminate.
    + injection H as _ ->. now exists a, b.
Qed.

Lemma occurs_rstrip (w s : str) :
  solid_head (rev w) = true -> (occurs w (rstrip s) <-> occurs w s).
Proof.
  intros Hw. unfold rstrip.
  rewrite <- occurs_rev_iff, rev_involutive, occurs_lstrip by exact Hw.
  apply occurs_rev_iff.
Qed.

Lemma occurs_strip (w s : str) :
  trimmed w = true -> (occurs w (strip s) <-> occurs w s).
Proof.
  unfold trimmed, strip. rewrite andb_true_iff. intros [H1 H2].
  now rewrite occurs_rstrip, occurs_lstrip.
Qed.

Lemma contains_strip (w s : str) :
  trimmed w = true -> contains w (strip s) = contains w s.
Proof.
  intros Hw. apply eq_true_iff_eq.
  rewrite !contains_iff. now apply occurs_strip.
Qed.

End PyStrFacts.

Module PyNumFacts.
Import PyStr PyNum.
Open Scope Q_scope.

Example round_ties_to_even :
  map round_half_even [0.5; 1.5; 2.5; -0.5; 2.4; 2.6] = [0; 2; 2; 0; 2; 3]%Z.
Proof. reflexivity. Qed.

Example round2_quintals : round2 (9060 * 0.0404686 / 10) == 36.66.
Proof. reflexivity. Qed.

Example fmt_0f_texts :
  map fmt_0f [155.21; 0.5; -0.4; -3.5] = [u"155"; u"0"; u"-0"; u"-4"].
Proof. reflexivity. Qed.

Example or_default_zero_is_absent :
  or_default (Some 0) (I 60) = I 60 /\ or_default None (I 60) = I 60
  /\ or_default (Some 35) (I 60) = F 35.
Proof. repeat split. Qed.

Example min_max_keep_first :
  pymin 0.92 0.88 = 0.88 /\ pymin 0.92 0.95 = 0.92 /\ pymax 2500 3409.35 = 3409.35.
Proof. repeat split. Qed.

End PyNumFacts.

Module LangFacts.
Import PyStr Lang PyStrFacts LangSpec PyStrSpec.

Example detect_en : detect_language (u"Hello, how are you?") = u"en".
Proof. vm_compute. reflexivity. Qed.

Example detect_hi :
  detect_language (u"मेरी फसल में पीले पत्ते हैं") = u"hi".
Proof. vm_compute. reflexivity. Qed.

Example detect_te : detect_language (u"నా పంట ఆకులు పసుపు") = u"te".
Proof. vm_compute. reflexivity. Qed.

Example detect_roman_hi : detect_language (u"Meri FASAL ko pani do") = u"hi".
Proof. vm_compute. reflexivity. Qed.

(** ** The 15 percent threshold *)

Lemma ratio_gt_015_iff (k n : nat) :
  (0 < n)%nat -> (ratio_gt_015 k n = true <-> (15 * n < 100 * k)%nat).
Proof.
  intros Hn. unfold ratio_gt_015.
  rewrite negb_true_iff, <- not_true_iff_false, Qle_bool_iff.
  destruct n as [|n]; [lia|].
  unfold Qle, Qdiv, Qmult, Qinv, inject_Z.
  cbn [Qnum Qden Z.of_nat]. cbn [Qnum Qden Pos.mul].
  rewrite Zpos_P_of_succ_nat. lia.
Qed.

Lemma count_chars_le p text : (count_chars p text <= List.length text)%nat.
Proof. apply filter_length_le. Qed.

(** ** Counting the characters of a block *)

Lemma is_telugu_iff (c : N) : is_telugu c = true <-> telugu c.
Proof.
  unfold is_telugu, telugu. now rewrite andb_true_iff, !N.leb_le.
Qed.

Lemma is_hindi_iff (c : N) : is_hindi c = true <-> devanagari c.
Proof.
  unfold is_hindi, devanagari. now rewrite andb_true_iff, !N.leb_le.
Qed.

Section Counting.
Variable P : N -> Prop.
Variable p : N -> bool.
Hypothesis p_decides : forall c, p c = true <-> P c.

Lemma counted_count_chars (text : str) : counted P text (count_chars p text).
Proof.
  unfold count_chars. induction text as [|c text IH]; cbn [filter List.length].
  - constructor.
  - destruct (p c) eqn:E.
    + cbn [List.length]. apply counted_in; [now apply p_decides | exact IH].
    + apply counted_out; [|exact IH].
      intros H. apply p_decides in H. congruence.
Qed.

Lemma counted_unique (text : str) (k : nat) :
  counted P text k -> k = count_chars p text.
Proof.
  unfold count_chars. induction 1 as [|c s k H _ IH|c s k H _ IH];
    cbn [filter List.length].
  - reflexivity.
  - apply p_decides in H. rewrite H. cbn [List.length]. now rewrite IH.
  - destruct (p c) eqn:E; [|exact IH].
    apply p_decides in E. contradiction.
Qed.

Lemma more_than_15_percent_iff (text : str) :
  more_than_15_percent P text
  <-> (15 * List.length text < 100 * count_chars p text)%nat.
Proof.
  unfold more_than_15_percent. split.
  - intros (k & C & L). now rewrite <- (@counted_unique text k C).
  - intros L. exists (count_chars p text).
    split; [apply counted_count_chars | exact L].
Qed.

End Counting.

Lemma romanized_hindi_iff text :
  existsb (fun word => contains word (lower text)) hindi_words = true
  <-> romanized_hindi text.
Proof.
  assert (W : hindi_words = romanized_words)
    by (unfold hindi_words, romanized_words; reflexivity).
  unfold romanized_hindi. rewrite existsb_exists, W.
  split; intros (w & Hw & H); exists w; (split; [exact Hw|]);
    now apply contains_iff.
Qed.

Lemma codes_distinct :
  u"en" <> u"hi" /\ u"en" <> u"te" /\ u"hi" <> u"te".
Proof. repeat split; vm_compute; discriminate. Qed.

(** ** The claim *)

(** C4.  [detect_language] returns ["en"], ["hi"] or ["te"].  It returns
    ["en"] on the empty string; ["te"] exactly when more than 15 percent of
    the characters are in the Telugu block; ["hi"] exactly when that is not
    the case and either more than 15 percent are in the Devanagari block or a
    listed Romanized Hindi word occurs in the lowercased text; ["en"] exactly
    when none of these holds.  The blocks and the count are stated on their
    own, not through the tests and the sum of the code. *)
Theorem detect_language_spec (text : str) :
  (detect_language text = u"en" \/ detect_language text = u"hi"
   \/ detect_language text = u"te")
  /\ detect_language [] = u"en"
  /\ (detect_language text = u"te" <-> more_than_15_percent telugu text)
  /\ (detect_language text = u"hi" <->
        ~ more_than_15_percent telugu text
        /\ (more_than_15_percent devanagari text \/ romanized_hindi text))
  /\ (detect_language text = u"en" <->
        ~ more_than_15_percent telugu text
        /\ ~ more_than_15_percent devanagari text
        /\ ~ romanized_hindi text).
Proof.
  destruct codes_distinct as (EH & ET & HT).
  assert (Te : more_than_15_percent telugu text
               <-> (List.length text =? 0)%nat = false
                   /\ ratio_gt_015 (count_chars is_telugu text)
                                   (List.length text) = true).
  { rewrite (@more_than_15_percent_iff _ _ is_telugu_iff).
    pose proof (count_chars_le is_telugu text).
    destruct (List.length text =? 0)%nat eqn:E.
    - apply Nat.eqb_eq in E. split; [lia | intros [? _]; discriminate].
    - apply Nat.eqb_neq in E. rewrite ratio_gt_015_iff by lia. tauto. }
  assert (Hi : more_than_15_percent devanagari text
               <-> (List.length text =? 0)%nat = false
                   /\ ratio_gt_015 (count_chars is_hindi text)
                                   (List.length text) = true).
  { rewrite (@more_than_15_percent_iff _ _ is_hindi_iff).
    pose proof (count_chars_le is_hindi text).
    destruct (List.length text =? 0)%nat eqn:E.
    - apply Nat.eqb_eq in E. split; [lia | intros [? _]; discriminate].
    - apply Nat.eqb_neq in E. rewrite ratio_gt_015_iff by lia. tauto. }
  assert (Ro : romanized_hindi text
               <-> (List.length text =? 0)%nat = false
                   /\ existsb (fun word => contains word (lower text))
                              hindi_words = true).
  { rewrite <- romanized_hindi_iff.
    destruct text as [|c text]; [|cbn [List.length Nat.eqb]; tauto].
    split; [vm_compute; discriminate | intros [? _]; discriminate]. }
  split; [|split; [reflexivity|]].
  - unfold detect_language.
    destruct (_ =? _)%nat; [now left|].
    destruct (ratio_gt_015 _ _); [now right; right|].
    destruct (ratio_gt_015 _ _); [now right; left|].
    destruct (existsb _ _); [now right; left | now left].
  - rewrite Te, Hi, Ro. unfold detect_language.
    destruct (List.length text =? 0)%nat;
      [|destruct (ratio_gt_015 (count_chars is_telugu text) _);
        [|destruct (ratio_gt_015 (count_chars is_hindi text) _);
          [|destruct (existsb _ hindi_words)]]];
      intuition congruence.
Qed.

Example telugu_needs_more_than_15_percent :
  more_than_15_percent telugu (u"నా పంట ఆకులు పసుపు")
  /\ ~ more_than_15_percent telugu (u"rice crop in వ field")
  /\ detect_language (u"rice crop in వ field") = u"en".
Proof.
  split; [|split].
  - apply (@more_than_15_percent_iff _ _ is_telugu_iff).
    apply Nat.ltb_lt. vm_compute. reflexivity.
  - intros H. apply (@more_than_15_percent_iff _ _ is_telugu_iff) in H.
    apply Nat.ltb_lt in H. vm_compute in H. discriminate.
  - vm_compute. reflexivity.
Qed.

End LangFacts.

(* ================================================================== *)
(** * LlmChat.send_message *)
(* ================================================================== *)

Module ChatFacts.
Import PyStr Py Json Chat PyStrFacts ChatSpec PyStrSpec.

(** ** The four ways a call can go *)

Ltac run :=
  cbv [send_message bind history_append modify get ret try_except post emit lift];
  cbn [self trace].

Lemma send_message_no_key net m s :
  no_key (push (self s) (user_entry m)) = true ->
  send_message net m s =
    (Ok (JStr mock_response),
     {| self := push (push (self s) (user_entry m))
                     (assistant_entry (JStr mock_response));
        trace := trace s |}).
Proof.
  destruct s as [c tr]; cbn [self trace]; intros H.
  run. fold (user_entry m). rewrite H. reflexivity.
Qed.

Lemma send_message_raises net m s e :
  no_key (push (self s) (user_entry m)) = false ->
  net (build_request (push (self s) (user_entry m))) = Raise e ->
  send_message net m s =
    (Ok (JStr (trouble_reply e)),
     {| self := push (self s) (user_entry m);
        trace := (trace s ++ [Post (build_request (push (self s) (user_entry m)))])
                   ++ [LogError (u"Error sending message: " ++ exn_text e)] |}).
Proof.
  destruct s as [c tr]; cbn [self trace]; intros H Hn.
  run. fold (user_entry m). rewrite H, Hn. reflexivity.
Qed.

Lemma send_message_status net m s r :
  no_key (push (self s) (user_entry m)) = false ->
  net (build_request (push (self s) (user_entry m))) = Ok r ->
  status_code r <> 200%Z ->
  send_message net m s =
    (Ok (JStr (service_error_reply (api_error_msg r))),
     {| self := push (self s) (user_entry m);
        trace := (trace s ++ [Post (build_request (push (self s) (user_entry m)))])
                   ++ [LogError (api_error_msg r)] |}).
Proof.
  destruct s as [c tr]; cbn [self trace]; intros H Hn Hs.
  run. fold (user_entry m). rewrite H, Hn.
  apply Z.eqb_neq in Hs. rewrite Hs. reflexivity.
Qed.

Lemma send_message_200 net m s r :
  no_key (push (self s) (user_entry m)) = false ->
  net (build_request (push (self s) (user_entry m))) = Ok r ->
  status_code r = 200%Z ->
  send_message net m s =
    match (let? data := resp_json r in extract_content data) with
    | Ok c =>
        (Ok c,
         {| self := push (push (self s) (user_entry m)) (assistant_entry c);
            trace := trace s ++ [Post (build_request (push (self s) (user_entry m)))] |})
    | Raise e =>
        (Ok (JStr (trouble_reply e)),
         {| self := push (self s) (user_entry m);
            trace := (trace s ++ [Post (build_request (push (self s) (user_entry m)))])
                       ++ [LogError (u"Error sending message: " ++ exn_text e)] |})
    end.
Proof.
  destruct s as [c tr]; cbn [self trace]; intros H Hn Hs.
  run. fold (user_entry m). rewrite H, Hn.
  apply Z.eqb_eq in Hs. rewrite Hs. cbn [negb].
  unfold bind_res.
  destruct (resp_json r) as [data|e]; [|reflexivity].
  destruct (extract_content data) as [k|e]; reflexivity.
Qed.

Lemma no_key_push c e : no_key (push c e) = no_key c.
Proof. reflexivity. Qed.

Lemma posts_app a b : posts (a ++ b) = posts a ++ posts b.
Proof. unfold posts. apply flat_map_app. Qed.

Lemma no_key_iff c :
  no_key c = true <-> api_key c = [] \/ api_key c = u"your_key_here".
Proof.
  unfold no_key. rewrite orb_true_iff, !eqb_eq. reflexivity.
Qed.

(** A failed exchange leaves the chat with the user entry only. *)
Lemma send_message_on_failure net m s :
  no_key (self s) = false ->
  post_fails (net (build_request (push (self s) (user_entry m)))) ->
  self (snd (send_message net m s)) = push (self s) (user_entry m).
Proof.
  intros K F.
  destruct (net (build_request (push (self s) (user_entry m)))) as [r|e] eqn:N.
  - now rewrite (send_message_status net m s K N F).
  - now rewrite (send_message_raises net m s K N).
Qed.

(** ** Sample exchanges *)

Example live_answer :
  send_message net_answer {| text := u"When to sow rice?" |} live_chat =
    (Ok (JStr (u"Sow in June.")),
     {| self := push (push (self live_chat)
                           (user_entry {| text := u"When to sow rice?" |}))
                     (assistant_entry (JStr (u"Sow in June.")));
        trace := [Post (build_request
                          (push (self live_chat)
                                (user_entry {| text := u"When to sow rice?" |})))] |}).
Proof. vm_compute. reflexivity. Qed.

(** ** The claims *)

(** C5.  Every call of [send_message] returns (it never raises), extends the
    history by the user message exactly once, followed by at most one
    assistant entry, and sends at most one POST.  When the key is usable and
    the POST raises or answers with a status other than 200, exactly that one
    POST is sent (no retry) and the value returned is one of the two error
    texts. *)
Theorem send_message_single_append_single_post
    (net : network) (m : UserMessage) (s : state) :
  let out := send_message net m s in
  let req := build_request (push (self s) (user_entry m)) in
  returns (fst out)
  /\ (exists tail,
        history (self (snd out)) = history (self s) ++ user_entry m :: tail
        /\ (tail = [] \/ exists c, tail = [assistant_entry c]))
  /\ (exists new,
        trace (snd out) = trace s ++ new /\ (List.length (posts new) <= 1)%nat)
  /\ (no_key (self s) = false -> post_fails (net req) ->
      (exists new, trace (snd out) = trace s ++ new /\ posts new = [req])
      /\ (exists v, fst out = Ok v /\ error_reply v)
      /\ history (self (snd out)) = history (self s) ++ [user_entry m]).
Proof.
  cbv zeta.
  destruct (no_key (self s)) eqn:K.
  - rewrite (send_message_no_key net m s) by exact K.
    cbn [fst snd self trace push history].
    split; [now eexists|].
    split; [eexists; split; [now rewrite <- app_assoc|right; now eexists]|].
    split; [exists []; rewrite app_nil_r; split; [reflexivity|simpl; lia]|].
    discriminate.
  - assert (K' : no_key (push (self s) (user_entry m)) = false) by exact K.
    destruct (net (build_request (push (self s) (user_entry m)))) as [r|e] eqn:N.
    + destruct (Z.eq_dec (status_code r) 200) as [S200|S200].
      * rewrite (send_message_200 net m s K' N S200).
        destruct (let? data := resp_json r in extract_content data) as [c|e];
          cbn [fst snd self trace push history].
        -- split; [now eexists|].
           split; [eexists; split; [now rewrite <- app_assoc|right; now eexists]|].
           split; [eexists; split; [reflexivity|simpl; lia]|].
           intros _ F. contradiction.
        -- split; [now eexists|].
           split; [exists []; split; [reflexivity|now left]|].
           split; [eexists; split; [now rewrite <- app_assoc|simpl; lia]|].
           intros _ F. contradiction.
      * rewrite (send_message_status net m s K' N S200).
        cbn [fst snd self trace push history].
        split; [now eexists|].
        split; [exists []; split; [reflexivity|now left]|].
        split; [eexists; split; [now rewrite <- app_assoc|simpl; lia]|].
        intros _ _.
        split; [eexists; split; [now rewrite <- app_assoc|reflexivity]|].
        split; [|reflexivity].
        eexists. split; [reflexivity|]. eexists. split; [reflexivity|].
        left. apply startswith_app with
          (p := u"I encountered an error connecting to the AI service.")
          (s := u" Details: " ++ api_error_msg r).
    + rewrite (send_message_raises net m s K' N).
      cbn [fst snd self trace push history].
      split; [now eexists|].
      split; [exists []; split; [reflexivity|now left]|].
      split; [eexists; split; [now rewrite <- app_assoc|simpl; lia]|].
      intros _ _.
      split; [eexists; split; [now rewrite <- app_assoc|reflexivity]|].
      split; [|reflexivity].
      eexists. split; [reflexivity|]. eexists. split; [reflexivity|].
      right. apply startswith_app with
        (p := u"Sorry, I am having trouble connecting to the server.")
        (s := u" Error: " ++ exn_text e).
Qed.

Lemma send_message_single_append_single_post_witness :
  (exists new,
      trace (snd (send_message net_503 {| text := u"hello" |} live_chat))
        = trace live_chat ++ new
      /\ posts new = [build_request (push (self live_chat)
                                          (user_entry {| text := u"hello" |}))])
  /\ (exists v, fst (send_message net_503 {| text := u"hello" |} live_chat) = Ok v
                /\ error_reply v)
  /\ history (self (snd (send_message net_503 {| text := u"hello" |} live_chat)))
     = history (self live_chat) ++ [user_entry {| text := u"hello" |}].
Proof.
  apply (send_message_single_append_single_post
           net_503 {| text := u"hello" |} live_chat).
  - reflexivity.
  - simpl. discriminate.
Defined.

(** C6.  With an empty key or the placeholder key, [send_message] emits
    nothing (no HTTP request, whatever the network would answer), returns the
    fixed mock answer, and appends the user message and then the mock answer
    to the history. *)
Theorem send_message_without_key
    (net : network) (m : UserMessage) (s : state) :
  api_key (self s) = [] \/ api_key (self s) = u"your_key_here" ->
  let out := send_message net m s in
  fst out = Ok (JStr mock_response)
  /\ trace (snd out) = trace s
  /\ history (self (snd out)) =
       history (self s) ++ [user_entry m; assistant_entry (JStr mock_response)]
  /\ forall net', send_message net' m s = out.
Proof.
  intros K. apply no_key_iff in K. cbv zeta.
  rewrite (send_message_no_key net m s) by exact K.
  cbn [fst snd self trace push history].
  repeat split.
  - now rewrite <- app_assoc.
  - intros net'. now rewrite (send_message_no_key net' m s) by exact K.
Qed.

Lemma send_message_without_key_witness :
  fst (send_message net_answer {| text := u"hello" |} keyless_chat)
    = Ok (JStr mock_response)
  /\ trace (snd (send_message net_answer {| text := u"hello" |} keyless_chat)) = []
  /\ history (self (snd (send_message net_answer {| text := u"hello" |} keyless_chat)))
     = history (self keyless_chat)
         ++ [user_entry {| text := u"hello" |};
             assistant_entry (JStr mock_response)]
  /\ forall net', send_message net' {| text := u"hello" |} keyless_chat
                  = send_message net_answer {| text := u"hello" |} keyless_chat.
Proof.
  apply (send_message_without_key net_answer {| text := u"hello" |} keyless_chat).
  left. reflexivity.
Defined.

(** C10.  A failed exchange is not rolled back: when the key is usable and
    the POST raises or answers with a status other than 200, the history
    keeps the user message and gains no assistant entry; the request of the
    next call then carries the two user messages one after the other at the
    end of its conversation. *)
Theorem send_message_failure_leaves_user_entry
    (net1 net2 : network) (m1 m2 : UserMessage) (s : state) :
  no_key (self s) = false ->
  post_fails (net1 (build_request (push (self s) (user_entry m1)))) ->
  let s1 := snd (send_message net1 m1 s) in
  let s2 := snd (send_message net2 m2 s1) in
  history (self s1) = history (self s) ++ [user_entry m1]
  /\ exists req new,
       trace s2 = trace s1 ++ new /\ posts new = [req]
       /\ p_messages (body req) =
            history (self s) ++ [user_entry m1; user_entry m2].
Proof.
  intros K F. cbv zeta.
  pose proof (send_message_on_failure net1 m1 s K F) as Hs.
  set (s1 := snd (send_message net1 m1 s)) in *.
  assert (Hh : history (self s1) = history (self s) ++ [user_entry m1])
    by now rewrite Hs.
  split; [exact Hh|].
  assert (K1 : no_key (self s1) = false) by now rewrite Hs.
  exists (build_request (push (self s1) (user_entry m2))).
  assert (P : p_messages (body (build_request (push (self s1) (user_entry m2))))
              = history (self s) ++ [user_entry m1; user_entry m2]).
  { unfold build_request.
    destruct (startswith _ _); cbn [body p_messages];
      [destruct (eqb _ _); cbn [p_messages]|];
      cbn [push history]; rewrite Hh, <- app_assoc; reflexivity. }
  assert (K2 : no_key (push (self s1) (user_entry m2)) = false) by exact K1.
  destruct (net2 (build_request (push (self s1) (user_entry m2)))) as [r|e] eqn:N.
  - destruct (Z.eq_dec (status_code r) 200) as [S200|S200].
    + rewrite (send_message_200 net2 m2 s1 K2 N S200).
      destruct (let? data := resp_json r in extract_content data) as [c|e];
        cbn [snd trace]; eexists; (split; [|split; [|exact P]]);
        [reflexivity|reflexivity|now rewrite <- app_assoc|reflexivity].
    + rewrite (send_message_status net2 m2 s1 K2 N S200). cbn [snd trace].
      eexists; (split; [|split; [|exact P]]);
        [now rewrite <- app_assoc|reflexivity].
  - rewrite (send_message_raises net2 m2 s1 K2 N). cbn [snd trace].
    eexists; (split; [|split; [|exact P]]);
      [now rewrite <- app_assoc|reflexivity].
Qed.

Lemma send_message_failure_leaves_user_entry_witness :
  history (self (snd (send_message net_503 {| text := u"first" |} live_chat)))
    = history (self live_chat) ++ [user_entry {| text := u"first" |}]
  /\ exists req new,
       trace (snd (send_message net_answer {| text := u"second" |}
                     (snd (send_message net_503 {| text := u"first" |} live_chat))))
         = trace (snd (send_message net_503 {| text := u"first" |} live_chat)) ++ new
       /\ posts new = [req]
       /\ p_messages (body req) =
            history (self live_chat)
              ++ [user_entry {| text := u"first" |};
                  user_entry {| text := u"second" |}].
Proof.
  apply (send_message_failure_leaves_user_entry
           net_503 net_answer {| text := u"first" |} {| text := u"second" |}
           live_chat).
  - reflexivity.
  - simpl. discriminate.
Defined.

End ChatFacts.

(* ================================================================== *)
(** * The weather proxy *)
(* ================================================================== *)

Module WeatherFacts.
Import PyStr Py PyNum Json Weather PyStrFacts WeatherSpec PyStrSpec.

(** ** Geocoding *)

Lemma first_match_none {A} (d : list (str * A)) (s : str) :
  keys_trimmed d = true -> none_named d s -> first_match d (strip s) = None.
Proof.
  unfold keys_trimmed, none_named.
  induction d as [|[k v] d IH]; simpl; intros T H; [reflexivity|].
  apply andb_true_iff in T as [Tk T]. inversion H as [|? ? Hk Hd]; subst.
  rewrite contains_strip by exact Tk.
  destruct (contains k s) eqn:C; [|now apply IH].
  apply contains_iff in C. now elim Hk.
Qed.

Lemma first_match_first {A} (d : list (str * A)) (s : str) (v : A) :
  keys_trimmed d = true -> first_named d s v -> first_match d (strip s) = Some v.
Proof.
  unfold keys_trimmed. intros T (pre & k & post & -> & Hk & Hpre).
  induction pre as [|[k' v'] pre IH]; simpl in *.
  - apply andb_true_iff in T as [Tk _].
    rewrite contains_strip by exact Tk.
    apply contains_iff in Hk. now rewrite Hk.
  - apply andb_true_iff in T as [Tk T]. inversion Hpre as [|? ? Hk' Hp]; subst.
    rewrite contains_strip by exact Tk.
    destruct (contains k' s) eqn:C; [|now apply IH].
    apply contains_iff in C. now elim Hk'.
Qed.

Lemma tables_trimmed :
  keys_trimmed DISTRICT_COORDS = true /\ keys_trimmed INDIA_LOCATIONS = true.
Proof. split; vm_compute; reflexivity. Qed.

(** ** Running the proxy *)

Lemma fetch_run net location coords tr :
  fetch net location coords tr =
    (fetch_outcome net location coords, tr ++ [Get (forecast_request coords)]).
Proof.
  unfold fetch, fetch_outcome, bind, emit, modify, lift, bind_res.
  destruct (net (forecast_request coords)) as [r|e]; [|reflexivity].
  destruct (raise_for_status r) as [[]|e]; [|reflexivity].
  destruct (resp_json r) as [data|e]; reflexivity.
Qed.

Lemma advisory_unknown_place net location language tr :
  get_coordinates location = None ->
  get_weather_advisory net location language tr = (Ok unavailable, tr).
Proof.
  intros H. unfold get_weather_advisory, get_weather, bind, ret.
  now rewrite H.
Qed.

Lemma advisory_fetch_raises net location language tr coords e :
  get_coordinates location = Some coords ->
  fetch_outcome net location coords = Raise e ->
  get_weather_advisory net location language tr =
    (Ok unavailable,
     (tr ++ [Get (forecast_request coords)])
       ++ [LogError (u"Weather API error: " ++ exn_text e)]).
Proof.
  intros H F.
  unfold get_weather_advisory, get_weather. rewrite H.
  unfold bind at 1. unfold try_except. unfold bind at 1.
  rewrite fetch_run, F. reflexivity.
Qed.

Lemma advisory_fetch_ok net location language tr coords w :
  get_coordinates location = Some coords ->
  fetch_outcome net location coords = Ok w ->
  exists advisories,
    get_weather_advisory net location language tr =
      (Ok (Report false (w_location w) (w_current w) (w_forecast w) advisories
             (u"Open-Meteo Weather API")),
       tr ++ [Get (forecast_request coords)]).
Proof.
  intros H F.
  unfold get_weather_advisory, get_weather. rewrite H.
  unfold bind at 1. unfold try_except. unfold bind at 1.
  rewrite fetch_run, F. eexists. reflexivity.
Qed.

(** ** Deciding the geocoding predicates on a given location *)

Lemma none_named_check {A} (d : list (str * A)) (s : str) :
  forallb (fun kv => negb (contains (fst kv) s)) d = true -> none_named d s.
Proof.
  unfold none_named. rewrite forallb_forall, Forall_forall.
  intros H kv Hin Ho. apply contains_iff in Ho.
  specialize (H kv Hin). rewrite Ho in H. discriminate.
Qed.

Lemma first_named_check {A} (d : list (str * A)) (s : str)
      (pre : list (str * A)) (k : str) (v : A) (post : list (str * A)) :
  d = pre ++ (k, v) :: post ->
  contains k s = true ->
  forallb (fun kv => negb (contains (fst kv) s)) pre = true ->
  first_named d s v.
Proof.
  intros Hd Hk Hpre. exists pre, k, post.
  split; [exact Hd|]. split; [now apply contains_iff|].
  now apply none_named_check.
Qed.

(** ** Sample runs *)

Example guntur_report :
  match get_weather_advisory net_ok (u"Guntur, AP") (u"en") [] with
  | (Ok (Report e loc cur days advs src), tr) =>
      e = false
      /\ loc = u"Guntur, AP"
      /\ condition cur = u"Thunderstorm"
      /\ map day_condition days = [u"Heavy rain"; u"Mainly clear"]
      /\ map f_type advs =
           [u"heat_stress"; u"rain_expected"; u"disease_risk"; u"spray_favorable"]
      /\ map f_message (firstn 1 (skipn 1 advs)) =
           [u"Good rainfall expected (60mm). Favorable for sowing. Complete land preparation."]
      /\ tr = [Get (forecast_request {| lat := 16.3067; lon := 80.4365 |})]
  | _ => False
  end.
Proof. vm_compute. repeat split. Qed.

Example atlantis_unavailable :
  get_weather_advisory net_ok (u"Atlantis") (u"en") [] = (Ok unavailable, []).
Proof. vm_compute. reflexivity. Qed.

Example missing_temperature_unavailable :
  fst (get_weather_advisory net_no_temperature (u"Pune") (u"hi") [])
    = Ok unavailable.
Proof. vm_compute. reflexivity. Qed.

(** ** The claim *)

Lemma request_fails_raises net location coords :
  request_fails net coords ->
  exists e, fetch_outcome net location coords = Raise e.
Proof.
  unfold fetch_outcome, bind_res.
  intros [[e ->] | (r & -> & [[e E] | [e E]])].
  - now exists e.
  - rewrite E. now exists e.
  - destruct (raise_for_status r) as [[]|e']; [|now exists e'].
    rewrite E. now exists e.
Qed.

Lemma report_means_answered net location coords w :
  fetch_outcome net location coords = Ok w ->
  exists data, request_answered net coords data.
Proof.
  unfold fetch_outcome, request_answered, bind_res.
  destruct (net (forecast_request coords)) as [r|e] eqn:N; [|discriminate].
  destruct (raise_for_status r) as [[]|e] eqn:S; [|discriminate].
  destruct (resp_json r) as [data|e] eqn:J; [|discriminate].
  intros _. exists data, r.
  split; [reflexivity|]. split; [exact S | exact J].
Qed.

(** C7.  [get_coordinates] returns the coordinates of the first district of
    [DISTRICT_COORDS] whose name occurs in the lowercased location; when no
    district name occurs, those of the first state of [INDIA_LOCATIONS] whose
    name occurs; and [None] when no name occurs at all.
    [get_weather_advisory] always returns.  Its ["error"] is [True] when no
    coordinates are found and when the weather fetch fails (the GET raises,
    the status is rejected or the body does not decode), and when it is
    [False] the location was resolved and the GET was answered and decoded.
    It is not [True] only then: for the location ["Pune"] and an answer with
    an accepted status whose current humidity is [null], nothing of the fetch
    fails, and yet ["error"] is [True], because [humidity > 85] raises inside
    the [try] block of [get_weather]; the default of
    [current.get("humidity_percent", 60)] never applies, since the key is
    always there. *)
Theorem weather_proxy_geocodes_and_flags_errors
    (net : network) (location language : str) (tr : list event) :
  (forall c, first_named DISTRICT_COORDS (lower location) c ->
             get_coordinates location = Some c)
  /\ (none_named DISTRICT_COORDS (lower location) ->
      forall d, first_named INDIA_LOCATIONS (lower location) d ->
                get_coordinates location
                  = Some {| lat := loc_lat d; lon := loc_lon d |})
  /\ (none_named DISTRICT_COORDS (lower location) ->
      none_named INDIA_LOCATIONS (lower location) ->
      get_coordinates location = None)
  /\ (exists reply tr',
        get_weather_advisory net location language tr = (Ok reply, tr')
        /\ (get_coordinates location = None -> error reply = true)
        /\ (forall coords,
              get_coordinates location = Some coords ->
              request_fails net coords -> error reply = true)
        /\ (error reply = false ->
            exists coords data,
              get_coordinates location = Some coords
              /\ request_answered net coords data))
  /\ (exists coords tr',
        get_coordinates (u"Pune") = Some coords
        /\ request_answered net_null_humidity coords null_humidity_data
        /\ ~ request_fails net_null_humidity coords
        /\ get_weather_advisory net_null_humidity (u"Pune") language tr
           = (Ok unavailable, tr')
        /\ error unavailable = true).
Proof.
  destruct tables_trimmed as [TD TS].
  split; [|split; [|split; [|split]]].
  - intros c H. unfold get_coordinates.
    now rewrite (first_match_first TD H).
  - intros HD d H. unfold get_coordinates.
    rewrite (first_match_none TD HD).
    now rewrite (first_match_first TS H).
  - intros HD HS. unfold get_coordinates.
    now rewrite (first_match_none TD HD), (first_match_none TS HS).
  - destruct (get_coordinates location) as [coords|] eqn:G.
    + destruct (fetch_outcome net location coords) as [w|e] eqn:F.
      * destruct (@advisory_fetch_ok net location language tr coords w G F)
          as [advs ->].
        eexists _, _. split; [reflexivity|]. cbn [error].
        split; [discriminate|]. split.
        -- intros c [= <-] R.
           destruct (@request_fails_raises net location coords R) as [e E].
           rewrite F in E. discriminate.
        -- intros _. destruct (@report_means_answered net location coords w F)
             as [data A].
           now exists coords, data.
      * rewrite (@advisory_fetch_raises net location language tr coords e G F).
        eexists _, _. split; [reflexivity|]. cbn [error unavailable].
        split; [reflexivity|]. split; [reflexivity | discriminate].
    + rewrite (@advisory_unknown_place net location language tr G).
      eexists _, _. split; [reflexivity|]. cbn [error unavailable].
      split; [reflexivity|]. split; [discriminate | discriminate].
  - assert (G : get_coordinates (u"Pune") = Some {| lat := 18.5204; lon := 73.8567 |})
      by (vm_compute; reflexivity).
    assert (F : exists e, fetch_outcome net_null_humidity (u"Pune")
                            {| lat := 18.5204; lon := 73.8567 |} = Raise e)
      by (eexists; vm_compute; reflexivity).
    destruct F as [e F].
    eexists _, _. split; [exact G|]. split; [|split; [|split]].
    + eexists. repeat split.
    + intros [[x H] | (r & H & [[x H'] | [x H']])];
        try discriminate; injection H as <-; discriminate.
    + exact (@advisory_fetch_raises net_null_humidity (u"Pune") language tr
               _ e G F).
    + reflexivity.
Qed.

Example null_humidity_reported_as_failure :
  get_weather_advisory net_null_humidity (u"Pune") (u"en") []
  = (Ok unavailable,
     [ Get (forecast_request {| lat := 18.5204; lon := 73.8567 |});
       LogError (u"Weather API error: '>' not supported between instances of 'NoneType' and 'int'") ]).
Proof. vm_compute. reflexivity. Qed.

Lemma weather_proxy_geocodes_and_flags_errors_witness :
  get_coordinates (u"Warangal near Guntur") = Some {| lat := 16.3067; lon := 80.4365 |}
  /\ get_coordinates (u"  Coastal KERALA ") = Some {| lat := 8.5241; lon := 76.9366 |}
  /\ get_coordinates (u"Atlantis") = None.
Proof.
  split; [|split].
  - apply (weather_proxy_geocodes_and_flags_errors net_ok
             (u"Warangal near Guntur") (u"en") []).
    apply first_named_check with (pre := []) (k := u"guntur")
                                 (post := tl DISTRICT_COORDS);
      reflexivity.
  - destruct (weather_proxy_geocodes_and_flags_errors net_ok
                (u"  Coastal KERALA ") (u"en") []) as (_ & H & _).
    assert (N : none_named DISTRICT_COORDS (lower (u"  Coastal KERALA ")))
      by (apply none_named_check; vm_compute; reflexivity).
    apply (H N {| loc_lat := 8.5241; loc_lon := 76.9366;
                  loc_city := u"Thiruvananthapuram" |}).
    apply first_named_check with (pre := firstn 14 INDIA_LOCATIONS)
                                 (k := u"kerala")
                                 (post := skipn 15 INDIA_LOCATIONS);
      vm_compute; reflexivity.
  - destruct (weather_proxy_geocodes_and_flags_errors net_ok
                (u"Atlantis") (u"en") []) as (_ & _ & H & _).
    apply H; apply none_named_check; vm_compute; reflexivity.
Defined.

End WeatherFacts.

(* ================================================================== *)
(** * Yield prediction *)
(* ================================================================== *)

Module ServerFacts.
Import PyStr Py PyNum Json Knowledge Server PyStrFacts ServerSpec PyStrSpec.
Open Scope Q_scope.

(** ** The [try] block as a function *)

Lemma model_estimate_run art fi (l : locals) (w : world) :
  model_estimate art fi (effective_rainfall fi) (effective_irrigation fi)
                 (effective_fertilizer fi) (effective_temperature fi) (l, w) =
    match model_output art fi with
    | Raise e => (Raise e, (l, w))
    | Ok y =>
        match getitem (model_stats art) (u"test_score") with
        | Ok ts =>
            (Ok tt, ({| predicted_yield := y; confidence := pymin 0.92 ts |}, w))
        | Raise e =>
            (Raise e, ({| predicted_yield := y; confidence := confidence l |}, w))
        end
    end.
Proof.
  unfold model_estimate, model_output, encoded_row.
  cbv [bind lift ret set_predicted_yield set_confidence modify bind_res].
  repeat match goal with
         | |- context [match getitem ?d ?k with _ => _ end] =>
             destruct (getitem d k); try reflexivity
         | |- context [if ?b then _ else _] => destruct b
         | |- context [match transform ?e ?x with _ => _ end] =>
             destruct (transform e x); try reflexivity
         | |- context [match yield_model ?a ?x with _ => _ end] =>
             destruct (yield_model a x); try reflexivity
         end.
  all: reflexivity.
Qed.

(** ** The whole function as a function *)

Lemma predict_run `{Runtime} ml fi w :
  predict_yield_ml ml fi w =
    (conclude ml fi (fst (estimate ml fi)), logged w (snd (estimate ml fi))).
Proof.
  pose proof (model_estimate_run) as E.
  unfold predict_yield_ml, conclude, estimate, initial_locals, after_error.
  unfold effective_rainfall, effective_irrigation, effective_fertilizer,
    effective_temperature, default_rainfall_of, default_yield_of,
    state_name_of, crop_info_of in *.
  cbv zeta.
  destruct ml as [art|].
  - unfold bind at 1. unfold try_except.
    rewrite E. clear E.
    destruct (model_output art fi) as [y|e].
    + destruct (getitem (model_stats art) (u"test_score")) as [ts|e].
      * cbv [bind get lift ret fst snd predicted_yield confidence logged].
        destruct (averages _ _ _); reflexivity.
      * unfold on_model_error.
        cbv [bind in_world logger_warning modify set_predicted_yield ret
               get lift fst snd].
        destruct (get_crop_info (crop_type fi));
          cbv [fst snd predicted_yield confidence logged];
          destruct (averages _ _ _); reflexivity.
    + unfold on_model_error.
      cbv [bind in_world logger_warning modify set_predicted_yield ret
             get lift fst snd].
      destruct (get_crop_info (crop_type fi));
        cbv [fst snd predicted_yield confidence logged];
        destruct (averages _ _ _); reflexivity.
  - cbv [bind get lift ret fst snd predicted_yield confidence logged].
    destruct (averages _ _ _); reflexivity.
Qed.

(** ** Sample artifacts and runs *)

Example rice_in_punjab_prediction :
  match @predict_yield_ml sample_runtime (Some sample_artifacts)
          rice_in_punjab empty_world with
  | (Ok p, w) =>
      predicted_yield_kg_ha p == 9060
      /\ predicted_yield_quintal_acre p == 36.66
      /\ confidence_score p == 0.88
      /\ risk_level p = u"Low"
      /\ option_map Qred (state_avg_yield p) = Some 4200
      /\ option_map Qred (national_avg_yield p) = Some 3550
      /\ map impact (influential_factors p) =
           [u"Moderate"; u"Positive"; u"Positive"; u"Positive"]
      /\ map detail (influential_factors p) =
           [u"60% coverage - adequate but can improve";
            u"800.0mm - optimal range";
            u"alluvial is ideal for rice";
            u"150 kg/ha applied"]
      /\ recommendations p =
           [u"Recommended fertilizer: N-120 kg/ha, P-60 kg/ha, K-40 kg/ha";
            u"Maintain 5cm water level during vegetative stage";
            u"Apply nitrogen in 3 splits: basal, tillering, panicle initiation";
            u"Get soil tested under Soil Health Card scheme for precise fertilizer recommendations"]
      /\ comparison p =
           u"Your predicted yield is 155% above national average (3550 kg/ha)"
      /\ w = empty_world
  | _ => False
  end.
Proof. vm_compute. repeat split. Qed.

Example rice_fallback_prediction :
  match @predict_yield_ml sample_runtime (Some failing_artifacts)
          rice_on_regolith empty_world with
  | (Ok p, w) =>
      predicted_yield_kg_ha p == 3409.35
      /\ confidence_score p == 0.75
      /\ risk_level p = u"High"
      /\ map levelname (log w) = [u"WARNING"]
      /\ db_sessions w = [] /\ db_messages w = [] /\ chat_sessions w = []
  | _ => False
  end.
Proof. vm_compute. repeat split. Qed.

Example rice_rejected_label_prediction :
  try_outcome shouting_artifacts rice_in_punjab
    = Raise (Exn (u"ValueError")
               (u"y contains previously unseen labels: ['Alluvial']"))
  /\ match @predict_yield_ml sample_runtime (Some shouting_artifacts)
             rice_in_punjab empty_world with
     | (Ok p, w) =>
         predicted_yield_kg_ha p == 4326
         /\ confidence_score p == 0.75
         /\ map message (log w) =
              [u"ML prediction error: y contains previously unseen labels: ['Alluvial']. Using knowledge-based estimate."]
     | _ => False
     end.
Proof. vm_compute. repeat split. Qed.

Example unparsable_state_pattern_raises :
  fst (@predict_yield_ml sample_runtime (Some sample_artifacts)
         {| crop_type := u"rice"; soil_type := u"clay"; season := u"rabi";
            location := u"(near the river"; rainfall_mm := None;
            irrigation_percent := None; fertilizer_kg_ha := None;
            temperature_c := None; area_hectares := None |}
         empty_world)
  = Raise (Exn (u"error") (u"missing ), unterminated subpattern at position 0")).
Proof. vm_compute. reflexivity. Qed.

(** ** Comparisons and rounding *)

Lemma Qlt_bool_iff (a b : Q) : Qlt_bool a b = true <-> a < b.
Proof.
  unfold Qlt_bool. rewrite negb_true_iff, <- not_true_iff_false, Qle_bool_iff.
  split; [apply Qnot_le_lt | apply Qlt_not_le].
Qed.

Lemma Qlt_bool_false_iff (a b : Q) : Qlt_bool a b = false <-> b <= a.
Proof.
  rewrite <- not_true_iff_false, Qlt_bool_iff.
  split; [apply Qnot_lt_le | apply Qle_not_lt].
Qed.

(** [max(lo, min(hi, x))] lies between [lo] and [hi]. *)
Lemma clamp_within (lo hi x : Q) :
  lo <= hi -> lo <= pymax lo (pymin hi x) <= hi.
Proof.
  intros H. unfold pymax, pymin.
  destruct (Qlt_bool x hi) eqn:A;
    [apply Qlt_bool_iff in A | apply Qlt_bool_false_iff in A].
  - destruct (Qlt_bool lo x) eqn:B;
      [apply Qlt_bool_iff in B | apply Qlt_bool_false_iff in B]; lra.
  - destruct (Qlt_bool lo hi) eqn:B;
      [apply Qlt_bool_iff in B | apply Qlt_bool_false_iff in B]; lra.
Qed.

Lemma round_half_even_bounds (q : Q) :
  (Qfloor q <= round_half_even q <= Qfloor q + 1)%Z
  /\ (round_half_even q = (Qfloor q + 1)%Z -> inject_Z (Qfloor q) < q).
Proof.
  unfold round_half_even.
  destruct (Qlt_bool (q - inject_Z (Qfloor q)) (1 # 2)) eqn:A.
  - split; [lia|]. intros E. lia.
  - apply Qlt_bool_false_iff in A.
    assert (inject_Z (Qfloor q) < q) by lra.
    destruct (Qlt_bool (1 # 2) (q - inject_Z (Qfloor q)));
      [|destruct (Z.even (Qfloor q))]; (split; [lia | intros _; assumption]).
Qed.

(** Rounding to two places keeps a number between two integers between
    them. *)
Lemma round2_within (lo hi : Z) (x : Q) :
  inject_Z lo <= x <= inject_Z hi ->
  inject_Z lo <= round2 x <= inject_Z hi.
Proof.
  intros [L U]. unfold round2.
  destruct (round_half_even_bounds (x * 100)) as [[B1 B2] B3].
  pose proof (Qfloor_le (x * 100)) as F1.
  assert (G1 : (lo * 100 <= Qfloor (x * 100))%Z).
  { rewrite <- (Qfloor_Z (lo * 100)). apply Qfloor_resp_le.
    rewrite inject_Z_mult. change (inject_Z 100) with 100. lra. }
  assert (G2 : (round_half_even (x * 100) <= hi * 100)%Z).
  { destruct (Z.eq_dec (round_half_even (x * 100)) (Qfloor (x * 100) + 1)) as [E|E].
    - specialize (B3 E).
      assert (inject_Z (Qfloor (x * 100)) < inject_Z (hi * 100)).
      { rewrite inject_Z_mult. change (inject_Z 100) with 100. lra. }
      rewrite <- Zlt_Qlt in H. lia.
    - assert (round_half_even (x * 100) = Qfloor (x * 100)) as -> by lia.
      assert (inject_Z (Qfloor (x * 100)) <= inject_Z (hi * 100)).
      { rewrite inject_Z_mult. change (inject_Z 100) with 100. lra. }
      now rewrite <- Zle_Qle in H. }
  assert (G1' : inject_Z (lo * 100) <= inject_Z (round_half_even (x * 100)))
    by (rewrite <- Zle_Qle; lia).
  assert (G2' : inject_Z (round_half_even (x * 100)) <= inject_Z (hi * 100))
    by (now rewrite <- Zle_Qle).
  rewrite inject_Z_mult in G1', G2'. change (inject_Z 100) with 100 in *.
  set (r := inject_Z (round_half_even (x * 100))) in *.
  split.
  - apply Qle_shift_div_l; lra.
  - apply Qle_shift_div_r; lra.
Qed.

(** ** The knowledge base *)

Lemma lookup_In {A} (key : str) (d : list (str * A)) (v : A) :
  lookup key d = Some v -> exists k, In (k, v) d.
Proof.
  induction d as [|[k x] d IH]; simpl; [discriminate|].
  destruct (eqb k key).
  - intros [= ->]. exists k. now left.
  - intros E. destruct (IH E) as [k' Hk]. exists k'. now right.
Qed.

Lemma knowledge_ranges_ordered (name : str) (c : CropInfo) :
  get_crop_info name = Some c ->
  (rmin (yield_range_kg_ha c) <= rmax (yield_range_kg_ha c))%Z.
Proof.
  unfold get_crop_info. intros E.
  apply lookup_In in E as [k Hk].
  assert (A : forallb (fun kv => range_ordered (snd kv)) CROP_KNOWLEDGE = true)
    by (vm_compute; reflexivity).
  rewrite forallb_forall in A. specialize (A _ Hk).
  now apply Z.leb_le in A.
Qed.

(** ** Risk *)

Lemma risk_score_as_claimed (fi : FarmInput) :
  risk_score_of (effective_irrigation fi) (effective_rainfall fi)
                (effective_fertilizer fi) = claimed_risk_score fi.
Proof.
  unfold risk_score_of, claimed_risk_score. cbv zeta.
  repeat match goal with
         | |- context [Qlt_bool ?a ?b] =>
             let E := fresh "E" in
             destruct (Qlt_bool a b) eqn:E;
             [apply Qlt_bool_iff in E | apply Qlt_bool_false_iff in E]
         end;
    repeat match goal with
           | |- context [Qlt_le_dec ?a ?b] => destruct (Qlt_le_dec a b)
           end;
    try reflexivity; exfalso; lra.
Qed.

Lemma levels_distinct :
  u"High" <> u"Medium" /\ u"High" <> u"Low" /\ u"Medium" <> u"Low".
Proof. repeat split; vm_compute; discriminate. Qed.

Lemma claimed_risk_score_range (fi : FarmInput) :
  (0 <= claimed_risk_score fi <= 5)%Z.
Proof.
  unfold claimed_risk_score.
  repeat match goal with
         | |- context [Qlt_le_dec ?a ?b] => destruct (Qlt_le_dec a b)
         end; try lia; exfalso; lra.
Qed.

Lemma conclude_returns `{Runtime} ml fi l p :
  conclude ml fi l = Ok p ->
  risk_level p = risk_level_of (claimed_risk_score fi)
  /\ predicted_yield_kg_ha p = round2 (predicted_yield l)
  /\ confidence_score p = round2 (confidence l).
Proof.
  unfold conclude. cbv zeta. rewrite risk_score_as_claimed.
  destruct (averages ml fi (state_name_of fi)); [|discriminate].
  cbn [bind_res]. intros [= <-]. cbn. repeat split.
Qed.

Lemma conclude_total `{Runtime} ml fi l :
  returns (averages ml fi (state_name_of fi)) -> returns (conclude ml fi l).
Proof.
  intros [a E]. unfold conclude. cbv zeta. rewrite E. now eexists.
Qed.

(** C2.  Whenever [predict_yield_ml] returns a prediction, its [risk_level]
    is ["High"] exactly when the score (2 for effective irrigation below 40,
    2 for effective rainfall below 500, 1 for effective rainfall above 1500,
    1 for effective fertilizer below 80) is at least 3, ["Medium"] exactly
    when it is 1 or 2 and ["Low"] exactly when it is 0; and it returns
    whenever the lookup of the state and national averages does not raise. *)
Theorem predict_yield_ml_risk_level `{Runtime}
    (ml : option artifacts) (fi : FarmInput) (w : world) :
  (forall p, fst (predict_yield_ml ml fi w) = Ok p ->
     (risk_level p = u"High" <-> (3 <= claimed_risk_score fi)%Z)
     /\ (risk_level p = u"Medium" <->
           claimed_risk_score fi = 1%Z \/ claimed_risk_score fi = 2%Z)
     /\ (risk_level p = u"Low" <-> claimed_risk_score fi = 0%Z))
  /\ (returns (averages ml fi (state_name_of fi)) ->
      returns (fst (predict_yield_ml ml fi w))).
Proof.
  rewrite predict_run. cbn [fst]. split.
  - intros p E. apply conclude_returns in E as (-> & _ & _).
    destruct levels_distinct as (HM & HL & ML).
    pose proof (claimed_risk_score_range fi) as R.
    unfold risk_level_of.
    destruct (3 <=? claimed_risk_score fi)%Z eqn:A;
      [apply Z.leb_le in A | apply Z.leb_gt in A;
       destruct (1 <=? claimed_risk_score fi)%Z eqn:B;
       [apply Z.leb_le in B | apply Z.leb_gt in B]];
      repeat split; intros; try congruence; try lia;
      try (exfalso; intuition (congruence || lia)).
  - apply conclude_total.
Qed.

Lemma predict_yield_ml_risk_level_witness :
  returns (fst (@predict_yield_ml sample_runtime (Some failing_artifacts)
                  rice_on_regolith empty_world))
  /\ forall p,
       fst (@predict_yield_ml sample_runtime (Some failing_artifacts)
              rice_on_regolith empty_world) = Ok p ->
       risk_level p = u"High".
Proof.
  destruct (@predict_yield_ml_risk_level sample_runtime (Some failing_artifacts)
              rice_on_regolith empty_world) as [A B].
  split.
  - apply B. eexists. vm_compute. reflexivity.
  - intros p E. apply (A p E). vm_compute. discriminate.
Defined.

(** ** The two ways the yield is obtained *)

Lemma estimate_on_success art fi y c :
  try_outcome art fi = Ok (y, c) ->
  estimate (Some art) fi = ({| predicted_yield := y; confidence := c |}, []).
Proof.
  unfold try_outcome, estimate, bind_res.
  destruct (model_output art fi) as [y'|e]; [|discriminate].
  destruct (getitem (model_stats art) (u"test_score")) as [ts|e]; [|discriminate].
  now intros [= -> <-].
Qed.

Lemma estimate_on_error art fi e crop :
  try_outcome art fi = Raise e ->
  crop_info_of fi = Some crop ->
  predicted_yield (fst (estimate (Some art) fi)) =
    knowledge_estimate crop (effective_rainfall fi) (effective_irrigation fi)
                       (effective_fertilizer fi)
  /\ snd (estimate (Some art) fi) = [warning e].
Proof.
  unfold try_outcome, estimate, after_error, bind_res. intros E C. rewrite C.
  destruct (model_output art fi) as [y'|e'].
  - destruct (getitem (model_stats art) (u"test_score")) as [ts|e'']; [discriminate|].
    injection E as ->. now split.
  - injection E as ->. now split.
Qed.

Lemma knowledge_estimate_within (name : str) (crop : CropInfo) (rainfall irrigation fertilizer : num) :
  get_crop_info name = Some crop ->
  inject_Z (rmin (yield_range_kg_ha crop))
    <= knowledge_estimate crop rainfall irrigation fertilizer
    <= inject_Z (rmax (yield_range_kg_ha crop)).
Proof.
  intros C. unfold knowledge_estimate. cbv zeta.
  apply clamp_within. rewrite <- Zle_Qle.
  now apply knowledge_ranges_ordered with (name := name).
Qed.

(** C9.  When the guarded block raises and the crop is in the knowledge
    base, the yield returned lies between the [min] and the [max] of the
    crop's [yield_range_kg_ha], whatever the inputs; and a prediction is
    returned whenever the lookup of the averages does not raise. *)
Theorem fallback_yield_within_range `{Runtime}
    (art : artifacts) (fi : FarmInput) (w : world) (e : exn) (crop : CropInfo) :
  try_outcome art fi = Raise e ->
  crop_info_of fi = Some crop ->
  (forall p, fst (predict_yield_ml (Some art) fi w) = Ok p ->
     inject_Z (rmin (yield_range_kg_ha crop)) <= predicted_yield_kg_ha p
     /\ predicted_yield_kg_ha p <= inject_Z (rmax (yield_range_kg_ha crop)))
  /\ (returns (averages (Some art) fi (state_name_of fi)) ->
      returns (fst (predict_yield_ml (Some art) fi w))).
Proof.
  intros E C. rewrite predict_run. cbn [fst]. split.
  - intros p P. apply conclude_returns in P as (_ & -> & _).
    destruct (estimate_on_error _ _ E C) as [-> _].
    apply round2_within.
    now apply knowledge_estimate_within with (name := crop_type fi).
  - apply conclude_total.
Qed.

Lemma fallback_yield_within_range_witness :
  exists p,
    fst (@predict_yield_ml sample_runtime (Some failing_artifacts)
           rice_on_regolith empty_world) = Ok p
    /\ 2500 <= predicted_yield_kg_ha p /\ predicted_yield_kg_ha p <= 6500.
Proof.
  destruct (@fallback_yield_within_range sample_runtime failing_artifacts
              rice_on_regolith empty_world
              (Exn (u"ValueError") (u"Input X contains NaN.")) rice)
    as [A B].
  - vm_compute. reflexivity.
  - vm_compute. reflexivity.
  - destruct B as [p Hp].
    + eexists. vm_compute. reflexivity.
    + exists p. split; [exact Hp | exact (A p Hp)].
Defined.

(** ** Categories the encoders do not know *)

(** Against C1 as stated.  Rice on a soil type that no encoder class
    matches: the model is asked with the soil encoded as 0 and its output
    (9035) is returned, not the interpolation (3409.35); nothing is logged. *)
Lemma unresolved_category_uses_model : ~ falls_back_when_unresolved.
Proof.
  intros claim.
  assert (P : exists p,
             fst (@predict_yield_ml sample_runtime (Some sample_artifacts)
                    rice_on_regolith empty_world) = Ok p
             /\ predicted_yield_kg_ha p == 9035).
  { eexists. split; [vm_compute; reflexivity|]. vm_compute. reflexivity. }
  destruct P as (p & Hp & Hy).
  specialize (claim sample_runtime sample_artifacts rice_on_regolith empty_world
                    rice p).
  rewrite Hy in claim.
  assert (U : unresolved_category sample_artifacts rice_on_regolith).
  { right. left. eexists. split; vm_compute; reflexivity. }
  specialize (claim U eq_refl Hp).
  vm_compute in claim. discriminate.
Qed.

(** C1 (amended).  The knowledge-based interpolation is used exactly when
    the guarded block raises and the crop is in the knowledge base.  When
    the block runs to its end, the yield returned is the model's output and
    nothing is logged, also when a category is unknown: a category whose
    membership test fails is encoded as 0 and does not raise. *)
Theorem fallback_only_when_model_path_raises `{Runtime}
    (art : artifacts) (fi : FarmInput) (w : world) (p : MLPrediction) :
  fst (predict_yield_ml (Some art) fi w) = Ok p ->
  (forall y c, try_outcome art fi = Ok (y, c) ->
     predicted_yield_kg_ha p = round2 y
     /\ confidence_score p = round2 c
     /\ snd (predict_yield_ml (Some art) fi w) = w)
  /\ (forall e crop, try_outcome art fi = Raise e -> crop_info_of fi = Some crop ->
        predicted_yield_kg_ha p =
          round2 (knowledge_estimate crop (effective_rainfall fi)
                                     (effective_irrigation fi)
                                     (effective_fertilizer fi))
        /\ log (snd (predict_yield_ml (Some art) fi w)) = log w ++ [warning e])
  /\ (forall row, encoded_row art fi = Ok row ->
        (forall enc, getitem (encoders art) (u"Crop") = Ok enc ->
           mem (strip (lower (crop_type fi))) (classes_ enc) = false ->
           crop_encoded row = O)
        /\ (forall enc, getitem (encoders art) (u"Soil_Type") = Ok enc ->
              in_lowered (strip (lower (soil_type fi))) (classes_ enc) = false ->
              soil_encoded row = O)
        /\ (forall enc, getitem (encoders art) (u"Season") = Ok enc ->
              in_lowered (strip (lower (season fi))) (classes_ enc) = false ->
              season_encoded row = O)).
Proof.
  rewrite predict_run. cbn [fst snd]. intros P.
  apply conclude_returns in P as (_ & Py & Pc).
  split; [|split].
  - intros y c E. rewrite (estimate_on_success _ _ E) in *.
    cbn [fst snd predicted_yield confidence logged] in *. now repeat split.
  - intros e crop E C. destruct (estimate_on_error _ _ E C) as [Ey El].
    rewrite Py, Ey, El. now split.
  - intros row R. unfold encoded_row in R. cbv zeta in R.
    unfold bind_res in R.
    destruct (getitem (encoders art) (u"Crop")) as [ec|]; [|discriminate].
    destruct (mem (strip (lower (crop_type fi))) (classes_ ec)) eqn:Mc;
      [destruct (transform ec _); [|discriminate]|];
      (destruct (getitem (encoders art) (u"Soil_Type")) as [es|]; [|discriminate]);
      (destruct (in_lowered (strip (lower (soil_type fi))) (classes_ es)) eqn:Ms;
       [destruct (transform es _); [|discriminate]|]);
      (destruct (getitem (encoders art) (u"Season")) as [en|]; [|discriminate]);
      (destruct (in_lowered (strip (lower (season fi))) (classes_ en)) eqn:Mn;
       [destruct (transform en _); [|discriminate]|]);
      injection R as <-; cbn [crop_encoded soil_encoded season_encoded];
      repeat split; intros enc [= <-] M; congruence.
Qed.

Lemma fallback_only_when_model_path_raises_witness :
  exists p,
    fst (@predict_yield_ml sample_runtime (Some sample_artifacts)
           rice_on_regolith empty_world) = Ok p
    /\ predicted_yield_kg_ha p = round2 9035
    /\ snd (@predict_yield_ml sample_runtime (Some sample_artifacts)
              rice_on_regolith empty_world) = empty_world.
Proof.
  eexists. split; [vm_compute; reflexivity|].
  destruct (@fallback_only_when_model_path_raises sample_runtime
              sample_artifacts rice_on_regolith empty_world _ eq_refl)
    as (A & _ & _).
  destruct (A 9035 0.88) as (Y & _ & W).
  - vm_compute. reflexivity.
  - split; [exact Y | exact W].
Defined.

(** ** Purity *)

Lemma predict_ignores_area `{Runtime} ml fi :
  predict_yield_ml ml fi = predict_yield_ml ml (without_area fi).
Proof. destruct fi. reflexivity. Qed.

Lemma same_inputs_without_area a b :
  same_inputs a b -> without_area a = without_area b.
Proof.
  destruct a, b. unfold same_inputs, without_area. cbn.
  intros (-> & -> & -> & -> & -> & -> & -> & ->). reflexivity.
Qed.

Lemma logged_frame w records :
  db_sessions (logged w records) = db_sessions w
  /\ db_messages (logged w records) = db_messages w
  /\ chat_sessions (logged w records) = chat_sessions w
  /\ log (logged w records) = log w ++ records.
Proof.
  destruct records; cbn; repeat split. now rewrite app_nil_r.
Qed.

Lemma estimate_logs_at_most_once ml fi :
  (List.length (snd (estimate ml fi)) <= 1)%nat.
Proof.
  unfold estimate. destruct ml as [art|]; [|cbn; lia].
  destruct (model_output art fi); [|cbn; lia].
  destruct (getitem _ _); cbn; lia.
Qed.

(** Against C3 as stated: a [FarmInput] has nine fields (and an
    [MLPrediction] eleven). *)
Lemma farm_input_nine_prediction_eleven : ~ eight_inputs_nine_outputs.
Proof. intros [A _]. specialize (A rice_in_punjab). discriminate. Qed.

(** C3 (amended).  A [FarmInput] carries nine fields, of which
    [predict_yield_ml] reads eight (all but [area_hectares]), and an
    [MLPrediction] carries eleven.  Under the same loaded artifacts, two
    calls on inputs that agree on the eight fields read return the same
    result, whatever the worlds they start from; a call changes neither
    collection of the database nor the chat registry, and adds at most one
    record to the log. *)
Theorem predict_yield_ml_pure `{Runtime}
    (ml : option artifacts) (a b : FarmInput) (w w' : world) :
  same_inputs a b ->
  fst (predict_yield_ml ml a w) = fst (predict_yield_ml ml b w')
  /\ db_sessions (snd (predict_yield_ml ml a w)) = db_sessions w
  /\ db_messages (snd (predict_yield_ml ml a w)) = db_messages w
  /\ chat_sessions (snd (predict_yield_ml ml a w)) = chat_sessions w
  /\ (exists records,
        log (snd (predict_yield_ml ml a w)) = log w ++ records
        /\ (List.length records <= 1)%nat)
  /\ List.length (FarmInput_dict a) = 9%nat
  /\ (forall p, List.length (MLPrediction_dict p) = 11%nat).
Proof.
  intros S. split.
  - rewrite (predict_ignores_area ml a), (predict_ignores_area ml b).
    rewrite (same_inputs_without_area S). now rewrite !predict_run.
  - rewrite predict_run. cbn [snd].
    destruct (logged_frame w (snd (estimate ml a))) as (A & B & C & D).
    repeat split; try assumption.
    exists (snd (estimate ml a)). split; [exact D|].
    apply estimate_logs_at_most_once.
Qed.

Lemma predict_yield_ml_pure_witness :
  fst (@predict_yield_ml sample_runtime (Some failing_artifacts)
         rice_on_regolith empty_world)
  = fst (@predict_yield_ml sample_runtime (Some failing_artifacts)
           (without_area rice_on_regolith)
           (snd (@predict_yield_ml sample_runtime (Some failing_artifacts)
                   rice_on_regolith empty_world))).
Proof.
  apply (@predict_yield_ml_pure sample_runtime (Some failing_artifacts)
           rice_on_regolith (without_area rice_on_regolith) empty_world).
  repeat split.
Defined.

(** ** Sessions *)

Lemma create_session_run uuid4 t1 t2 outcome language w :
  create_session uuid4 t1 t2 outcome language w =
    let session := {| sess_id := uuid4; sess_language := language;
                      farm_context := None;
                      created_at := t1; updated_at := t2 |} in
    match outcome with
    | Ok _ => (Ok session, with_sessions w (db_sessions w ++ [session]))
    | Raise e =>
        (Ok session,
         with_log w (log w ++ [ {| levelname := u"WARNING";
                                   message := u"Failed to save session to DB: "
                                                ++ exn_text e |} ]))
    end.
Proof. destruct outcome; reflexivity. Qed.

Lemma run_sessions (op : operation) (w : world) :
  db_sessions (run op w) = db_sessions w ++ inserted op.
Proof.
  destruct op as [uuid4 t1 t2 outcome language | outcome sid
                  | outcome um am | outcome sid | key prompt sid | rt ml fi];
    cbn [run inserted].
  - rewrite create_session_run. destruct outcome; cbn; [reflexivity|].
    now rewrite app_nil_r.
  - rewrite app_nil_r. unfold get_session, sessions_find_one.
    destruct outcome; [|reflexivity].
    cbv [bind get ret]. destruct (find _ _); reflexivity.
  - rewrite app_nil_r. unfold store_messages, messages_insert_many.
    destruct outcome; reflexivity.
  - rewrite app_nil_r. unfold get_messages, messages_find_sorted.
    destruct outcome; reflexivity.
  - rewrite app_nil_r. unfold get_or_create_chat.
    cbv [bind get ret modify]. destruct (lookup _ _); reflexivity.
  - rewrite app_nil_r. unfold predict. rewrite predict_run. cbn [snd].
    apply logged_frame.
Qed.

Lemma run_all_sessions (ops : list operation) (w : world) :
  db_sessions (run_all ops w) = db_sessions w ++ flat_map inserted ops.
Proof.
  unfold run_all. revert w.
  induction ops as [|op ops IH]; intros w; cbn [fold_left flat_map].
  - now rewrite app_nil_r.
  - rewrite IH, run_sessions. now rewrite app_assoc.
Qed.

(** C8.  [create_session] performs one insertion: it appends the new
    session when the database accepts it and leaves the collection as it was
    otherwise.  No operation modifies a session that exists: after any
    sequence of operations the collection is the one before followed by the
    sessions created since, so the document at each position that already
    existed is the same, with the same [id], [language], [farm_context],
    [created_at] and [updated_at]. *)
Theorem sessions_are_never_updated (ops : list operation) (w : world) :
  (forall uuid4 t1 t2 outcome language,
     let session := {| sess_id := uuid4; sess_language := language;
                       farm_context := None;
                       created_at := t1; updated_at := t2 |} in
     let out := create_session uuid4 t1 t2 outcome language w in
     fst out = Ok session
     /\ db_messages (snd out) = db_messages w
     /\ db_sessions (snd out) =
          match outcome with
          | Ok _ => db_sessions w ++ [session]
          | Raise _ => db_sessions w
          end)
  /\ db_sessions (run_all ops w) = db_sessions w ++ flat_map inserted ops
  /\ (forall i s, nth_error (db_sessions w) i = Some s ->
                  nth_error (db_sessions (run_all ops w)) i = Some s).
Proof.
  split; [|split].
  - intros uuid4 t1 t2 outcome language. cbv zeta.
    rewrite create_session_run. destruct outcome; cbn; repeat split.
  - apply run_all_sessions.
  - intros i s E. rewrite run_all_sessions.
    rewrite nth_error_app1; [exact E|].
    apply nth_error_Some. congruence.
Qed.

Example sessions_after_later_operations :
  map sess_id
      (db_sessions
         (run_all later_operations
            (with_sessions empty_world [first_session])))
  = [u"9f1c"; u"a2d7"].
Proof. vm_compute. reflexivity. Qed.

Lemma sessions_are_never_updated_witness :
  nth_error
    (db_sessions (run_all later_operations
                    (with_sessions empty_world [first_session]))) 0
  = Some first_session.
Proof.
  apply (sessions_are_never_updated later_operations
           (with_sessions empty_world [first_session])).
  reflexivity.
Defined.

End ServerFacts.

(* ================================================================== *)
(** * LlmChat: answers and conversations *)
(* ================================================================== *)

Module ChatFacts2.
Import PyStr Py Json Chat PyStrFacts ChatSpec PyStrSpec ChatFacts ChatSpec2.

Lemma extract_content_iff (data c : json) :
  extract_content data = Ok c <-> carries_content data c.
Proof.
  unfold carries_content, extract_content. split.
  - destruct data as [| | | | |xs|d]; try discriminate. cbn [getitem_str bind_res].
    destruct (lookup (u"choices") d) as [choices|] eqn:E1; [|discriminate].
    cbn [bind_res].
    destruct choices as [| | | |[|ch cs]|[|x xs]|];
      cbn [getitem_0 getitem_str bind_res]; try discriminate.
    destruct x as [| | | | |ys|f]; cbn [getitem_str bind_res]; try discriminate.
    destruct (lookup (u"message") f) as [message|] eqn:E2; [|discriminate].
    cbn [bind_res].
    destruct message as [| | | | |ys|g]; cbn [getitem_str]; try discriminate.
    destruct (lookup (u"content") g) as [c'|] eqn:E3; [|discriminate].
    intros [= <-]. now exists d, f, xs, g.
  - intros (d & f & rest & g & -> & E1 & E2 & E3).
    cbn [getitem_str bind_res]. rewrite E1. cbn [bind_res getitem_0 getitem_str].
    rewrite E2. cbn [bind_res getitem_str]. now rewrite E3.
Qed.

(** What every call does, whatever the network answers. *)
Lemma send_message_step net m s :
  exists v tail evs,
    send_message net m s = (Ok v, snd (send_message net m s))
    /\ api_key (self (snd (send_message net m s))) = api_key (self s)
    /\ session_id (self (snd (send_message net m s))) = session_id (self s)
    /\ system_message (self (snd (send_message net m s))) = system_message (self s)
    /\ model (self (snd (send_message net m s))) = model (self s)
    /\ history (self (snd (send_message net m s)))
         = history (self s) ++ user_entry m :: tail
    /\ (tail = [] \/ exists c, tail = [assistant_entry c])
    /\ trace (snd (send_message net m s)) = trace s ++ evs
    /\ (posts evs = [] \/ posts evs = [build_request (push (self s) (user_entry m))]).
Proof.
  destruct (no_key (self s)) eqn:K.
  - rewrite (send_message_no_key net m s) by exact K.
    exists (JStr mock_response), [assistant_entry (JStr mock_response)], [].
    cbn [fst snd self trace push history api_key session_id system_message model].
    rewrite <- app_assoc, app_nil_r. repeat split; eauto.
  - assert (K' : no_key (push (self s) (user_entry m)) = false) by exact K.
    destruct (net (build_request (push (self s) (user_entry m)))) as [r|e] eqn:N.
    + destruct (Z.eq_dec (status_code r) 200) as [S200|S200].
      * rewrite (send_message_200 net m s K' N S200).
        destruct (let? data := resp_json r in extract_content data) as [c|e].
        -- exists c, [assistant_entry c], [Post (build_request (push (self s) (user_entry m)))].
           cbn [fst snd self trace push history api_key session_id system_message model].
           rewrite <- app_assoc. repeat split; eauto.
        -- exists (JStr (trouble_reply e)), [],
             [Post (build_request (push (self s) (user_entry m)));
              LogError (u"Error sending message: " ++ exn_text e)].
           cbn [fst snd self trace push history api_key session_id system_message model].
           rewrite <- app_assoc. repeat split; eauto.
      * rewrite (send_message_status net m s K' N S200).
        exists (JStr (service_error_reply (api_error_msg r))), [],
          [Post (build_request (push (self s) (user_entry m)));
           LogError (api_error_msg r)].
        cbn [fst snd self trace push history api_key session_id system_message model].
        rewrite <- app_assoc. repeat split; eauto.
    + rewrite (send_message_raises net m s K' N).
      exists (JStr (trouble_reply e)), [],
        [Post (build_request (push (self s) (user_entry m)));
         LogError (u"Error sending message: " ++ exn_text e)].
      cbn [fst snd self trace push history api_key session_id system_message model].
      rewrite <- app_assoc. repeat split; eauto.
Qed.

(** X1.  When the key is usable, the POST answers 200 and the decoded body is
    an object whose [choices[0].message.content] is [c], [send_message]
    returns [c] (whatever JSON value it is), appends the user entry and then
    an assistant entry holding [c], sends that one POST and logs nothing. *)
Theorem send_message_returns_content
    (net : network) (m : UserMessage) (s : state) (r : response) (data c : json) :
  no_key (self s) = false ->
  net (build_request (push (self s) (user_entry m))) = Ok r ->
  status_code r = 200%Z ->
  resp_json r = Ok data ->
  carries_content data c ->
  send_message net m s =
    (Ok c,
     {| self := push (push (self s) (user_entry m)) (assistant_entry c);
        trace := trace s ++ [Post (build_request (push (self s) (user_entry m)))] |}).
Proof.
  intros K N S200 J C. apply extract_content_iff in C.
  rewrite (send_message_200 net m s K N S200), J. cbn [bind_res]. now rewrite C.
Qed.

Lemma send_message_returns_content_witness :
  send_message net_answer {| text := u"When to sow rice?" |} live_chat =
    (Ok (JStr (u"Sow in June.")),
     {| self := push (push (self live_chat)
                           (user_entry {| text := u"When to sow rice?" |}))
                     (assistant_entry (JStr (u"Sow in June.")));
        trace := trace live_chat
                   ++ [Post (build_request
                               (push (self live_chat)
                                     (user_entry {| text := u"When to sow rice?" |})))] |}).
Proof.
  eapply (send_message_returns_content net_answer {| text := u"When to sow rice?" |}
            live_chat).
  - reflexivity.
  - reflexivity.
  - reflexivity.
  - reflexivity.
  - eexists _, _, _, _. repeat split; reflexivity.
Defined.

(** X2.  When the key is usable and the POST answers 200 with a body that
    cannot be decoded or that has no [choices[0].message.content], the call
    does not raise: it returns the "Sorry, I am having trouble" text, keeps
    the user entry without adding an assistant entry, and logs one error
    after the POST. *)
Theorem send_message_survives_malformed_answer
    (net : network) (m : UserMessage) (s : state) (r : response) :
  no_key (self s) = false ->
  net (build_request (push (self s) (user_entry m))) = Ok r ->
  status_code r = 200%Z ->
  (forall data c, resp_json r = Ok data -> ~ carries_content data c) ->
  exists e,
    send_message net m s =
      (Ok (JStr (trouble_reply e)),
       {| self := push (self s) (user_entry m);
          trace := (trace s ++ [Post (build_request (push (self s) (user_entry m)))])
                     ++ [LogError (u"Error sending message: " ++ exn_text e)] |}).
Proof.
  intros K N S200 Bad.
  rewrite (send_message_200 net m s K N S200).
  destruct (resp_json r) as [data|e] eqn:J; cbn [bind_res].
  - destruct (extract_content data) as [c|e] eqn:X.
    + apply extract_content_iff in X. now elim (Bad data c eq_refl).
    + now exists e.
  - now exists e.
Qed.

Lemma send_message_survives_malformed_answer_witness :
  exists e,
    send_message (answer_with (JObj [(u"error", JStr (u"overloaded"))]))
                 {| text := u"hello" |} live_chat =
      (Ok (JStr (trouble_reply e)),
       {| self := push (self live_chat) (user_entry {| text := u"hello" |});
          trace := (trace live_chat
                      ++ [Post (build_request
                                  (push (self live_chat)
                                        (user_entry {| text := u"hello" |})))])
                     ++ [LogError (u"Error sending message: " ++ exn_text e)] |}).
Proof.
  eapply (send_message_survives_malformed_answer
            (answer_with (JObj [(u"error", JStr (u"overloaded"))]))
            {| text := u"hello" |} live_chat).
  - reflexivity.
  - reflexivity.
  - reflexivity.
  - intros data c [= <-] (d & f & rest & g & [= <-] & H & _).
    vm_compute in H. discriminate.
Defined.

Lemma user_entries_app a b : user_entries (a ++ b) = (user_entries a + user_entries b)%nat.
Proof. unfold user_entries. now rewrite filter_app, length_app. Qed.

Lemma user_entries_step m tail :
  tail = [] \/ (exists c, tail = [assistant_entry c]) ->
  user_entries (user_entry m :: tail) = 1%nat.
Proof. intros [-> | [c ->]]; reflexivity. Qed.

(** X3.  A conversation only appends.  After any number of [send_message]
    calls on a chat object, whatever the network answered each time, the key,
    the session id, the system message and the model are the ones before, the
    old history is a prefix of the new one, the entries added contain exactly
    one user entry per call, and at most one POST per call was sent. *)
Theorem conversation_is_append_only
    (calls : list (network * UserMessage)) (s : state) :
  api_key (self (send_all calls s)) = api_key (self s)
  /\ session_id (self (send_all calls s)) = session_id (self s)
  /\ system_message (self (send_all calls s)) = system_message (self s)
  /\ model (self (send_all calls s)) = model (self s)
  /\ (exists added,
        history (self (send_all calls s)) = history (self s) ++ added
        /\ user_entries added = List.length calls)
  /\ (exists evs,
        trace (send_all calls s) = trace s ++ evs
        /\ (List.length (posts evs) <= List.length calls)%nat).
Proof.
  revert s. induction calls as [|[net m] calls IH]; intros s; cbn [send_all].
  - repeat split; try (exists []; now rewrite app_nil_r).
  - destruct (send_message_step net m s)
      as (v & tail & evs & _ & A & B & C & D & H & T & Tr & P).
    destruct (IH (snd (send_message net m s)))
      as (A' & B' & C' & D' & (added & H' & U') & (evs' & Tr' & P')).
    rewrite A', B', C', D', A, B, C, D.
    split; [reflexivity|]. split; [reflexivity|].
    split; [reflexivity|]. split; [reflexivity|]. split.
    + exists ((user_entry m :: tail) ++ added). split.
      * now rewrite H', H, <- app_assoc.
      * rewrite user_entries_app, (user_entries_step m T), U'. reflexivity.
    + exists (evs ++ evs'). split.
      * now rewrite Tr', Tr, <- app_assoc.
      * rewrite posts_app, length_app. cbn [List.length].
        destruct P as [-> | ->]; cbn [List.length]; lia.
Qed.

Lemma build_request_well_addressed (c : LlmChat) (e0 e : entry) (rest : list entry) :
  history c = e0 :: rest ->
  hd_error (p_messages (body (build_request (push c e)))) = Some e0
  /\ lookup (u"Authorization") (headers (build_request (push c e)))
     = Some (u"Bearer " ++ api_key c)
  /\ lookup (u"Content-Type") (headers (build_request (push c e)))
     = Some (u"application/json")
  /\ p_temperature (body (build_request (push c e))) = 0.7
  /\ p_max_tokens (body (build_request (push c e))) = 1000%Z
  /\ url (build_request (push c e))
     = (if startswith (u"sk-or-v1") (api_key c) then openrouter_url else openai_url).
Proof.
  intros H. unfold build_request. cbn [push api_key model history].
  rewrite H.
  destruct (startswith (u"sk-or-v1") (api_key c));
    [destruct (eqb (model c) (u"gpt-4o"))|]; repeat split.
Qed.

(** X4.  Every request that a chat created by [LlmChat(key, session, sys)]
    (and [with_model]) ever sends carries the whole conversation starting
    with the system message, the header [Authorization: Bearer key], the
    content type [application/json], temperature 0.7 and 1000 tokens, and goes
    to OpenRouter exactly when the key starts with ["sk-or-v1"] and to OpenAI
    otherwise. *)
Theorem every_request_is_well_addressed
    (calls : list (network * UserMessage)) (key sid sys provider mdl : str) :
  Forall (well_addressed key sys)
         (posts (trace (send_all calls
                          {| self := with_model (init key sid sys) provider mdl;
                             trace := [] |}))).
Proof.
  assert (G : forall calls s,
             api_key (self s) = key ->
             (exists rest, history (self s) = system_entry sys :: rest) ->
             Forall (well_addressed key sys) (posts (trace s)) ->
             Forall (well_addressed key sys) (posts (trace (send_all calls s)))).
  { clear calls. induction calls as [|[net m] calls IH]; intros s K [rest H] F;
      cbn [send_all]; [exact F|].
    destruct (send_message_step net m s)
      as (v & tail & evs & _ & A & _ & _ & _ & Hh & _ & Tr & P).
    apply IH.
    - now rewrite A.
    - rewrite Hh, H. now eexists.
    - rewrite Tr, posts_app. apply Forall_app. split; [exact F|].
      destruct P as [-> | ->]; constructor; [|constructor].
      unfold well_addressed. rewrite <- K.
      exact (build_request_well_addressed (self s) (user_entry m) H). }
  apply G.
  - reflexivity.
  - now exists [].
  - constructor.
Qed.

End ChatFacts2.

(* ================================================================== *)
(** * The weather proxy: requests, reports and languages *)
(* ================================================================== *)

Module WeatherFacts2.
Import PyStr Py PyNum Json Weather PyStrFacts WeatherSpec PyStrSpec WeatherFacts.
Import WeatherSpec2.

Lemma advisory_report net location language tr coords w :
  get_coordinates location = Some coords ->
  fetch_outcome net location coords = Ok w ->
  get_weather_advisory net location language tr =
    (Ok (Report false (w_location w) (w_current w) (w_forecast w)
           (map (formatted language) (w_agricultural_advisory w))
           (u"Open-Meteo Weather API")),
     tr ++ [Get (forecast_request coords)]).
Proof.
  intros H F.
  unfold get_weather_advisory, get_weather. rewrite H.
  unfold bind at 1. unfold try_except. unfold bind at 1.
  rewrite fetch_run, F. reflexivity.
Qed.

(** X5.  [get_weather_advisory] sends no request at all for a location it
    cannot geocode, and otherwise exactly one GET, for the coordinates found;
    it logs at most one error, after the request. *)
Theorem weather_advisory_sends_at_most_one_request
    (net : network) (location language : str) (tr : list event) :
  match get_coordinates location with
  | None => snd (get_weather_advisory net location language tr) = tr
  | Some coords =>
      exists logs,
        snd (get_weather_advisory net location language tr)
          = tr ++ Get (forecast_request coords) :: logs
        /\ (logs = [] \/ exists text, logs = [LogError text])
  end.
Proof.
  destruct (get_coordinates location) as [coords|] eqn:G.
  - destruct (fetch_outcome net location coords) as [w|e] eqn:F.
    + rewrite (@advisory_report net location language tr coords w G F).
      exists []. split; [reflexivity | now left].
    + rewrite (@advisory_fetch_raises net location language tr coords e G F).
      eexists. split; [now rewrite <- app_assoc|]. right. now eexists.
  - now rewrite (@advisory_unknown_place net location language tr G).
Qed.

Lemma for_each_length {A} (body : nat -> res A) (indices : list nat) (xs : list A) :
  for_each body indices = Ok xs -> List.length xs = List.length indices.
Proof.
  revert xs. induction indices as [|i rest IH]; intros xs; cbn [for_each].
  - now intros [= <-].
  - unfold bind_res. destruct (body i); [|discriminate].
    destruct (for_each body rest) as [ys|]; [|discriminate].
    intros [= <-]. cbn [List.length]. now rewrite (IH ys eq_refl).
Qed.

Lemma assemble_forecast_length location coords data w :
  assemble location coords data = Ok w -> (List.length (w_forecast w) <= 7)%nat.
Proof.
  unfold assemble, bind_res.
  repeat match goal with
         | |- context [match dict_get ?j ?k ?d with _ => _ end] =>
             destruct (dict_get j k d); [|discriminate]
         end.
  destruct (_get_weather_condition _); [|discriminate].
  match goal with
  | |- context [if truthy ?d then _ else _] => destruct (truthy d)
  end.
  - destruct (dict_get _ (u"time") _) as [time|]; [|discriminate].
    destruct (len time) as [n|]; [|discriminate].
    destruct (for_each _ _) as [days|] eqn:D; [|discriminate].
    apply for_each_length in D. rewrite length_seq in D.
    destruct (_generate_agri_advisory _); [|discriminate].
    intros [= <-]. cbn [w_forecast]. lia.
  - destruct (_generate_agri_advisory _); [|discriminate].
    intros [= <-]. cbn. lia.
Qed.

Lemma generated_advice_consistent weather advs :
  _generate_agri_advisory weather = Ok advs ->
  consistent_advice (map a_type advs).
Proof.
  unfold _generate_agri_advisory, bind_res. cbv zeta.
  set (temp := temperature_c (w_current weather)).
  set (hum := humidity_percent (w_current weather)).
  set (wind := wind_speed_kmh (w_current weather)).
  assert (H1 : forall l,
             match gt temp 40 with
             | Ok extreme =>
                 if extreme then Ok [adv_heat_stress]
                 else match gt temp 35 with
                      | Ok high =>
                          if high then Ok [adv_heat_advisory]
                          else match lt temp 10 with
                               | Ok low => if low then Ok [adv_cold_advisory] else Ok []
                               | Raise e => Raise e
                               end
                      | Raise e => Raise e
                      end
             | Raise e => Raise e
             end = Ok l ->
             at_most_one_of [u"heat_stress"; u"heat_advisory"; u"cold_advisory"]
                            (map a_type l)).
  { intros l. destruct (gt temp 40) as [[]|]; [| |discriminate].
    - intros [= <-]. right. exists (u"heat_stress"). cbn. auto.
    - destruct (gt temp 35) as [[]|]; [| |discriminate].
      + intros [= <-]. right. exists (u"heat_advisory"). cbn. auto.
      + destruct (lt temp 10) as [[]|]; [| |discriminate]; intros [= <-].
        * right. exists (u"cold_advisory"). cbn. auto.
        * now left. }
  destruct (match gt temp 40 with Ok _ => _ | Raise e => Raise e end) as [heat|] eqn:Eh;
    [|discriminate].
  specialize (H1 heat eq_refl).
  destruct (sum_rain (I 0) (firstn 7 (w_forecast weather))) as [total|]; [|discriminate].
  destruct (gt hum 85) as [humid|]; [|discriminate].
  replace (if humid then Ok [adv_disease_risk] else Ok [])
    with (@Ok (list advisory) (if humid then [adv_disease_risk] else []))
    by now destruct humid.
  destruct (match lt wind 10 with Ok _ => _ | Raise e => Raise e end) as [spray|] eqn:Es;
    [|discriminate].
  intros [= <-]. rewrite !map_app.
  eexists _, _, _, _. split; [reflexivity|]. split; [exact H1|]. split; [|split].
  - destruct (Qlt_bool 100 (val total)).
    + right. exists (u"heavy_rain_warning"). cbn. auto.
    + destruct (Qlt_bool 50 (val total)).
      * right. exists (u"rain_expected"). cbn. auto.
      * destruct (Qlt_bool (val total) 5).
        -- right. exists (u"dry_spell"). cbn. auto.
        -- now left.
  - destruct humid.
    + right. exists (u"disease_risk"). cbn. auto.
    + now left.
  - destruct (lt wind 10) as [[]|]; [| |discriminate].
    + injection Es as <-. right. exists (u"spray_favorable"). cbn. auto.
    + destruct (gt wind 20) as [[]|]; [| |discriminate]; injection Es as <-.
      * right. exists (u"spray_unfavorable"). cbn. auto.
      * now left.
Qed.

Lemma assemble_advice_consistent location coords data w :
  assemble location coords data = Ok w ->
  consistent_advice (map a_type (w_agricultural_advisory w)).
Proof.
  unfold assemble, bind_res.
  repeat match goal with
         | |- context [match dict_get ?j ?k ?d with _ => _ end] =>
             destruct (dict_get j k d); [|discriminate]
         end.
  destruct (_get_weather_condition _); [|discriminate].
  match goal with
  | |- context [if truthy ?d then _ else _] => destruct (truthy d)
  end.
  - destruct (dict_get _ (u"time") _) as [time|]; [|discriminate].
    destruct (len time) as [n|]; [|discriminate].
    destruct (for_each _ _) as [days|]; [|discriminate].
    destruct (_generate_agri_advisory _) as [advs|] eqn:G; [|discriminate].
    intros [= <-]. cbn [w_agricultural_advisory].
    exact (generated_advice_consistent _ G).
  - destruct (_generate_agri_advisory _) as [advs|] eqn:G; [|discriminate].
    intros [= <-]. cbn [w_agricultural_advisory].
    exact (generated_advice_consistent _ G).
Qed.

Lemma fetch_outcome_assembled net location coords w :
  fetch_outcome net location coords = Ok w ->
  exists data, assemble location coords data = Ok w.
Proof.
  unfold fetch_outcome, bind_res.
  destruct (net _) as [r|]; [|discriminate].
  destruct (raise_for_status r); [|discriminate].
  destruct (resp_json r) as [data|]; [|discriminate].
  intros H. now exists data.
Qed.

Lemma assemble_location location coords data w :
  assemble location coords data = Ok w -> w_location w = location.
Proof.
  unfold assemble, bind_res.
  repeat match goal with
         | |- context [match dict_get ?j ?k ?d with _ => _ end] =>
             destruct (dict_get j k d); [|discriminate]
         end.
  destruct (_get_weather_condition _); [|discriminate].
  destruct (if truthy _ then _ else _); [|discriminate].
  destruct (_generate_agri_advisory _); [|discriminate].
  now intros [= <-].
Qed.

(** X6.  A report returned by [get_weather_advisory] has [error] false, names
    the location as it was asked, holds at most seven forecast days, and its
    advisories are consistent: at most one about temperature (heat stress,
    heat or cold, never two of them), then at most one about rain (heavy rain,
    rain expected or dry spell), then at most one about disease risk, then at
    most one about spraying (favorable or unfavorable). *)
Theorem weather_report_is_bounded_and_consistent
    (net : network) (location language : str) (tr : list event)
    (e : bool) (loc : str) (cur : current_weather) (days : list forecast_day)
    (advs : list formatted_advisory) (src : str) :
  fst (get_weather_advisory net location language tr)
    = Ok (Report e loc cur days advs src) ->
  e = false
  /\ loc = location
  /\ (List.length days <= 7)%nat
  /\ consistent_advice (map f_type advs)
  /\ (List.length advs <= 4)%nat.
Proof.
  destruct (get_coordinates location) as [coords|] eqn:G.
  - destruct (fetch_outcome net location coords) as [w|x] eqn:F.
    + rewrite (@advisory_report net location language tr coords w G F).
      cbn [fst]. intros [= <- <- <- <- <- <-].
      destruct (fetch_outcome_assembled _ _ _ F) as [data A].
      assert (C : consistent_advice
                    (map f_type (map (formatted language) (w_agricultural_advisory w)))).
      { rewrite map_map. cbn [formatted f_type].
        exact (assemble_advice_consistent _ _ _ A). }
      split; [reflexivity|]. split; [exact (assemble_location _ _ _ A)|].
      split; [exact (assemble_forecast_length _ _ _ A)|]. split; [exact C|].
      rewrite <- (length_map f_type).
      destruct C as (h & r & d & s & -> & Hh & Hr & Hd & Hs).
      rewrite !length_app.
      assert (L : forall choices l, at_most_one_of choices l -> (List.length l <= 1)%nat).
      { intros choices l [-> | (c & _ & ->)]; cbn; lia. }
      pose proof (L _ _ Hh). pose proof (L _ _ Hr).
      pose proof (L _ _ Hd). pose proof (L _ _ Hs). lia.
    + rewrite (@advisory_fetch_raises net location language tr coords x G F).
      discriminate.
  - rewrite (@advisory_unknown_place net location language tr G). discriminate.
Qed.

Lemma weather_report_is_bounded_and_consistent_witness :
  exists e loc cur days advs src,
    fst (get_weather_advisory net_ok (u"Guntur, AP") (u"te") [])
      = Ok (Report e loc cur days advs src)
    /\ e = false /\ loc = u"Guntur, AP" /\ (List.length days <= 7)%nat.
Proof.
  eexists _, _, _, _, _, _. split; [vm_compute; reflexivity|].
  destruct (@weather_report_is_bounded_and_consistent
              net_ok (u"Guntur, AP") (u"te") [] _ _ _ _ _ _ eq_refl)
    as (A & B & C & _).
  repeat split; assumption.
Defined.





Example hindi_messages :
  match get_weather_advisory net_ok (u"Guntur, AP") (u"hi") [] with
  | (Ok (Report _ _ _ _ advs _), _) =>
      map f_message (firstn 1 advs) =
        [u"अत्यधिक गर्मी की चेतावनी! सुबह 11 से शाम 4 बजे तक खेत में काम न करें। शाम को ही सिंचाई करें।"]
  | _ => False
  end.
Proof. vm_compute. reflexivity. Qed.

Lemma generate_needs_numbers weather :
  to_num (temperature_c (w_current weather)) = None
  \/ to_num (humidity_percent (w_current weather)) = None
  \/ to_num (wind_speed_kmh (w_current weather)) = None ->
  exists e, _generate_agri_advisory weather = Raise e.
Proof.
  intros H. unfold _generate_agri_advisory, bind_res. cbv zeta.
  destruct (to_num (temperature_c (w_current weather))) as [t|] eqn:T.
  2:{ unfold gt at 1. rewrite T. eauto. }
  destruct (match gt (temperature_c (w_current weather)) 40 with
            | Ok _ => _ | Raise e => Raise e end); [|eauto].
  destruct (sum_rain _ _); [|eauto].
  destruct (to_num (humidity_percent (w_current weather))) as [h|] eqn:Hm.
  2:{ unfold gt at 1. rewrite Hm. eauto. }
  destruct (gt (humidity_percent (w_current weather)) 85) as [humid|]; [|eauto].
  replace (if humid then Ok [adv_disease_risk] else Ok [])
    with (@Ok (list advisory) (if humid then [adv_disease_risk] else []))
    by now destruct humid.
  destruct H as [H | [H | H]]; try congruence.
  unfold lt at 1. rewrite H. eauto.
Qed.

Lemma assemble_needs_numbers location coords data :
  reading data (u"temperature_2m") = None
  \/ reading data (u"relative_humidity_2m") = None
  \/ reading data (u"wind_speed_10m") = None ->
  exists e, assemble location coords data = Raise e.
Proof.
  unfold reading, assemble, bind_res. intros H.
  destruct (dict_get data (u"current") (JObj [])) as [current|]; [|eauto].
  destruct (dict_get data (u"daily") (JObj [])) as [daily|]; [|eauto].
  destruct (dict_get current (u"temperature_2m") JNull) as [t|] eqn:T; [|eauto].
  destruct (dict_get current (u"relative_humidity_2m") JNull) as [h|] eqn:Hm; [|eauto].
  destruct (dict_get current (u"precipitation") JNull) as [pr|]; [|eauto].
  destruct (dict_get current (u"wind_speed_10m") JNull) as [wd|] eqn:W; [|eauto].
  destruct (dict_get current (u"weather_code") (JInt 0)) as [code|]; [|eauto].
  destruct (_get_weather_condition code) as [cond|]; [|eauto].
  destruct (if truthy daily then _ else _) as [days|]; [|eauto].
  match goal with
  | |- context [_generate_agri_advisory ?w] =>
      destruct (@generate_needs_numbers w H) as [e ->]
  end.
  eauto.
Qed.

(** X8.  An answer that arrives and decodes but gives no number for the
    current temperature, the relative humidity or the wind speed (the key is
    absent, or its value is null or a text) is reported as an error: the
    comparison with the thresholds raises inside the [try] block, so the reply
    is the "Could not fetch weather data" one with [error] true. *)
Theorem weather_advisory_needs_current_readings
    (net : network) (location language : str) (tr : list event)
    (coords : Coords) (r : response) (data : json) :
  get_coordinates location = Some coords ->
  net (forecast_request coords) = Ok r ->
  resp_json r = Ok data ->
  reading data (u"temperature_2m") = None
  \/ reading data (u"relative_humidity_2m") = None
  \/ reading data (u"wind_speed_10m") = None ->
  fst (get_weather_advisory net location language tr) = Ok unavailable.
Proof.
  intros G N J H.
  assert (F : exists e, fetch_outcome net location coords = Raise e).
  { unfold fetch_outcome, bind_res. rewrite N.
    destruct (raise_for_status r); [|eauto]. rewrite J.
    exact (assemble_needs_numbers location coords data H). }
  destruct F as [e F].
  now rewrite (@advisory_fetch_raises net location language tr coords e G F).
Qed.

Lemma weather_advisory_needs_current_readings_witness :
  fst (get_weather_advisory
         (net_json (JObj [(u"current",
                           JObj [(u"temperature_2m", JFloat 31.5);
                                 (u"relative_humidity_2m", JNull);
                                 (u"wind_speed_10m", JInt 4)])]))
         (u"Pune") (u"en") [])
  = Ok unavailable.
Proof.
  eapply (@weather_advisory_needs_current_readings _ (u"Pune") (u"en") []).
  - vm_compute. reflexivity.
  - reflexivity.
  - reflexivity.
  - right. left. reflexivity.
Defined.

End WeatherFacts2.

(* ================================================================== *)
(** * Yield prediction: what a prediction holds *)
(* ================================================================== *)

Module ServerFacts2.
Import PyStr Py PyNum Json Knowledge Server Routes.
Import PyStrSpec ServerSpec ServerSpec2 PyStrFacts ServerFacts.
Open Scope Q_scope.

(** ** Rounding *)

Lemma round_half_even_le (n : Z) (q : Q) :
  q <= inject_Z n -> (round_half_even q <= n)%Z.
Proof.
  intros U.
  destruct (round_half_even_bounds q) as [[_ B2] B3].
  pose proof (Qfloor_le q) as F.
  destruct (Z.eq_dec (round_half_even q) (Qfloor q + 1)) as [E|E].
  - specialize (B3 E).
    assert (L : inject_Z (Qfloor q) < inject_Z n) by lra.
    rewrite <- Zlt_Qlt in L. lia.
  - assert (L : inject_Z (Qfloor q) <= inject_Z n) by lra.
    rewrite <- Zle_Qle in L. lia.
Qed.

Lemma round2_times_100 (x : Q) :
  round2 x * 100 == inject_Z (round_half_even (x * 100)).
Proof. unfold round2. field. Qed.

Lemma round2_le_hundredths (n : Z) (x : Q) :
  x * 100 <= inject_Z n -> round2 x * 100 <= inject_Z n.
Proof.
  intros U. rewrite round2_times_100, <- Zle_Qle.
  now apply round_half_even_le.
Qed.

Lemma round2_integer (z : Z) : round2 (inject_Z z) == inject_Z z.
Proof.
  assert (L : inject_Z z <= round2 (inject_Z z) <= inject_Z z)
    by (apply round2_within; lra).
  lra.
Qed.

(** ** The fields of a prediction *)

Lemma conclude_fields `{Runtime} ml fi l p :
  conclude ml fi l = Ok p ->
  predicted_yield_kg_ha p = round2 (predicted_yield l)
  /\ confidence_score p = round2 (confidence l)
  /\ risk_level p =
       risk_level_of (risk_score_of (effective_irrigation fi)
                                    (effective_rainfall fi)
                                    (effective_fertilizer fi))
  /\ influential_factors p =
       firstn 5 (factors_of fi (crop_info_of fi) (effective_irrigation fi)
                            (effective_rainfall fi) (effective_fertilizer fi))
  /\ recommendations p =
       firstn 5 (recommendations_of (crop_info_of fi) (effective_irrigation fi)
                                    (risk_level p))
  /\ crop_info p = crop_info_of fi.
Proof.
  unfold conclude, bind_res.
  destruct (averages ml fi (state_name_of fi)); [|discriminate].
  intros [= <-].
  cbn [predicted_yield_kg_ha confidence_score risk_level influential_factors
       recommendations crop_info].
  repeat split; reflexivity.
Qed.

Lemma after_error_confidence fi l :
  confidence (after_error fi l) = confidence l.
Proof. unfold after_error. now destruct (crop_info_of fi). Qed.

(** The confidence after the guarded block, and whether a warning was
    logged. *)
Lemma estimate_confidence ml fi :
  (snd (estimate ml fi) = []
   /\ (confidence (fst (estimate ml fi)) = 0.75 /\ ml = None
       \/ exists art ts, ml = Some art
            /\ confidence (fst (estimate ml fi)) = pymin 0.92 ts))
  \/ (snd (estimate ml fi) <> []
      /\ confidence (fst (estimate ml fi)) = 0.75).
Proof.
  unfold estimate. destruct ml as [art|].
  - destruct (model_output art fi) as [y|e].
    + destruct (getitem (model_stats art) (u"test_score")) as [ts|e].
      * left. split; [reflexivity|]. right. now exists art, ts.
      * right. cbn [fst snd]. rewrite after_error_confidence.
        split; [discriminate | reflexivity].
    + right. cbn [fst snd]. rewrite after_error_confidence.
      split; [discriminate | reflexivity].
  - left. split; [reflexivity|]. now left.
Qed.

Lemma pymin_le_left (a b : Q) : pymin a b <= a.
Proof.
  unfold pymin. destruct (Qlt_bool b a) eqn:E.
  - apply Qlt_bool_iff in E. lra.
  - lra.
Qed.

Lemma logged_changes w records : logged w records <> w -> records <> [].
Proof. intros H ->. now apply H. Qed.

Lemma average_within_range (name : str) (c : CropInfo) :
  get_crop_info name = Some c ->
  (rmin (yield_range_kg_ha c) <= ravg (yield_range_kg_ha c)
   <= rmax (yield_range_kg_ha c))%Z.
Proof.
  unfold get_crop_info. intros E.
  apply lookup_In in E as [k Hk].
  assert (A : forallb (fun kv => average_in_range (snd kv)) CROP_KNOWLEDGE = true)
    by (vm_compute; reflexivity).
  rewrite forallb_forall in A. specialize (A _ Hk).
  unfold average_in_range in A. cbn [snd] in A.
  apply andb_true_iff in A as [A1 A2].
  apply Z.leb_le in A1, A2. lia.
Qed.

(** X9.  Without the model artifacts ([ML_MODEL_LOADED] false)
    [predict_yield_ml] never raises and logs nothing: it returns the average
    yield of the crop in the knowledge base (3000 for an unknown crop), which
    lies within the crop's range, with confidence 0.75, no state or national
    average and an empty comparison text. *)
Theorem predict_without_model `{Runtime} (fi : FarmInput) (w : world) :
  exists p,
    predict_yield_ml None fi w = (Ok p, w)
    /\ predicted_yield_kg_ha p == inject_Z (default_yield_of fi)
    /\ confidence_score p == 0.75
    /\ state_avg_yield p = None
    /\ national_avg_yield p = None
    /\ comparison p = []
    /\ (forall crop, crop_info_of fi = Some crop ->
          inject_Z (rmin (yield_range_kg_ha crop)) <= predicted_yield_kg_ha p
          /\ predicted_yield_kg_ha p <= inject_Z (rmax (yield_range_kg_ha crop)))
    /\ (crop_info_of fi = None -> predicted_yield_kg_ha p == 3000).
Proof.
  rewrite predict_run. unfold estimate. cbn [fst snd logged].
  unfold conclude, averages, bind_res. cbn [fst snd truthy_avg option_map].
  eexists. split; [reflexivity|].
  cbn [predicted_yield_kg_ha confidence_score state_avg_yield national_avg_yield
       comparison initial_locals predicted_yield confidence comparison_of truthy_avg].
  split; [apply round2_integer|].
  split; [vm_compute; reflexivity|].
  split; [reflexivity|]. split; [reflexivity|]. split; [reflexivity|].
  split.
  - intros crop E. unfold default_yield_of. rewrite E.
    pose proof (average_within_range _ E) as [A B].
    pose proof (round2_integer (ravg (yield_range_kg_ha crop))) as R.
    rewrite Zle_Qle in A, B. lra.
  - intros E. unfold default_yield_of. rewrite E. apply round2_integer.
Qed.

(** X10.  The confidence of a prediction never exceeds 0.92, and it is 0.75
    whenever the model is absent or the call logged a warning, that is,
    whenever the knowledge-based path was taken. *)
Theorem confidence_is_capped `{Runtime}
    (ml : option artifacts) (fi : FarmInput) (w : world) (p : MLPrediction) :
  fst (predict_yield_ml ml fi w) = Ok p ->
  confidence_score p <= 0.92
  /\ (snd (predict_yield_ml ml fi w) <> w -> confidence_score p == 0.75)
  /\ (ml = None -> confidence_score p == 0.75).
Proof.
  rewrite predict_run. cbn [fst snd]. intros C.
  apply conclude_fields in C as (_ & -> & _).
  assert (R : round2 0.75 == 0.75) by (vm_compute; reflexivity).
  destruct (estimate_confidence ml fi)
    as [[L [[E N] | (art & ts & N & E)]] | [L E]]; rewrite E.
  - split; [lra|]. split; intros _; exact R.
  - split.
    + pose proof (pymin_le_left 0.92 ts) as M.
      assert (U : round2 (pymin 0.92 ts) * 100 <= inject_Z 92).
      { apply round2_le_hundredths. change (inject_Z 92) with 92. lra. }
      change (inject_Z 92) with 92 in U. lra.
    + split.
      * rewrite L. intros D. now elim D.
      * rewrite N. discriminate.
  - split; [lra|]. split; intros _; exact R.
Qed.

Lemma confidence_is_capped_witness :
  exists p,
    fst (@predict_yield_ml sample_runtime (Some sample_artifacts)
           rice_in_punjab empty_world) = Ok p
    /\ confidence_score p <= 0.92.
Proof.
  eexists. split; [vm_compute; reflexivity|].
  eapply (@confidence_is_capped sample_runtime (Some sample_artifacts)
            rice_in_punjab empty_world).
  vm_compute. reflexivity.
Defined.

(** ** Factors *)

Lemma impact_words_distinct :
  u"Positive" <> u"Negative" /\ u"Moderate" <> u"Negative"
  /\ u"Risk" <> u"Negative" /\ u"Positive" <> u"Risk"
  /\ u"Moderate" <> u"Risk".
Proof. repeat split; vm_compute; discriminate. Qed.

Lemma factors_names `{Runtime} (fi : FarmInput) (ci : option CropInfo)
      (irrigation rainfall fertilizer : num) :
  map factor_name (factors_of fi ci irrigation rainfall fertilizer) =
    [u"Irrigation"; u"Rainfall"]
      ++ (match ci with Some _ => [u"Soil Type"] | None => [] end)
      ++ [u"Fertilizer"].
Proof.
  unfold factors_of. destruct ci; rewrite !map_app; cbn [map];
    repeat match goal with
           | |- context [factor_name (if ?b then _ else _)] => destruct b
           end; reflexivity.
Qed.

Lemma factors_impacts `{Runtime} (fi : FarmInput) (ci : option CropInfo)
      (irrigation rainfall fertilizer : num) :
  map impact (factors_of fi ci irrigation rainfall fertilizer) =
    [ if Qle_bool 70 (val irrigation) then u"Positive"
      else if Qle_bool 40 (val irrigation) then u"Moderate" else u"Negative";
      if Qlt_bool 600 (val rainfall) && Qlt_bool (val rainfall) 1200
      then u"Positive" else u"Risk" ]
      ++ (match ci with
          | Some c => [ if mem (title (soil_type fi)) (optimal_soil c)
                        then u"Positive" else u"Moderate" ]
          | None => []
          end)
      ++ [ if Qle_bool 120 (val fertilizer) then u"Positive" else u"Moderate" ].
Proof.
  unfold factors_of. destruct ci; rewrite !map_app; cbn [map impact];
    repeat match goal with
           | |- context [impact (if ?b then _ else _)] => destruct b
           end; reflexivity.
Qed.

Lemma factors_within_five `{Runtime} (fi : FarmInput) (ci : option CropInfo)
      (irrigation rainfall fertilizer : num) :
  firstn 5 (factors_of fi ci irrigation rainfall fertilizer)
  = factors_of fi ci irrigation rainfall fertilizer.
Proof.
  apply firstn_all2.
  rewrite <- (length_map factor_name), factors_names.
  destruct ci; cbn; lia.
Qed.

(** Where the words ["Negative"] and ["Risk"] can stand, for any four
    distinct impact words. *)
Lemma impacts_marked (pos med neg risk : str) (a70 a40 inr f120 : bool)
      (soil : list str) :
  pos <> neg -> med <> neg -> risk <> neg -> pos <> risk -> med <> risk ->
  (forall s, In s soil -> s = pos \/ s = med) ->
  let l := [ if a70 then pos else if a40 then med else neg;
             if inr then pos else risk ]
             ++ soil ++ [ if f120 then pos else med ] in
  (In neg l <-> a70 = false /\ a40 = false)
  /\ (In risk l <-> inr = false).
Proof.
  intros D1 D2 D3 D4 D5 S l. subst l.
  assert (SN : ~ In neg soil)
    by (intros Hin; destruct (S _ Hin); congruence).
  assert (SR : ~ In risk soil)
    by (intros Hin; destruct (S _ Hin); congruence).
  cbn [app]. cbn [In]. rewrite !in_app_iff. cbn [In].
  destruct a70, a40, inr, f120; split; split; intros;
    intuition congruence.
Qed.

(** X11.  The influential factors of a prediction are, in this order,
    Irrigation, Rainfall, Soil Type (only for a crop of the knowledge base)
    and Fertilizer, so the cut to five entries never drops one.  A factor is
    marked Negative exactly when the test [irrigation >= 40] fails (the final
    [else] of the chain on the irrigation after defaults), and one is marked
    Risk exactly when the test [600 < rainfall < 1200] fails. *)
Theorem influential_factors_shape `{Runtime}
    (ml : option artifacts) (fi : FarmInput) (w : world) (p : MLPrediction) :
  fst (predict_yield_ml ml fi w) = Ok p ->
  crop_info p = get_crop_info (crop_type fi)
  /\ map factor_name (influential_factors p) =
       [u"Irrigation"; u"Rainfall"]
         ++ (match crop_info p with Some _ => [u"Soil Type"] | None => [] end)
         ++ [u"Fertilizer"]
  /\ (In (u"Negative") (map impact (influential_factors p))
      <-> ~ 40 <= val (effective_irrigation fi))
  /\ (In (u"Risk") (map impact (influential_factors p))
      <-> ~ (600 < val (effective_rainfall fi)
             /\ val (effective_rainfall fi) < 1200)).
Proof.
  rewrite predict_run. cbn [fst]. intros C.
  apply conclude_fields in C as (_ & _ & _ & -> & _ & ->).
  rewrite factors_within_five, factors_names, factors_impacts.
  destruct impact_words_distinct as (D1 & D2 & D3 & D4 & D5).
  split; [reflexivity|]. split; [reflexivity|].
  set (irr := val (effective_irrigation fi)).
  set (rain := val (effective_rainfall fi)).
  destruct (@impacts_marked (u"Positive") (u"Moderate") (u"Negative") (u"Risk")
              (Qle_bool 70 irr) (Qle_bool 40 irr)
              (Qlt_bool 600 rain && Qlt_bool rain 1200)
              (Qle_bool 120 (val (effective_fertilizer fi)))
              (match crop_info_of fi with
               | Some c => [ if mem (title (soil_type fi)) (optimal_soil c)
                             then u"Positive" else u"Moderate" ]
               | None => []
               end) D1 D2 D3 D4 D5) as [N R].
  { intros s. destruct (crop_info_of fi) as [c|]; [|intros []].
    intros [<- | []]. destruct (mem _ _); [now left | now right]. }
  split.
  - eapply iff_trans; [exact N|]. split.
    + intros [_ B] L. apply Qle_bool_iff in L. congruence.
    + intros L. split.
      * destruct (Qle_bool 70 irr) eqn:E; [|reflexivity].
        apply Qle_bool_iff in E. exfalso. apply L. lra.
      * destruct (Qle_bool 40 irr) eqn:E; [|reflexivity].
        apply Qle_bool_iff in E. contradiction.
  - eapply iff_trans; [exact R|]. split.
    + intros B [L1 L2]. apply Qlt_bool_iff in L1, L2.
      rewrite L1, L2 in B. discriminate.
    + intros L. destruct (Qlt_bool 600 rain) eqn:E1; [|reflexivity].
      destruct (Qlt_bool rain 1200) eqn:E2; [|reflexivity].
      apply Qlt_bool_iff in E1, E2. exfalso. apply L. now split.
Qed.

Lemma influential_factors_shape_witness :
  exists p,
    fst (@predict_yield_ml sample_runtime (Some failing_artifacts)
           rice_on_regolith empty_world) = Ok p
    /\ map factor_name (influential_factors p) =
         [u"Irrigation"; u"Rainfall"; u"Soil Type"; u"Fertilizer"]
    /\ In (u"Negative") (map impact (influential_factors p)).
Proof.
  eexists. split; [vm_compute; reflexivity|].
  destruct (@influential_factors_shape sample_runtime (Some failing_artifacts)
              rice_on_regolith empty_world _ eq_refl) as (_ & N & I & _).
  split; [exact N|]. apply I. apply Qlt_not_le. vm_compute. reflexivity.
Defined.

(** ** Recommendations *)

Lemma own_advices_distinct :
  drip_advice <> insurance_advice /\ drip_advice <> soil_test_advice
  /\ insurance_advice <> soil_test_advice.
Proof. repeat split; vm_compute; discriminate. Qed.

Lemma mem_false_not_In (x : str) (l : list str) :
  mem x l = false -> ~ In x l.
Proof.
  unfold mem. intros E Hin.
  assert (T : existsb (eqb x) l = true).
  { apply existsb_exists. exists x. split; [exact Hin | apply eqb_refl]. }
  congruence.
Qed.

Lemma starts_with_R (x : str) :
  startswith (u"R") (u"Recommended fertilizer: N-" ++ x) = true.
Proof. reflexivity. Qed.

(** The advice about fertilizer is none of the three fixed advices. *)
Lemma fertilizer_advice_differs (x a : str) :
  In a own_advices -> u"Recommended fertilizer: N-" ++ x <> a.
Proof.
  intros Hin E.
  assert (S : startswith (u"R") a = true) by (rewrite <- E; apply starts_with_R).
  destruct Hin as [<-|[<-|[<-|[]]]]; vm_compute in S; discriminate.
Qed.

Lemma knowledge_tips_usable (name : str) (c : CropInfo) :
  get_crop_info name = Some c ->
  exists t1 t2 rest,
    tips c = t1 :: t2 :: rest
    /\ (t1 <> drip_advice /\ t1 <> insurance_advice /\ t1 <> soil_test_advice)
    /\ (t2 <> drip_advice /\ t2 <> insurance_advice /\ t2 <> soil_test_advice).
Proof.
  unfold get_crop_info. intros E.
  apply lookup_In in E as [k Hk].
  assert (A : forallb (fun kv => tips_usable (snd kv)) CROP_KNOWLEDGE = true)
    by (vm_compute; reflexivity).
  rewrite forallb_forall in A. specialize (A _ Hk).
  unfold tips_usable in A. cbn [snd] in A.
  destruct (tips c) as [|t1 [|t2 rest]]; try discriminate.
  rewrite !andb_true_iff, !negb_true_iff in A.
  destruct A as [A1 A2].
  apply mem_false_not_In in A1, A2.
  exists t1, t2, rest. split; [reflexivity|].
  split; (split; [|split]); intros E.
  - apply A1. left. symmetry. exact E.
  - apply A1. right. left. symmetry. exact E.
  - apply A1. right. right. left. symmetry. exact E.
  - apply A2. left. symmetry. exact E.
  - apply A2. right. left. symmetry. exact E.
  - apply A2. right. right. left. symmetry. exact E.
Qed.

(** Which of the fixed advices survive the cut to five entries, for any
    wording of the advices. *)
Lemma advice_cut_known (fert t1 t2 drip ins soil : str) (rest : list str)
      (d h : bool) (l : list str) :
  l = firstn 5 (([fert] ++ firstn 2 (t1 :: t2 :: rest))
                  ++ (if d then [drip] else [])
                  ++ (if h then [ins] else [])
                  ++ [soil]) ->
  fert <> drip -> fert <> ins -> fert <> soil ->
  t1 <> drip /\ t1 <> ins /\ t1 <> soil ->
  t2 <> drip /\ t2 <> ins /\ t2 <> soil ->
  drip <> ins /\ drip <> soil /\ ins <> soil ->
  (In ins l <-> h = true)
  /\ (In drip l <-> d = true)
  /\ (In soil l <-> ~ (d = true /\ h = true)).
Proof.
  intros -> ? ? ? (? & ? & ?) (? & ? & ?) (? & ? & ?).
  destruct d, h; cbn [app firstn In];
    repeat split; intros; intuition congruence.
Qed.

Lemma advice_cut_unknown (drip ins soil : str) (d h : bool) (l : list str) :
  l = firstn 5 ([] ++ (if d then [drip] else [])
                   ++ (if h then [ins] else [])
                   ++ [soil]) ->
  drip <> ins /\ drip <> soil /\ ins <> soil ->
  (In ins l <-> h = true)
  /\ (In drip l <-> d = true)
  /\ In soil l.
Proof.
  intros -> (? & ? & ?).
  destruct d, h; cbn [app firstn In];
    repeat split; intros; intuition congruence.
Qed.

Lemma recommendations_of_advices (ci : option CropInfo) (irrigation : num)
      (risk : str) :
  recommendations_of ci irrigation risk =
    match ci with
    | Some c =>
        [ u"Recommended fertilizer: N-"
            ++ get_or (fertilizer_recommendation c) (u"N") (u"120 kg/ha")
            ++ u", P-" ++ get_or (fertilizer_recommendation c) (u"P") (u"60 kg/ha")
            ++ u", K-" ++ get_or (fertilizer_recommendation c) (u"K") (u"40 kg/ha") ]
        ++ firstn 2 (tips c)
    | None => []
    end
    ++ (if Qlt_bool (val irrigation) 50 then [drip_advice] else [])
    ++ (if eqb risk (u"High") then [insurance_advice] else [])
    ++ [soil_test_advice].
Proof.
  unfold recommendations_of, drip_advice, insurance_advice, soil_test_advice.
  reflexivity.
Qed.

(** X12.  In the recommendations of a prediction the advice to insure the
    crop is present exactly when the risk level is High and the advice about
    drip irrigation exactly when the irrigation (after defaults) is below 50.
    The advice to have the soil tested, which the code appends last, is cut
    off by the limit of five exactly when the crop is in the knowledge base,
    the irrigation is below 50 and the risk is High. *)
Theorem recommendations_kept_and_dropped `{Runtime}
    (ml : option artifacts) (fi : FarmInput) (w : world) (p : MLPrediction) :
  fst (predict_yield_ml ml fi w) = Ok p ->
  (In insurance_advice (recommendations p) <-> risk_level p = u"High")
  /\ (In drip_advice (recommendations p)
      <-> val (effective_irrigation fi) < 50)
  /\ (In soil_test_advice (recommendations p)
      <-> ~ (crop_info p <> None
             /\ val (effective_irrigation fi) < 50
             /\ risk_level p = u"High")).
Proof.
  rewrite predict_run. cbn [fst]. intros C.
  apply conclude_fields in C as (_ & _ & _ & _ & R & ->).
  pose proof (eqb_eq (risk_level p) (u"High")) as HI.
  pose proof (Qlt_bool_iff (val (effective_irrigation fi)) 50) as LO.
  rewrite recommendations_of_advices in R.
  destruct (crop_info_of fi) as [c|] eqn:K.
  - destruct (knowledge_tips_usable _ K) as (t1 & t2 & rest & T & T1 & T2).
    rewrite T in R.
    pose proof (fun x => @fertilizer_advice_differs x drip_advice
                           (or_introl eq_refl)) as F1.
    pose proof (fun x => @fertilizer_advice_differs x insurance_advice
                           (or_intror (or_introl eq_refl))) as F2.
    pose proof (fun x => @fertilizer_advice_differs x soil_test_advice
                           (or_intror (or_intror (or_introl eq_refl)))) as F3.
    destruct (@advice_cut_known _ _ _ _ _ _ _ _ _ _ R (F1 _) (F2 _) (F3 _) T1 T2
                               own_advices_distinct)
      as (A1 & A2 & A3).
    split; [exact (iff_trans A1 HI)|]. split; [exact (iff_trans A2 LO)|].
    split.
    + intros G (_ & G1 & G2). apply (proj1 A3 G).
      split; [apply LO, G1 | apply HI, G2].
    + intros G. apply A3. intros [G1 G2]. apply G.
      split; [discriminate|]. split; [apply LO, G1 | apply HI, G2].
  - destruct (@advice_cut_unknown _ _ _ _ _ _ R own_advices_distinct) as (A1 & A2 & A3).
    split; [exact (iff_trans A1 HI)|]. split; [exact (iff_trans A2 LO)|].
    split.
    + intros _ (G0 & _). apply G0. reflexivity.
    + intros _. exact A3.
Qed.

Lemma recommendations_kept_and_dropped_witness :
  exists p,
    fst (@predict_yield_ml sample_runtime (Some failing_artifacts)
           rice_on_regolith empty_world) = Ok p
    /\ In insurance_advice (recommendations p)
    /\ ~ In soil_test_advice (recommendations p).
Proof.
  eexists. split; [vm_compute; reflexivity|].
  destruct (@recommendations_kept_and_dropped sample_runtime
              (Some failing_artifacts) rice_on_regolith empty_world _ eq_refl)
    as (I & _ & S).
  split.
  - apply I. vm_compute. reflexivity.
  - intros Hin. apply S in Hin. apply Hin.
    split; [discriminate|]. split; vm_compute; reflexivity.
Defined.

(** ** [get_state_from_location] *)

Lemma first_match_cases {A} (d : list (str * A)) (s : str) :
  match first_match d s with
  | Some v => first_entry d s v
  | None => Forall (fun kv => ~ occurs (fst kv) s) d
  end.
Proof.
  induction d as [|[k v] d IH]; cbn [first_match]; [constructor|].
  destruct (contains k s) eqn:C.
  - exists [], k, d. split; [reflexivity|].
    split; [now apply contains_iff | constructor].
  - assert (N : ~ occurs k s).
    { intros O. apply contains_iff in O. congruence. }
    destruct (first_match d s) as [x|].
    + destruct IH as (pre & k' & post & -> & O & P).
      exists ((k, v) :: pre), k', post. split; [reflexivity|].
      split; [exact O | now constructor].
    + now constructor.
Qed.

Lemma first_entry_found {A} (d : list (str * A)) (s : str) (v : A) :
  first_entry d s v -> first_match d s = Some v.
Proof.
  intros (pre & k & post & -> & O & P).
  induction pre as [|[k' v'] pre IH]; cbn [app first_match].
  - apply contains_iff in O. now rewrite O.
  - inversion P as [|? ? N P']; subst. cbn [fst] in N.
    destruct (contains k' s) eqn:C; [|now apply IH].
    apply contains_iff in C. contradiction.
Qed.

Lemma none_entry_found {A} (d : list (str * A)) (s : str) :
  Forall (fun kv => ~ occurs (fst kv) s) d -> first_match d s = None.
Proof.
  intros P. pose proof (first_match_cases d s) as C.
  destruct (first_match d s) as [v|]; [|reflexivity].
  destruct C as (pre & k & post & -> & O & _).
  apply Forall_app in P as [_ P]. inversion P as [|? ? N _]; subst.
  contradiction.
Qed.

Lemma find_cases (names : list str) (s : str) :
  match find (fun n => contains n s) names with
  | Some k => first_listed names s k
  | None => Forall (fun n => ~ occurs n s) names
  end.
Proof.
  induction names as [|n names IH]; cbn [find]; [constructor|].
  destruct (contains n s) eqn:C.
  - exists [], names. split; [reflexivity|].
    split; [now apply contains_iff | constructor].
  - assert (N : ~ occurs n s).
    { intros O. apply contains_iff in O. congruence. }
    destruct (find (fun n => contains n s) names) as [x|].
    + destruct IH as (pre & post & -> & O & P).
      exists (n :: pre), post. split; [reflexivity|].
      split; [exact O | now constructor].
    + now constructor.
Qed.

Lemma first_listed_found (names : list str) (s k : str) :
  first_listed names s k -> find (fun n => contains n s) names = Some k.
Proof.
  intros (pre & post & -> & O & P).
  induction pre as [|n pre IH]; cbn [app find].
  - apply contains_iff in O. now rewrite O.
  - inversion P as [|? ? N P']; subst.
    destruct (contains n s) eqn:C; [|now apply IH].
    apply contains_iff in C. contradiction.
Qed.

Lemma none_listed_found (names : list str) (s : str) :
  Forall (fun n => ~ occurs n s) names ->
  find (fun n => contains n s) names = None.
Proof.
  intros P. pose proof (find_cases names s) as C.
  destruct (find (fun n => contains n s) names) as [k|]; [|reflexivity].
  destruct C as (pre & post & -> & O & _).
  apply Forall_app in P as [_ P]. inversion P as [|? ? N _]; subst.
  contradiction.
Qed.

(** X13.  [get_state_from_location] works on the lowercased location: the
    state of the first district of its table whose name occurs in it wins,
    also over a state named in the same text; without a district, the first
    key of [STATE_AGRI_INFO] that occurs in it; without either, the lowercased
    location itself.  One of the three cases always applies. *)
Theorem state_from_location_precedence (location : str) :
  let s := lower location in
  let r := get_state_from_location location in
  (forall state, first_entry district_state_map s state -> r = state)
  /\ (Forall (fun kv => ~ occurs (fst kv) s) district_state_map ->
      (forall state,
          first_listed (map fst STATE_AGRI_INFO) s state -> r = state)
      /\ (Forall (fun n => ~ occurs n s) (map fst STATE_AGRI_INFO) -> r = s))
  /\ ((exists state, first_entry district_state_map s state)
      \/ (exists state, first_listed (map fst STATE_AGRI_INFO) s state)
      \/ r = s).
Proof.
  intros s r. subst r. unfold get_state_from_location. fold s.
  split; [|split].
  - intros state F. now rewrite (@first_entry_found _ _ _ _ F).
  - intros N. rewrite (@none_entry_found _ _ _ N). split.
    + intros state F. now rewrite (@first_listed_found _ _ _ F).
    + intros N'. now rewrite (@none_listed_found _ _ N').
  - pose proof (first_match_cases district_state_map s) as C.
    destruct (first_match district_state_map s) as [state|].
    + left. now exists state.
    + pose proof (find_cases (map fst STATE_AGRI_INFO) s) as C'.
      destruct (find (fun n => contains n s) (map fst STATE_AGRI_INFO)) as [k|].
      * right. left. now exists k.
      * right. right. reflexivity.
Qed.

Example district_beats_state :
  get_state_from_location (u"Pune, Gujarat") = u"maharashtra"
  /\ get_state_from_location (u"Sangli, Maharashtra") = u"maharashtra"
  /\ get_state_from_location (u"Shimla ") = u"shimla ".
Proof. repeat split; vm_compute; reflexivity. Qed.

(** ** Lookups in the knowledge base *)

Lemma lower_cp_space (c : N) : is_space c = true -> lower_cp c = [c].
Proof.
  unfold is_space, lower_cp, is_upper. intros S.
  rewrite !orb_true_iff, !andb_true_iff, !N.leb_le, !N.eqb_eq in S.
  destruct (N.leb_spec 65 c); destruct (N.leb_spec c 90); cbn [andb];
    try (exfalso; lia);
    (destruct (N.eqb_spec c 8490); [exfalso; lia|]);
    (destruct (N.eqb_spec c 304); [exfalso; lia|]); reflexivity.
Qed.

Lemma lower_blank (a : str) : blank a = true -> lower a = a.
Proof.
  unfold blank, lower. induction a as [|c a IH]; cbn [forallb flat_map];
    [reflexivity|].
  intros B. apply andb_true_iff in B as [B1 B2].
  now rewrite (@lower_cp_space c B1), IH.
Qed.

Lemma lower_app (a b : str) : lower (a ++ b) = lower a ++ lower b.
Proof. apply flat_map_app. Qed.

Lemma lstrip_blank (a : str) : blank a = true -> lstrip a = [].
Proof.
  unfold blank. induction a as [|c a IH]; cbn [forallb lstrip]; [reflexivity|].
  intros B. apply andb_true_iff in B as [-> B2]. now apply IH.
Qed.

Lemma lstrip_app (m b : str) :
  lstrip (m ++ b) = if blank m then lstrip b else lstrip m ++ b.
Proof.
  unfold blank. induction m as [|c m IH]; cbn [app forallb lstrip];
    [reflexivity|].
  destruct (is_space c); cbn [andb]; [exact IH | reflexivity].
Qed.

Lemma blank_rev (b : str) : blank (rev b) = blank b.
Proof.
  unfold blank. apply eq_true_iff_eq. rewrite !forallb_forall.
  split; intros F x Hin; apply F; [now apply in_rev in Hin | now apply in_rev].
Qed.

Lemma rstrip_app_blank (m b : str) :
  blank b = true -> rstrip (m ++ b) = rstrip m.
Proof.
  intros B. unfold rstrip. rewrite rev_app_distr, lstrip_app, blank_rev, B.
  reflexivity.
Qed.

Lemma strip_margins (a m b : str) :
  blank a = true -> blank b = true -> strip (a ++ m ++ b) = strip m.
Proof.
  intros A B. unfold strip.
  rewrite (lstrip_app a), A, (lstrip_app m).
  destruct (blank m) eqn:M.
  - now rewrite (@lstrip_blank b B), (@lstrip_blank m M).
  - now apply rstrip_app_blank.
Qed.

Lemma normalised_key (a name' name b : str) :
  lower name' = lower name -> blank a = true -> blank b = true ->
  strip (lower (a ++ name' ++ b)) = strip (lower name).
Proof.
  intros E A B.
  rewrite !lower_app, (@lower_blank a A), (@lower_blank b B), E.
  now apply strip_margins.
Qed.

(** X14.  The lookups of the knowledge base ignore letter case and white
    space around the name: two names with the same lower case, one of them
    with blank margins, get the same answer from [get_crop_info] and from
    [get_state_info]. *)
Theorem knowledge_lookup_ignores_case_and_margins (a name' name b : str) :
  lower name' = lower name -> blank a = true -> blank b = true ->
  get_crop_info (a ++ name' ++ b) = get_crop_info name
  /\ get_state_info (a ++ name' ++ b) = get_state_info name.
Proof.
  intros E A B. unfold get_crop_info, get_state_info.
  now rewrite (@normalised_key a name' name b E A B).
Qed.

Lemma knowledge_lookup_ignores_case_and_margins_witness :
  get_crop_info (u"  RICE ") = get_crop_info (u"Rice")
  /\ get_state_info (u"  RICE ") = get_state_info (u"Rice").
Proof.
  apply (@knowledge_lookup_ignores_case_and_margins
           (u"  ") (u"RICE") (u"Rice") (u" ")); reflexivity.
Defined.

Lemma lookup_In_iff {A} (d : list (str * A)) (key : str) (v : A) :
  distinct (map fst d) = true ->
  (lookup key d = Some v <-> In (key, v) d).
Proof.
  induction d as [|[k x] d IH]; cbn [map fst distinct lookup In].
  - intros _. split; [discriminate | intros []].
  - intros D. apply andb_true_iff in D as [D1 D2].
    apply negb_true_iff in D1. apply mem_false_not_In in D1.
    specialize (IH D2).
    destruct (eqb k key) eqn:E.
    + apply eqb_eq in E. subst k. split.
      * intros [= ->]. now left.
      * intros [[= ->] | Hin]; [reflexivity|].
        exfalso. apply D1. apply in_map_iff. now exists (key, v).
    + rewrite IH. split; [now right|].
      intros [[= -> ->] | Hin]; [|exact Hin].
      rewrite eqb_refl in E. discriminate.
Qed.

Lemma knowledge_keys_distinct :
  distinct (map fst CROP_KNOWLEDGE) = true
  /\ distinct (map fst STATE_AGRI_INFO) = true.
Proof. split; vm_compute; reflexivity. Qed.

(** X15.  The routes [get_crop_details] and [get_state_details] answer with
    an entry exactly when the name, lowercased and stripped, is a key of the
    table, and then with the entry of that key; otherwise they raise the
    404 error that quotes the name as it was given. *)
Theorem details_found_iff_listed (raw : str) :
  (forall c, get_crop_details raw = Ok c
             <-> In (strip (lower raw), c) CROP_KNOWLEDGE)
  /\ ((forall c, ~ In (strip (lower raw), c) CROP_KNOWLEDGE) ->
      get_crop_details raw =
        Raise (HTTPException 404
                 (u"Crop '" ++ raw ++ u"' not found in knowledge base")))
  /\ (forall i, get_state_details raw = Ok i
                <-> In (strip (lower raw), i) STATE_AGRI_INFO)
  /\ ((forall i, ~ In (strip (lower raw), i) STATE_AGRI_INFO) ->
      get_state_details raw =
        Raise (HTTPException 404
                 (u"State '" ++ raw ++ u"' not found in knowledge base"))).
Proof.
  destruct knowledge_keys_distinct as [DC DS].
  unfold get_crop_details, get_state_details, get_crop_info, get_state_info.
  pose proof (fun c => @lookup_In_iff _ CROP_KNOWLEDGE (strip (lower raw)) c DC) as LC.
  pose proof (fun i => @lookup_In_iff _ STATE_AGRI_INFO (strip (lower raw)) i DS) as LS.
  split; [|split; [|split]].
  - intros c. rewrite <- LC.
    destruct (lookup (strip (lower raw)) CROP_KNOWLEDGE) as [c'|].
    + split; intros [= ->]; reflexivity.
    + split; discriminate.
  - intros N.
    destruct (lookup (strip (lower raw)) CROP_KNOWLEDGE) as [c'|] eqn:E;
      [|reflexivity].
    elim (N c'). now apply LC.
  - intros i. rewrite <- LS.
    destruct (lookup (strip (lower raw)) STATE_AGRI_INFO) as [i'|].
    + split; intros [= ->]; reflexivity.
    + split; discriminate.
  - intros N.
    destruct (lookup (strip (lower raw)) STATE_AGRI_INFO) as [i'|] eqn:E;
      [|reflexivity].
    elim (N i'). now apply LS.
Qed.

Example crop_details_examples :
  (exists c, get_crop_details (u" WHEAT") = Ok c
             /\ rmax (yield_range_kg_ha c) = 5500%Z)
  /\ get_crop_details (u"Quinoa ")
       = Raise (HTTPException 404 (u"Crop 'Quinoa ' not found in knowledge base")).
Proof. split; [eexists; split|]; vm_compute; reflexivity. Qed.

(** ** Sessions *)

Lemma find_session_fresh (l : list Session) (id : str) :
  Forall (fun s => sess_id s <> id) l ->
  forall tl, find (fun s => eqb (sess_id s) id) (l ++ tl)
             = find (fun s => eqb (sess_id s) id) tl.
Proof.
  induction 1 as [|s l N _ IH]; intros tl; cbn [app find]; [reflexivity|].
  destruct (eqb (sess_id s) id) eqn:E; [|apply IH].
  apply eqb_eq in E. contradiction.
Qed.

Lemma bson_datetime_cut (t : Z) :
  (bson_datetime t <= t < bson_datetime t + 1000)%Z
  /\ (1000 | bson_datetime t)%Z
  /\ (bson_datetime t = t <-> (1000 | t))%Z.
Proof.
  unfold bson_datetime.
  pose proof (Z.div_mod t 1000 ltac:(lia)) as D.
  pose proof (Z.mod_pos_bound t 1000 ltac:(lia)) as B.
  split; [lia|]. split; [apply Z.divide_factor_l|].
  split.
  - intros E. exists (t / 1000)%Z. lia.
  - intros [k ->]. rewrite Z.div_mul by lia. lia.
Qed.

(** X16.  A session created under an identifier that no stored session has
    can be fetched by [get_session] when the database accepted the write, and
    [get_session] changes nothing.  The session read back has the identifier,
    the language and the empty farm context of the one [create_session]
    returned; its two time stamps are those of the creation cut down to whole
    milliseconds, which is what MongoDB keeps of a [datetime].  So
    [get_session] returns the very session [create_session] returned exactly
    when both stamps fell on a whole millisecond. *)
Theorem created_session_can_be_fetched
    (uuid4 : str) (t1 t2 : Z) (language : str) (w : world) :
  Forall (fun s => sess_id s <> uuid4) (db_sessions w) ->
  let created := create_session uuid4 t1 t2 (Ok tt) language w in
  exists session fetched,
    fst created = Ok session
    /\ get_session (Ok tt) uuid4 (snd created) = (Ok fetched, snd created)
    /\ sess_id fetched = uuid4
    /\ sess_language fetched = language
    /\ farm_context fetched = None
    /\ (created_at fetched <= t1 < created_at fetched + 1000)%Z
    /\ (1000 | created_at fetched)%Z
    /\ (updated_at fetched <= t2 < updated_at fetched + 1000)%Z
    /\ (1000 | updated_at fetched)%Z
    /\ (fetched = session <-> (1000 | t1) /\ (1000 | t2))%Z.
Proof.
  intros Fresh created. subst created.
  rewrite create_session_run. cbn [fst snd].
  unfold get_session, sessions_find_one, bind, get, ret.
  cbn [db_sessions with_sessions].
  rewrite (@find_session_fresh _ _ Fresh). cbn [find sess_id].
  rewrite eqb_refl. cbn [option_map].
  eexists _, _. split; [reflexivity|]. split; [reflexivity|].
  unfold stored_session.
  cbn [sess_id sess_language farm_context created_at updated_at].
  destruct (bson_datetime_cut t1) as (B1 & D1 & E1).
  destruct (bson_datetime_cut t2) as (B2 & D2 & E2).
  do 3 (split; [reflexivity|]).
  split; [exact B1|]. split; [exact D1|].
  split; [exact B2|]. split; [exact D2|].
  split.
  - intros [= H1 H2]. split; [now apply E1 | now apply E2].
  - intros [H1 H2]. apply E1 in H1. apply E2 in H2. now rewrite H1, H2.
Qed.

Lemma created_session_can_be_fetched_witness :
  exists fetched,
    get_session (Ok tt) (u"a2d7")
      (snd (create_session (u"a2d7") 2000123 2000456 (Ok tt) (u"te") busy_world))
    = (Ok fetched,
       snd (create_session (u"a2d7") 2000123 2000456 (Ok tt) (u"te") busy_world))
    /\ created_at fetched = 2000000%Z
    /\ updated_at fetched = 2000000%Z.
Proof.
  destruct (@created_session_can_be_fetched
              (u"a2d7") 2000123 2000456 (u"te") busy_world)
    as (session & fetched & _ & G & _ & _ & _ & B1 & [k1 D1] & B2 & [k2 D2] & _).
  - repeat constructor; vm_compute; discriminate.
  - exists fetched. split; [exact G|]. split; lia.
Defined.

(** ** Messages *)










Example messages_of_a_session_in_order :
  fst (get_messages (Ok tt) (u"9f1c") busy_world)
  = Ok [stored (u"m1") (u"9f1c") 10; stored (u"m2") (u"9f1c") 20;
        stored (u"m3") (u"9f1c") 30].
Proof. vm_compute. reflexivity. Qed.

(** ** The registry of chats *)

Lemma lookup_app_absent {A} (d tl : list (str * A)) (key : str) :
  lookup key d = None -> lookup key (d ++ tl) = lookup key tl.
Proof.
  induction d as [|[k v] d IH]; cbn [app lookup]; [reflexivity|].
  destruct (eqb k key); [discriminate | exact IH].
Qed.

Lemma lookup_app_other {A} (d : list (str * A)) (key other : str) (v : A) :
  other <> key -> lookup other (d ++ [(key, v)]) = lookup other d.
Proof.
  intros N. induction d as [|[k x] d IH]; cbn [app lookup].
  - destruct (eqb key other) eqn:E; [|reflexivity].
    apply eqb_eq in E. congruence.
  - destruct (eqb k other); [reflexivity | exact IH].
Qed.

(** X19.  [get_or_create_chat] registers a chat once per session: the chat it
    returns is the one registered under the session identifier afterwards, a
    second call (whatever key and prompt are configured by then) returns the
    same chat and changes nothing, the chats of other sessions and the two
    collections are untouched, and a chat that did not exist starts with the
    system prompt as its only history entry and the model ["gpt-4o"]. *)
Theorem chat_is_registered_once
    (key prompt key' prompt' session_id : str) (w : world) :
  let first := get_or_create_chat key prompt session_id w in
  exists chat,
    fst first = Ok chat
    /\ lookup session_id (chat_sessions (snd first)) = Some chat
    /\ get_or_create_chat key' prompt' session_id (snd first)
       = (Ok chat, snd first)
    /\ (forall other, other <> session_id ->
          lookup other (chat_sessions (snd first))
          = lookup other (chat_sessions w))
    /\ db_sessions (snd first) = db_sessions w
    /\ db_messages (snd first) = db_messages w
    /\ log (snd first) = log w
    /\ (lookup session_id (chat_sessions w) = None ->
        Chat.history chat
          = [ {| Chat.role := u"system"; Chat.content := JStr prompt |} ]
        /\ Chat.api_key chat = key
        /\ Chat.session_id chat = session_id
        /\ Chat.model chat = u"gpt-4o")
    /\ (forall old, lookup session_id (chat_sessions w) = Some old ->
        chat = old /\ snd first = w).
Proof.
  intros first. subst first.
  unfold get_or_create_chat, bind, get, ret, modify.
  destruct (lookup session_id (chat_sessions w)) as [old|] eqn:L.
  - exists old. cbn [fst snd]. rewrite ?L.
    do 7 (split; [reflexivity|]).
    split; [discriminate|].
    intros old' [= <-]. split; reflexivity.
  - eexists. cbn [fst snd chat_sessions db_sessions db_messages log].
    split; [reflexivity|].
    assert (R : forall c, lookup session_id (chat_sessions w ++ [(session_id, c)])
                          = Some c).
    { intros c. rewrite (@lookup_app_absent _ _ _ _ L). cbn [lookup].
      now rewrite eqb_refl. }
    rewrite !R. split; [reflexivity|]. split; [reflexivity|].
    split; [intros other N; now apply lookup_app_other|].
    do 3 (split; [reflexivity|]).
    split; [intros _; repeat split; reflexivity|].
    intros old'. discriminate.
Qed.

(** ** When [predict_yield_ml] raises *)

Lemma select_raises {A} (mask : A -> res bool) (rows : list A) (e : exn) :
  select mask rows = Raise e -> exists r, In r rows /\ mask r = Raise e.
Proof.
  induction rows as [|r rows IH]; cbn [select]; [discriminate|].
  unfold bind_res. destruct (mask r) as [keep|e'] eqn:M.
  - destruct (select mask rows) as [rest|e'']; [discriminate|].
    intros [= <-]. destruct (IH eq_refl) as (r' & Hin & Hr).
    exists r'. split; [now right | exact Hr].
  - intros [= <-]. exists r. split; [now left | exact M].
Qed.

Lemma select_returns {A} (mask : A -> res bool) (rows : list A) :
  (forall r, In r rows -> returns (mask r)) -> returns (select mask rows).
Proof.
  induction rows as [|r rows IH]; cbn [select]; intros T.
  - now exists [].
  - unfold bind_res. destruct (T r (or_introl eq_refl)) as [keep ->].
    destruct IH as [rest ->]; [intros r' Hin; apply T; now right|].
    now eexists.
Qed.

(** X20.  The only exception [predict_yield_ml] lets escape is the one of the
    pandas search for the first five characters of the state name: if the call
    raises, the model is loaded and the exception was raised by
    [str.contains] on a row of the CSV whose crop is the crop asked for
    (letter case apart).  Conversely the call returns whenever that search
    returns on every such row. *)
Theorem predict_raises_only_on_state_pattern `{Runtime}
    (ml : option artifacts) (fi : FarmInput) (w : world) :
  (forall e, fst (predict_yield_ml ml fi w) = Raise e ->
     exists art row,
       ml = Some art
       /\ In row (crop_data art)
       /\ lower (Crop row) = lower (crop_type fi)
       /\ re_contains (take 5 (get_state_from_location (location fi)))
                      (lower (State row)) = Raise e)
  /\ ((forall art row,
         ml = Some art -> In row (crop_data art) ->
         lower (Crop row) = lower (crop_type fi) ->
         returns (re_contains (take 5 (get_state_from_location (location fi)))
                              (lower (State row)))) ->
      returns (fst (predict_yield_ml ml fi w))).
Proof.
  rewrite predict_run. cbn [fst]. split.
  - intros e. unfold conclude, bind_res.
    destruct (averages ml fi (state_name_of fi)) as [avgs|e'] eqn:A;
      [discriminate|].
    intros [= <-]. unfold averages, bind_res in A.
    destruct ml as [art|]; [|discriminate].
    destruct (filter _ (crop_data art)) as [|r0 rows] eqn:Fl; [discriminate|].
    destruct (select _ (r0 :: rows)) as [[|x xs]|e''] eqn:S; try discriminate.
    injection A as <-.
    apply select_raises in S as (row & Hin & Hr).
    rewrite <- Fl in Hin. apply filter_In in Hin as [Hin E].
    apply eqb_eq in E.
    exists art, row. repeat split; assumption.
  - intros T. apply conclude_total.
    unfold averages, bind_res.
    destruct ml as [art|]; [|now eexists].
    destruct (filter _ (crop_data art)) as [|r0 rows] eqn:Fl; [now eexists|].
    destruct (@select_returns _
                (fun row => re_contains (take 5 (state_name_of fi))
                                        (lower (State row)))
                (r0 :: rows)) as [found ->].
    + intros r Hin. rewrite <- Fl in Hin. apply filter_In in Hin as [Hin E].
      apply eqb_eq in E. exact (T art r eq_refl Hin E).
    + destruct found; now eexists.
Qed.

Lemma predict_raises_only_on_state_pattern_witness :
  exists row,
    In row (crop_data sample_artifacts)
    /\ @re_contains sample_runtime (u"(near") (lower (State row))
       = Raise (Exn (u"error")
                  (u"missing ), unterminated subpattern at position 0")).
Proof.
  destruct (proj1 (@predict_raises_only_on_state_pattern sample_runtime
                     (Some sample_artifacts)
                     {| crop_type := u"rice"; soil_type := u"clay";
                        season := u"rabi"; location := u"(near the river";
                        rainfall_mm := None; irrigation_percent := None;
                        fertilizer_kg_ha := None; temperature_c := None;
                        area_hectares := None |}
                     empty_world)
                  (Exn (u"error")
                     (u"missing ), unterminated subpattern at position 0"))
                  eq_refl)
    as (art & row & E & Hin & _ & R).
  injection E as <-. exists row. split; [exact Hin | exact R].
Defined.

(** ** The knowledge-based estimate grows with irrigation *)

Ltac qtests :=
  repeat match goal with
         | H : Qlt_bool _ _ = true |- _ => apply Qlt_bool_iff in H
         | H : Qlt_bool _ _ = false |- _ => apply Qlt_bool_false_iff in H
         end.

Lemma round_half_even_mono (x y : Q) :
  x <= y -> (round_half_even x <= round_half_even y)%Z.
Proof.
  intros L. pose proof (Qfloor_resp_le _ _ L) as F.
  destruct (Z.eq_dec (Qfloor x) (Qfloor y)) as [E|N].
  - unfold round_half_even. rewrite E. set (f := Qfloor y).
    destruct (Qlt_bool (x - inject_Z f) (1 # 2)) eqn:A;
      destruct (Qlt_bool (y - inject_Z f) (1 # 2)) eqn:B;
      destruct (Qlt_bool (1 # 2) (x - inject_Z f)) eqn:C;
      destruct (Qlt_bool (1 # 2) (y - inject_Z f)) eqn:D;
      destruct (Z.even f); qtests; try lia; exfalso; lra.
  - destruct (round_half_even_bounds x) as [[_ U] _].
    destruct (round_half_even_bounds y) as [[Lo _] _]. lia.
Qed.

Lemma round2_mono (x y : Q) : x <= y -> round2 x <= round2 y.
Proof.
  intros L. unfold round2.
  assert (M : (round_half_even (x * 100) <= round_half_even (y * 100))%Z)
    by (apply round_half_even_mono; lra).
  rewrite Zle_Qle in M. unfold Qdiv. change (/ 100) with (1 # 100). lra.
Qed.

Lemma clamp_mono (lo hi x y : Q) :
  x <= y -> pymax lo (pymin hi x) <= pymax lo (pymin hi y).
Proof.
  intros L. unfold pymin.
  destruct (Qlt_bool x hi) eqn:A; destruct (Qlt_bool y hi) eqn:B;
    unfold pymax;
    repeat match goal with
           | |- context [Qlt_bool ?a ?b] =>
               let E := fresh "E" in destruct (Qlt_bool a b) eqn:E
           end;
    qtests; lra.
Qed.

Lemma knowledge_estimate_mono (crop : CropInfo) (rainfall fertilizer : num)
      (i1 i2 : Q) :
  (0 <= ravg (yield_range_kg_ha crop))%Z ->
  0 <= val fertilizer ->
  i1 <= i2 ->
  knowledge_estimate crop rainfall (F i1) fertilizer
    <= knowledge_estimate crop rainfall (F i2) fertilizer.
Proof.
  intros B Fe L. unfold knowledge_estimate. cbv zeta. apply clamp_mono.
  cbn [val]. rewrite Zle_Qle in B. change (inject_Z 0) with 0 in B.
  set (b := inject_Z (ravg (yield_range_kg_ha crop))) in *.
  unfold Qdiv. change (/ 100) with (1 # 100). change (/ 200) with (1 # 200).
  set (rf := if _ : bool then 1.0 else 0.85).
  assert (Rf : 0 <= rf) by (subst rf; destruct (_ && _); lra).
  apply Qmult_le_compat_r; [|lra].
  apply Qmult_le_compat_r; [|exact Rf].
  rewrite (Qmult_comm b (1.0 + (i1 - 50) * (1 # 100) * 0.3)),
          (Qmult_comm b (1.0 + (i2 - 50) * (1 # 100) * 0.3)).
  apply Qmult_le_compat_r; [lra | exact B].
Qed.

Lemma average_nonnegative (name : str) (c : CropInfo) :
  get_crop_info name = Some c -> (0 <= ravg (yield_range_kg_ha c))%Z.
Proof.
  unfold get_crop_info. intros E.
  apply lookup_In in E as [k Hk].
  assert (A : forallb (fun kv => (0 <=? ravg (yield_range_kg_ha (snd kv)))%Z)
                      CROP_KNOWLEDGE = true)
    by (vm_compute; reflexivity).
  rewrite forallb_forall in A. specialize (A _ Hk).
  now apply Z.leb_le in A.
Qed.

Lemma effective_irrigation_given (fi : FarmInput) (i : Q) :
  0 < i -> effective_irrigation (with_irrigation fi i) = F i.
Proof.
  intros P. unfold effective_irrigation, with_irrigation, or_default.
  cbn [irrigation_percent].
  destruct (Qeq_bool i 0) eqn:E; [|reflexivity].
  apply Qeq_bool_iff in E. lra.
Qed.

(** X23.  On the knowledge-based path more irrigation never lowers the
    predicted yield: for two requests that differ in their (positive)
    irrigation coverage only, for a crop of the knowledge base and a
    fertilizer amount that is not negative, when the model path raises for
    both, the yield predicted for the larger coverage is at least the one
    predicted for the smaller. *)
Theorem fallback_grows_with_irrigation `{Runtime}
    (art : artifacts) (fi : FarmInput) (w : world) (i1 i2 : Q)
    (crop : CropInfo) (e1 e2 : exn) (p1 p2 : MLPrediction) :
  crop_info_of fi = Some crop ->
  0 <= val (effective_fertilizer fi) ->
  0 < i1 /\ i1 <= i2 ->
  try_outcome art (with_irrigation fi i1) = Raise e1 ->
  try_outcome art (with_irrigation fi i2) = Raise e2 ->
  fst (predict_yield_ml (Some art) (with_irrigation fi i1) w) = Ok p1 ->
  fst (predict_yield_ml (Some art) (with_irrigation fi i2) w) = Ok p2 ->
  predicted_yield_kg_ha p1 <= predicted_yield_kg_ha p2.
Proof.
  intros K Fe [P L] T1 T2 R1 R2.
  rewrite predict_run in R1, R2. cbn [fst] in R1, R2.
  apply conclude_fields in R1 as (-> & _), R2 as (-> & _).
  apply round2_mono.
  assert (K1 : crop_info_of (with_irrigation fi i1) = Some crop) by exact K.
  assert (K2 : crop_info_of (with_irrigation fi i2) = Some crop) by exact K.
  destruct (@estimate_on_error art _ e1 crop T1 K1) as [-> _].
  destruct (@estimate_on_error art _ e2 crop T2 K2) as [-> _].
  rewrite (@effective_irrigation_given fi i1 P).
  rewrite (@effective_irrigation_given fi i2) by lra.
  change (effective_rainfall (with_irrigation fi i1)) with (effective_rainfall fi).
  change (effective_rainfall (with_irrigation fi i2)) with (effective_rainfall fi).
  change (effective_fertilizer (with_irrigation fi i1)) with (effective_fertilizer fi).
  change (effective_fertilizer (with_irrigation fi i2)) with (effective_fertilizer fi).
  apply knowledge_estimate_mono; [|exact Fe | exact L].
  exact (@average_nonnegative _ _ K).
Qed.

Lemma fallback_grows_with_irrigation_witness :
  exists p1 p2,
    fst (@predict_yield_ml sample_runtime (Some failing_artifacts)
           (with_irrigation rice_on_regolith 35) empty_world) = Ok p1
    /\ fst (@predict_yield_ml sample_runtime (Some failing_artifacts)
              (with_irrigation rice_on_regolith 60) empty_world) = Ok p2
    /\ predicted_yield_kg_ha p1 <= predicted_yield_kg_ha p2.
Proof.
  eexists _, _.
  split; [vm_compute; reflexivity|]. split; [vm_compute; reflexivity|].
  eapply (@fallback_grows_with_irrigation sample_runtime failing_artifacts
            rice_on_regolith empty_world 35 60 rice).
  - vm_compute. reflexivity.
  - vm_compute. discriminate.
  - split; vm_compute; [reflexivity | discriminate].
  - vm_compute. reflexivity.
  - vm_compute. reflexivity.
  - reflexivity.
  - reflexivity.
Defined.

End ServerFacts2.

(* ================================================================== *)
(** * The chart routes *)
(* ================================================================== *)

Module RoutesFacts.
Import PyStr Py PyNum Json Knowledge Server Routes.
Import PyStrSpec ServerSpec ServerSpec2 PyStrFacts ServerFacts ServerFacts2.
Open Scope Q_scope.

(** ** The pie chart of factors *)

Lemma rainfall_share_as_tests (fi : FarmInput) :
  rainfall_share fi =
    (if Qlt_bool 600 (val (effective_rainfall fi))
     then if Qlt_bool (val (effective_rainfall fi)) 1200 then 30 else 25
     else 25)%Z.
Proof.
  unfold rainfall_share.
  set (rain := val (effective_rainfall fi)).
  destruct (Qlt_bool 600 rain) eqn:A;
    [apply Qlt_bool_iff in A | apply Qlt_bool_false_iff in A];
    (destruct (Qlt_bool rain 1200) eqn:B;
     [apply Qlt_bool_iff in B | apply Qlt_bool_false_iff in B]);
    destruct (Qlt_le_dec 600 rain); try destruct (Qlt_le_dec rain 1200);
    try reflexivity; exfalso; lra.
Qed.

(** The dictionary of shares after the loop over the factors. *)
Lemma adjusted_shares `{Runtime} (fi : FarmInput) (fs : list factor) :
  fs = firstn 5 (factors_of fi (crop_info_of fi) (effective_irrigation fi)
                            (effective_rainfall fi) (effective_fertilizer fi)) ->
  let factor_values :=
    fold_left adjust fs
      [ (u"Irrigation", match fs with [] => 25%Z | _ :: _ => 30%Z end);
        (u"Rainfall", 25%Z); (u"Soil Type", 20%Z);
        (u"Fertilizer", 15%Z); (u"Season", 10%Z) ] in
  map fst factor_values =
    [u"Irrigation"; u"Rainfall"; u"Soil Type"; u"Fertilizer"; u"Season"]
  /\ map snd factor_values =
       [irrigation_share fi; rainfall_share fi; soil_share fi;
        fertilizer_share fi; 10%Z]
  /\ sum_Z (map snd factor_values) =
       (100 + 5 * (count_impact (u"Positive") fs
                   - count_impact (u"Negative") fs))%Z.
Proof.
  intros ->.
  rewrite rainfall_share_as_tests.
  unfold irrigation_share, fertilizer_share, soil_share, factors_of.
  destruct (crop_info_of fi) as [c|];
    [destruct (mem (title (soil_type fi)) (optimal_soil c))|];
    destruct (Qle_bool 70 (val (effective_irrigation fi)));
    destruct (Qle_bool 40 (val (effective_irrigation fi)));
    destruct (Qlt_bool 600 (val (effective_rainfall fi)));
    destruct (Qlt_bool (val (effective_rainfall fi)) 1200);
    destruct (Qle_bool 120 (val (effective_fertilizer fi)));
    vm_compute; repeat split.
Qed.

(** X21.  The pie chart of [get_factors_chart] always has the five labels
    Irrigation, Rainfall, Soil Type, Fertilizer and Season, in this order (the
    loop over the factors never adds a key).  Its values are read off the
    inputs with the tests of the code: 35 when [irrigation >= 70], 30 when
    [irrigation >= 40], 25 in the final [else] (the starting value 25 for an
    empty list of factors is never used); 30 when [600 < rainfall < 1200] and
    25 otherwise; 25 for a soil on the crop's list of optimal soils and 20
    otherwise; 20 when [fertilizer >= 120] and 15 otherwise; 10 for the
    season.  They sum to 100 plus five
    for every Positive factor minus five for every Negative one, so not to
    100 in general.  The route changes the world as [predict_yield_ml]
    does. *)
Theorem factors_chart_shares `{Runtime}
    (ml : option artifacts) (fi : FarmInput) (w : world) (chart : pie_chart) :
  fst (get_factors_chart ml fi w) = Ok chart ->
  pie_labels chart =
    [u"Irrigation"; u"Rainfall"; u"Soil Type"; u"Fertilizer"; u"Season"]
  /\ pie_values chart =
       [irrigation_share fi; rainfall_share fi; soil_share fi;
        fertilizer_share fi; 10%Z]
  /\ sum_Z (pie_values chart) =
       (100 + 5 * (count_impact (u"Positive") (pie_insights chart)
                   - count_impact (u"Negative") (pie_insights chart)))%Z
  /\ snd (get_factors_chart ml fi w) = snd (predict_yield_ml ml fi w).
Proof.
  unfold get_factors_chart, bind, ret. rewrite predict_run.
  destruct (conclude ml fi (fst (estimate ml fi))) as [p|e] eqn:C;
    cbn [fst snd]; [|discriminate].
  intros [= <-]. cbn [pie_labels pie_values pie_insights].
  apply conclude_fields in C as (_ & _ & _ & F & _).
  destruct (@adjusted_shares _ fi _ F) as (A1 & A2 & A3).
  repeat split; assumption.
Qed.

Lemma factors_chart_shares_witness :
  exists chart,
    fst (@get_factors_chart sample_runtime (Some failing_artifacts)
           rice_on_regolith empty_world) = Ok chart
    /\ pie_values chart = [25; 25; 20; 20; 10]%Z
    /\ sum_Z (pie_values chart) = 100%Z.
Proof.
  eexists. split; [vm_compute; reflexivity|].
  destruct (@factors_chart_shares sample_runtime (Some failing_artifacts)
              rice_on_regolith empty_world _ eq_refl) as (_ & V & S & _).
  split; [exact V | exact S].
Defined.

Example factors_chart_not_a_partition :
  match @get_factors_chart sample_runtime None wheat_unknown_place empty_world with
  | (Ok chart, _) =>
      pie_values chart = [35; 30; 25; 20; 10]%Z
      /\ sum_Z (pie_values chart) = 120%Z
  | _ => False
  end.
Proof. vm_compute. repeat split. Qed.

(** ** The bar chart of yields *)

Lemma estimate_fallback_yield (ml : option artifacts) (fi : FarmInput)
      (crop : CropInfo) :
  crop_info_of fi = Some crop ->
  ml = None \/ snd (estimate ml fi) <> [] ->
  inject_Z (rmin (yield_range_kg_ha crop))
    <= predicted_yield (fst (estimate ml fi))
    <= inject_Z (rmax (yield_range_kg_ha crop)).
Proof.
  intros K G.
  assert (E : forall l,
             predicted_yield (after_error fi l) =
               knowledge_estimate crop (effective_rainfall fi)
                 (effective_irrigation fi) (effective_fertilizer fi)).
  { intros l. unfold after_error. now rewrite K. }
  assert (D : inject_Z (rmin (yield_range_kg_ha crop))
              <= inject_Z (default_yield_of fi)
              <= inject_Z (rmax (yield_range_kg_ha crop))).
  { unfold default_yield_of. rewrite K.
    pose proof (@average_within_range _ _ K) as [A B].
    rewrite Zle_Qle in A, B. split; assumption. }
  unfold estimate in *. destruct ml as [art|]; [|exact D].
  destruct G as [G|G]; [discriminate|].
  destruct (model_output art fi) as [y|e].
  - destruct (getitem (model_stats art) (u"test_score")) as [ts|e].
    + now elim G.
    + cbn [fst]. rewrite E. exact (@knowledge_estimate_within _ _ _ _ _ K).
  - cbn [fst]. rewrite E. exact (@knowledge_estimate_within _ _ _ _ _ K).
Qed.

(** X22.  In the bar chart of [get_yield_comparison_chart] the bar "Best
    Case" of a crop of the knowledge base is the upper end of its yield range,
    and the bar "Your Prediction" does not exceed it (nor fall below the lower
    end) whenever the knowledge-based path was taken: the model is absent, or
    the call logged a warning.  Without the model the bars "State Average" and
    "National Average" are 0.9 and 0.85 times the prediction. *)
Theorem yield_chart_best_case `{Runtime}
    (ml : option artifacts) (fi : FarmInput) (w : world) (chart : bar_chart)
    (crop : CropInfo) :
  fst (get_yield_comparison_chart ml fi w) = Ok chart ->
  crop_info_of fi = Some crop ->
  ml = None \/ snd (get_yield_comparison_chart ml fi w) <> w ->
  exists y s n,
    bar_values chart = [y; s; n; inject_Z (rmax (yield_range_kg_ha crop))]
    /\ inject_Z (rmin (yield_range_kg_ha crop)) <= y
    /\ y <= inject_Z (rmax (yield_range_kg_ha crop))
    /\ (ml = None -> s = y * 0.9 /\ n = y * 0.85).
Proof.
  unfold get_yield_comparison_chart, bind, ret. rewrite predict_run.
  destruct (conclude ml fi (fst (estimate ml fi))) as [p|e] eqn:C;
    cbn [fst snd]; [|discriminate].
  intros [= <-] K G. cbn [bar_values].
  pose proof C as C'.
  apply conclude_fields in C' as (Y & _ & _ & _ & _ & CI).
  rewrite CI, K. do 3 eexists. split; [reflexivity|].
  assert (G' : ml = None \/ snd (estimate ml fi) <> []).
  { destruct G as [G|G]; [now left | right].
    now apply logged_changes in G. }
  pose proof (@estimate_fallback_yield ml fi crop K G') as B.
  apply round2_within in B. rewrite <- Y in B.
  split; [apply B|]. split; [apply B|].
  intros ->. unfold conclude, averages, bind_res in C.
  injection C as <-. cbn. split; reflexivity.
Qed.

Lemma yield_chart_best_case_witness :
  exists chart y s n,
    fst (@get_yield_comparison_chart sample_runtime (Some failing_artifacts)
           rice_on_regolith empty_world) = Ok chart
    /\ bar_values chart = [y; s; n; 6500]
    /\ y <= 6500.
Proof.
  destruct (@yield_chart_best_case sample_runtime (Some failing_artifacts)
              rice_on_regolith empty_world _ rice eq_refl eq_refl)
    as (y & s & n & V & _ & U & _).
  - right. vm_compute. discriminate.
  - eexists _, y, s, n. split; [reflexivity|]. split; [exact V | exact U].
Defined.

Example model_exceeds_best_case :
  match @get_yield_comparison_chart sample_runtime (Some sample_artifacts)
          rice_in_punjab empty_world with
  | (Ok chart, _) =>
      map Qred (bar_values chart) = [9060; 4200; 3550; 6500]
      /\ bar_title chart = u"Rice Yield Comparison"
  | _ => False
  end.
Proof. vm_compute. repeat split. Qed.

End RoutesFacts.
